(** * Agentic Data Studio (app.py): a shallow embedding and its properties

    The application is a Streamlit script.  Its logic lives in two helper
    functions ([apply_theme], [render_status_badge]) and in the bodies of the
    dashboard, document-generation and agent-runner tabs.  This development
    embeds those pieces as Rocq functions and proves what the specification
    says about them.

    Conventions of the embedding:
    - Python [str] is [string], holding the UTF-8 bytes of the text; [strip]
      and slicing work on the characters those bytes encode, with the white
      space of Unicode, and [lower] is exact wherever its result is compared
      with ASCII text.
    - Python [int] is [Z].
    - a [dict] is an association list in insertion order, updated in place by
      [dict_set].
    - the collaborating modules [google_utils] and [llm_providers] are not
      part of the application file; they are interfaces ([GoogleUtils],
      [LlmProviders]) over an abstract world, and every call may raise.
    - Streamlit output is a trace of [event]s; widget calls do not raise. *)

From Stdlib Require Import String Ascii List ZArith Bool Lia DecimalString.
From Stdlib Require Import QArith Qround Qpower Lqa.
Import ListNotations.
Open Scope string_scope.
Open Scope Z_scope.

(* ================================================================== *)
(** * Part I: definitions *)
(* ================================================================== *)

(** ** Python string builtins *)

Module Py.

(** The double-quote character, for HTML attributes in f-strings. *)
Definition dquote : string := String "034"%char "".

(** Truth value of a string: [bool(s)]. *)
Definition truthy (s : string) : bool :=
  match s with
  | EmptyString => false
  | String _ _ => true
  end.

(** [s.startswith(p)]. *)
Definition startswith (s p : string) : bool := String.prefix p s.

(** The UTF-8 bytes of a code point. *)
Definition utf8 (cp : N) : string :=
  let byte n := ascii_of_N n in
  (if cp <? 128 then String (byte cp) ""
   else if cp <? 2048 then
     String (byte (192 + cp / 64)) (String (byte (128 + cp mod 64)) "")
   else if cp <? 65536 then
     String (byte (224 + cp / 4096))
       (String (byte (128 + (cp / 64) mod 64))
          (String (byte (128 + cp mod 64)) ""))
   else
     String (byte (240 + cp / 262144))
       (String (byte (128 + (cp / 4096) mod 64))
          (String (byte (128 + (cp / 64) mod 64))
             (String (byte (128 + cp mod 64)) ""))))%N.

(** A byte [10xxxxxx] continues the character begun before it. *)
Definition is_continuation (c : ascii) : bool :=
  let n := nat_of_ascii c in (128 <=? n)%nat && (n <=? 191)%nat.

(** [s[:n]]: the first [n] characters of [s].  A character is a leading
    byte with the continuation bytes that follow it, so the cut never falls
    inside one. *)
Fixpoint slice_to (n : nat) (s : string) : string :=
  match s with
  | EmptyString => ""
  | String c s' =>
      if is_continuation c then String c (slice_to n s')
      else match n with
           | O => ""
           | S n' => String c (slice_to n' s')
           end
  end.

Definition is_upper (c : ascii) : bool :=
  let n := nat_of_ascii c in (65 <=? n)%nat && (n <=? 90)%nat.

Definition lower_char (c : ascii) : ascii :=
  if is_upper c then ascii_of_nat (nat_of_ascii c + 32) else c.

(** The Kelvin sign U+212A, the one character outside ASCII that
    [str.lower] turns into an ASCII letter. *)
Definition kelvin : string := Eval cbv in utf8 8490.

(** [s.lower()], as far as ASCII can tell: the capitals A to Z and the
    Kelvin sign become small letters.  The other characters are left as
    they are; Python lowers some of them, but never to ASCII text, so every
    comparison of the result with an ASCII word comes out as in Python. *)
Fixpoint lower (s : string) : string :=
  match s with
  | EmptyString => ""
  | String c s' =>
      if (nat_of_ascii c =? 226)%nat then
        match s' with
        | String c2 (String c3 rest) =>
            if ((nat_of_ascii c2 =? 132)%nat && (nat_of_ascii c3 =? 170)%nat)%bool
            then String "k" (lower rest)
            else String c (lower s')
        | _ => String c (lower s')
        end
      else String (lower_char c) (lower s')
  end.


(** The code points for which [str.isspace] holds, which are the ones
    [str.strip] removes: the ten of ASCII, NEL, the no-break space, the
    Ogham space mark, U+2000 to U+200A, the line and paragraph separators,
    the narrow no-break space, the medium mathematical space and the
    ideographic space. *)
Definition whitespace : list N :=
  [9; 10; 11; 12; 13; 28; 29; 30; 31; 32; 133; 160; 5760;
   8192; 8193; 8194; 8195; 8196; 8197; 8198; 8199; 8200; 8201; 8202;
   8232; 8233; 8239; 8287; 12288]%N.

Definition spaces : list string := Eval cbv in map utf8 whitespace.

(** The white-space character that [s] begins with, if it begins with one. *)
Definition leading_space (s : string) : option string :=
  find (fun w => String.prefix w s) spaces.

(** [s.lstrip()].  [skip] counts the bytes of the white-space character
    just found that are still to be dropped. *)
Fixpoint lstrip_from (skip : nat) (s : string) : string :=
  match s with
  | EmptyString => ""
  | String c s' =>
      match skip with
      | S k => lstrip_from k s'
      | O =>
          match leading_space s with
          | Some w => lstrip_from (String.length w - 1) s'
          | None => s
          end
      end
  end.

Definition lstrip (s : string) : string := lstrip_from 0 s.

(** [s.isspace() or not s]: nothing but white space. *)
Definition blank (s : string) : bool := negb (truthy (lstrip s)).

(** [s.rstrip()]: the text up to where only white space is left. *)
Fixpoint rstrip (s : string) : string :=
  match s with
  | EmptyString => ""
  | String c s' => if blank s then "" else String c (rstrip s')
  end.

(** [s.strip()]. *)
Definition strip (s : string) : string := rstrip (lstrip s).

(** [s.replace(old, new)] scans left to right and replaces the
    non-overlapping occurrences of [old].  [skip] counts the characters of
    the occurrence just replaced that are still to be dropped. *)
Fixpoint replace_from (skip : nat) (old new s : string) : string :=
  match s with
  | EmptyString => ""
  | String c s' =>
      match skip with
      | S k => replace_from k old new s'
      | O =>
          if String.prefix old s
          then new ++ replace_from (String.length old - 1) old new s'
          else String c (replace_from 0 old new s')
      end
  end.

(** With an empty [old], Python puts [new] before every character and at
    the end. *)
Fixpoint interleave (new s : string) : string :=
  match s with
  | EmptyString => new
  | String c s' => new ++ String c (interleave new s')
  end.

Definition replace (s old new : string) : string :=
  match old with
  | EmptyString => interleave new s
  | String _ _ => replace_from 0 old new s
  end.

(** [x in xs] for a list of strings. *)
Fixpoint str_in (x : string) (xs : list string) : bool :=
  match xs with
  | [] => false
  | y :: ys => (x =? y)%string || str_in x ys
  end.

(** [x in xs] for a list of integers. *)
Fixpoint int_in (x : Z) (xs : list Z) : bool :=
  match xs with
  | [] => false
  | y :: ys => (x =? y) || int_in x ys
  end.

(** [str(n)] for an integer. *)
Definition str_int (z : Z) : string := NilZero.string_of_int (Z.to_int z).

(** There is an occurrence of [old] somewhere in [s]. *)
Fixpoint occurs (old s : string) : bool :=
  String.prefix old s
  || match s with
     | EmptyString => false
     | String _ s' => occurs old s'
     end.

End Py.

(** ** Values, dictionaries and the dataframe *)

(** What a sheet cell or a YAML field can hold.  A finite float is carried by
    its [repr]: the application prints floats and never computes with them. *)
Inductive value : Type :=
| VNone
| VNaN
| VBool (b : bool)
| VInt (z : Z)
| VFloat (repr : string)
| VStr (s : string).

(** [str(v)], which is also what an f-string prints for [v]. *)
Definition str (v : value) : string :=
  match v with
  | VNone => "None"
  | VNaN => "nan"
  | VBool true => "True"
  | VBool false => "False"
  | VInt z => Py.str_int z
  | VFloat r => r
  | VStr s => s
  end.

(** [pd.isna(v)] on a scalar. *)
Definition isna (v : value) : bool :=
  match v with
  | VNone | VNaN => true
  | _ => false
  end.

(** [v == ""]. *)
Definition is_empty_str (v : value) : bool :=
  match v with
  | VStr EmptyString => true
  | _ => false
  end.

(** A Python exception caught by [except Exception as e], carried by the
    text of [str(e)]. *)
Definition exn : Type := string.

Definition dict : Type := list (string * value).

Fixpoint dict_get (d : dict) (k : string) : option value :=
  match d with
  | [] => None
  | (k', v) :: d' => if (k' =? k)%string then Some v else dict_get d' k
  end.

(** [d.get(k, default)]. *)
Definition get (d : dict) (k : string) (default : value) : value :=
  match dict_get d k with
  | Some v => v
  | None => default
  end.

(** [d[k] = v]: an existing key keeps its place, a new one goes last. *)
Fixpoint dict_set (d : dict) (k : string) (v : value) : dict :=
  match d with
  | [] => [(k, v)]
  | (k', v') :: d' =>
      if (k' =? k)%string then (k, v) :: d' else (k', v') :: dict_set d' k v
  end.

Definition dict_keys (d : dict) : list string := map fst d.

(** A row of the dataframe as [iterrows] and [iloc] hand it out: a pandas
    Series, the cells labelled by the column names.  Column labels are taken
    to be distinct, as sheet headers are. *)
Definition Series : Type := dict.

Record DataFrame : Type := {
  columns : list string;
  rows : list (list value)
}.

Definition series (df : DataFrame) (cells : list value) : Series :=
  combine (columns df) cells.

(** [len(df)]. *)
Definition len (df : DataFrame) : Z := Z.of_nat (length (rows df)).

(** [df.empty]: no rows or no columns. *)
Definition empty (df : DataFrame) : bool :=
  match rows df, columns df with
  | [], _ | _, [] => true
  | _, _ => false
  end.

Fixpoint iterrows_from (idx : Z) (df : DataFrame) (rs : list (list value))
  : list (Z * Series) :=
  match rs with
  | [] => []
  | cells :: rs' => (idx, series df cells) :: iterrows_from (idx + 1) df rs'
  end.

(** [df.iterrows()], the index being the default 0, 1, 2, ... *)
Definition iterrows (df : DataFrame) : list (Z * Series) :=
  iterrows_from 0 df (rows df).

(** [xs[i]] on a sequence: a negative index counts from the end, and [None]
    stands for the [IndexError] of an index out of range. *)
Definition item {A : Type} (xs : list A) (i : Z) : option A :=
  let j := if i <? 0 then Z.of_nat (length xs) + i else i in
  if j <? 0 then None else nth_error xs (Z.to_nat j).

(** [df.iloc[i]]. *)
Definition iloc (df : DataFrame) (i : Z) : option Series :=
  option_map (series df) (item (rows df) i).

(** [series.to_dict()]. *)
Definition to_dict (s : Series) : dict :=
  fold_left (fun d kv => dict_set d (fst kv) (snd kv)) s [].

(** [df[name]]: the cells of one column; an unknown label raises
    [KeyError]. *)
Definition column (df : DataFrame) (name : string) : exn + list value :=
  if Py.str_in name (columns df)
  then inr (map (fun cells => get (series df cells) name VNaN) (rows df))
  else inl ("'" ++ name ++ "'").

(** ** [json.dumps(d, ensure_ascii=False, indent=2)] for a flat dictionary *)

Module Json.

Definition hex_digit (n : nat) : ascii :=
  if (n <? 10)%nat then ascii_of_nat (48 + n) else ascii_of_nat (87 + n).

Definition backslash : string := String "092"%char "".

(** The escape of one character: the two-character escapes of the JSON
    module, [\u00xx] for the other control characters, the character
    itself otherwise. *)
Definition escape_char (c : ascii) : string :=
  let n := nat_of_ascii c in
  if (n =? 34)%nat then backslash ++ Py.dquote
  else if (n =? 92)%nat then backslash ++ backslash
  else if (n =? 8)%nat then backslash ++ "b"
  else if (n =? 12)%nat then backslash ++ "f"
  else if (n =? 10)%nat then backslash ++ "n"
  else if (n =? 13)%nat then backslash ++ "r"
  else if (n =? 9)%nat then backslash ++ "t"
  else if (n <? 32)%nat then
    backslash ++ "u00"
      ++ String (hex_digit (n / 16)) (String (hex_digit (n mod 16)) "")
  else String c "".

Fixpoint escape (s : string) : string :=
  match s with
  | EmptyString => ""
  | String c s' => escape_char c ++ escape s'
  end.

Definition encode_str (s : string) : string :=
  Py.dquote ++ escape s ++ Py.dquote.

Definition encode_value (v : value) : string :=
  match v with
  | VNone => "null"
  | VNaN => "NaN"
  | VBool true => "true"
  | VBool false => "false"
  | VInt z => Py.str_int z
  | VFloat r => r
  | VStr s => encode_str s
  end.

Definition newline : string := String "010"%char "".

Definition encode_item (kv : string * value) : string :=
  encode_str (fst kv) ++ ": " ++ encode_value (snd kv).

Fixpoint encode_items (items : dict) : string :=
  match items with
  | [] => ""
  | [kv] => encode_item kv
  | kv :: items' => encode_item kv ++ "," ++ newline ++ "  " ++ encode_items items'
  end.

Definition dumps (d : dict) : string :=
  match d with
  | [] => "{}"
  | _ => "{" ++ newline ++ "  " ++ encode_items d ++ newline ++ "}"
  end.

End Json.

(* ================================================================== *)
(** ** app.py: constants and themes *)

Definition TRIGGER_COL : string := "Generate".
Definition STATUS_COL : string := "Status".
Definition URL_COL : string := "Doc URL".
Definition TS_COL : string := "Generated At".
Definition PDF_URL_COL : string := "PDF URL".



Fixpoint lookup {A : Type} (d : list (string * A)) (k : string) : option A :=
  match d with
  | [] => None
  | (k', v) :: d' => if (k' =? k)%string then Some v else lookup d' k
  end.

(** [d[k]]: a missing key raises [KeyError], whose text is the quoted key. *)
Definition subscript {A : Type} (d : list (string * A)) (k : string) : exn + A :=
  match lookup d k with
  | Some v => inr v
  | None => inl ("'" ++ k ++ "'")
  end.





(** ** app.py: [render_status_badge] *)

Definition render_status_badge (status : value) : string :=
  let '(badge_class, badge_text) :=
    if isna status || is_empty_str status then
      ("status-pending", "Pending")
    else if Py.startswith (Py.lower (str status)) "done" then
      ("status-success", "✓ Done")
    else if Py.startswith (Py.lower (str status)) "error" then
      ("status-error", "✗ Error")
    else
      ("status-pending", str status)
  in
  "<span class=" ++ Py.dquote ++ "status-badge " ++ badge_class ++ Py.dquote
    ++ ">" ++ badge_text ++ "</span>".

(** ** app.py: the dashboard metrics (tab 1) *)

Definition b2z (b : bool) : Z := if b then 1 else 0.

(** [series.sum()] of a boolean series. *)
Definition sum_bools (bs : list bool) : Z :=
  fold_left (fun acc b => acc + b2z b) bs 0.

(** Python's [float] is IEEE 754 binary64, and a float is a rational
    number: the arithmetic below works on those rationals.  [round] is the
    rounding that every float operation ends with, to the nearest number
    with 53 significant bits, ties to the even one.  The exponent is not
    bounded: counts of rows and their quotients are far from the range
    where binary64 overflows or loses bits. *)
Module F64.

Definition pow2 (e : Z) : Q := (2 ^ e)%Q.

(** The [k] with [2^k <= q < 2^(k+1)], for a positive [q]. *)
Definition ilog2 (q : Q) : Z :=
  let k := Z.log2 (Qnum q) - Z.log2 (Zpos (Qden q)) in
  if Qle_bool (pow2 k) q then k else k - 1.

(** The integer nearest to [x], the even one of two equally near. *)
Definition nearest_even (x : Q) : Z :=
  let f := Qfloor x in
  match (x - inject_Z f ?= 1 # 2)%Q with
  | Lt => f
  | Gt => f + 1
  | Eq => if Z.even f then f else f + 1
  end.

Definition round_pos (q : Q) : Q :=
  let e := ilog2 q - 52 in
  (inject_Z (nearest_even (q / pow2 e)) * pow2 e)%Q.

Definition round (q : Q) : Q :=
  match (q ?= 0)%Q with
  | Eq => 0%Q
  | Gt => round_pos q
  | Lt => (- round_pos (- q))%Q
  end.

(** [float(z)]. *)
Definition of_int (z : Z) : Q := round (inject_Z z).

(** [x / y] and [x * y] on floats. *)
Definition div (x y : Q) : Q := round (x / y).
Definition mul (x y : Q) : Q := round (x * y).

End F64.

Record metrics : Type := {
  total_rows : Z;
  done_count : Z;
  error_count : Z;
  pending_count : Z;
  success_rate : Q
}.

(** The five numbers of the dashboard.  The counts are integers.  The rate
    is the float that [done_count / total_rows * 100] evaluates to: the two
    counts become floats, the division rounds, and so does the product with
    100.  It is carried here as the rational number which that float is
    (the integer 0 of the other branch is the same number). *)
Definition compute_metrics (df : DataFrame) : exn + metrics :=
  match column df STATUS_COL with
  | inl e => inl e
  | inr statuses =>
      let total_rows := len df in
      let done_count :=
        sum_bools (map (fun v => Py.startswith (str v) "Done") statuses) in
      let error_count :=
        sum_bools (map (fun v => Py.startswith (str v) "Error") statuses) in
      let pending_count := total_rows - done_count - error_count in
      let success_rate :=
        if total_rows >? 0
        then F64.mul (F64.div (F64.of_int done_count) (F64.of_int total_rows))
                     (F64.of_int 100)
        else 0%Q in
      inr {| total_rows := total_rows;
             done_count := done_count;
             error_count := error_count;
             pending_count := pending_count;
             success_rate := success_rate |}
  end.

(** The dashboard computes them when the sheet has rows and a status
    column, and shows a notice ([None]) otherwise. *)
Definition dashboard_metrics (df : DataFrame) : option (exn + metrics) :=
  if negb (empty df) && Py.str_in STATUS_COL (columns df)
  then Some (compute_metrics df)
  else None.

(* ================================================================== *)
(** ** Effects: the outside world, the trace and the monad *)

(** What [st.markdown] is given: plain text, or one of the HTML cards (the
    card is named, with the values interpolated into it). *)
Inductive markup : Type :=
| Text (s : string)
| GenerationComplete (success errors : Z)
| AnalyzingRow (row_number : Z) (row_data : dict)
| AgentCard (ok : bool) (agent_name : string).

(** Every call that leaves the script, in the order in which it is made. *)
Inductive event : Type :=
| EnsureControlColumns (spreadsheet_id : string) (cols : list string)
| ReadSheetDf (spreadsheet_id : string)
| CopyGdoc (template_id name : string) (folder_id : option string)
| ReplacePlaceholders (doc_id : string) (mapping : dict)
| WriteBack (spreadsheet_id : string) (row_index : Z) (updates : dict)
| RunAgent (agent context : dict)
| Sleep
| StInfo (msg : string)
| StWarning (msg : string)
| StSuccess (msg : string)
| StError (msg : string)
| StWrite (msg : string)
| StMarkdown (body : markup)
| StDataframe (df : DataFrame)
| StProgress (num den : Z)
| StStatus (label : string)
| StStatusUpdate (label state : string).

(** [google_utils]: every function acts on the world and returns or raises. *)
Class GoogleUtils (World : Type) : Type := {
  gu_ensure_control_columns :
    string -> list string -> World -> World * (exn + unit);
  gu_read_sheet_df : string -> World -> World * (exn + DataFrame);
  gu_copy_gdoc :
    string -> string -> option string -> World -> World * (exn + string);
  gu_replace_placeholders : string -> dict -> World -> World * (exn + unit);
  gu_write_back : string -> Z -> dict -> World -> World * (exn + unit)
}.

(** [datetime.now().strftime("%Y-%m-%d %H:%M:%S")]. *)
Class Clock (World : Type) : Type := {
  clock_now : World -> World * string
}.

(** [llm_providers.run_agent(agent, context)].  The context dictionary is
    passed by reference: besides the result, the call yields the contents of
    that dictionary when it returns. *)
Class LlmProviders (World : Type) : Type := {
  llm_run_agent : dict -> dict -> World -> World * dict * (exn + string)
}.

Section Monad.

Context {World L : Type}.

(** The world, the trace so far, and the local variables of the script. *)
Record state : Type := {
  world : World;
  trace : list event;
  locals : L
}.

Definition M (A : Type) : Type := state -> state * (exn + A).

Definition ret {A} (a : A) : M A := fun s => (s, inr a).

Definition bind {A B} (m : M A) (k : A -> M B) : M B :=
  fun s =>
    match m s with
    | (s', inl e) => (s', inl e)
    | (s', inr a) => k a s'
    end.

Definition raise {A} (e : exn) : M A := fun s => (s, inl e).

(** [try: m  except Exception as e: h e].  What [m] did before raising
    stays done. *)
Definition try_except {A} (m : M A) (h : exn -> M A) : M A :=
  fun s =>
    match m s with
    | (s', inl e) => h e s'
    | (s', inr a) => (s', inr a)
    end.

Definition emit (e : event) : M unit :=
  fun s =>
    ({| world := world s; trace := trace s ++ [e]; locals := locals s |},
     inr tt).

(** A call into an outside module: logged, then answered by the world. *)
Definition external {A} (e : event) (f : World -> World * (exn + A)) : M A :=
  fun s =>
    let '(w, r) := f (world s) in
    ({| world := w; trace := trace s ++ [e]; locals := locals s |}, r).

Definition get_locals : M L := fun s => (s, inr (locals s)).

Definition modify_locals (f : L -> L) : M unit :=
  fun s =>
    ({| world := world s; trace := trace s; locals := f (locals s) |},
     inr tt).

(** [for x in xs: body x]. *)
Fixpoint for_each {X} (xs : list X) (body : X -> M unit) : M unit :=
  match xs with
  | [] => ret tt
  | x :: xs' => bind (body x) (fun _ => for_each xs' body)
  end.

End Monad.

Arguments state : clear implicits.
Arguments M : clear implicits.

Declare Scope monad_scope.
Delimit Scope monad_scope with monad.
Notation "x <- m ;; k" := (bind m (fun x => k))
  (at level 61, m at next level, right associativity) : monad_scope.
Notation "m ;; k" := (bind m (fun _ => k))
  (at level 61, right associativity) : monad_scope.
Open Scope monad_scope.

(* ================================================================== *)
(** ** app.py: the document-generation tab (tab 4) *)

(** The session state the tab reads. *)
Record session : Type := {
  spreadsheet_id : string;
  template_id : string;
  dest_folder_id : option string
}.

(** The values of the generation widgets. *)
Record gen_options : Type := {
  gen_mode : string;
  create_pdf : bool;
  custom_filename : string;
  manual_sel : list Z
}.

(** The two counters of the loop ([error_count_] is the script's
    [error_count] of this tab; the dashboard has one of its own). *)
Record counters : Type := {
  success_count : Z;
  error_count_ : Z
}.

(** The selection criteria: [true] when the row is passed over. *)
Definition selection_skip (o : gen_options) (row_index_1 : Z) (row : Series)
  : bool :=
  if (gen_mode o =? "Rows with Generate=TRUE")%string then
    let trig_val := Py.lower (Py.strip (str (get row TRIGGER_COL (VStr "")))) in
    negb (Py.str_in trig_val ["true"; "yes"; "y"; "1"; "checked"])
  else if (gen_mode o =? "All rows without Doc URL")%string then
    Py.truthy (Py.strip (str (get row URL_COL (VStr ""))))
  else if (gen_mode o =? "Manual selection")%string then
    negb (Py.int_in row_index_1 (manual_sel o))
  else false.

(** The idempotency test: the row already has a document URL. *)
Definition has_url (row : Series) : bool :=
  Py.truthy (Py.strip (str (get row URL_COL (VStr "")))).

(** [f"{{{{{col}}}}}"]. *)
Definition placeholder (col : string) : string := "{{" ++ col ++ "}}".

(** [for col in df.columns: filename = filename.replace(...)]. *)
Fixpoint build_filename (filename : string) (cols : list string) (row : Series)
  : string :=
  match cols with
  | [] => filename
  | col :: cols' =>
      build_filename
        (Py.replace filename (placeholder col) (str (get row col (VStr ""))))
        cols' row
  end.

(** [{col: row.get(col, "") for col in df.columns}]. *)
Definition build_mapping (cols : list string) (row : Series) : dict :=
  fold_left (fun d col => dict_set d col (get row col (VStr ""))) cols [].

Definition doc_url (new_doc_id : string) : string :=
  "https://docs.google.com/document/d/" ++ new_doc_id ++ "/edit".

Definition pdf_url (new_doc_id : string) : string :=
  "https://docs.google.com/document/d/" ++ new_doc_id ++ "/export?format=pdf".

Definition done_updates (o : gen_options) (new_doc_id ts : string) : dict :=
  let updates :=
    [(STATUS_COL, VStr "Done");
     (URL_COL, VStr (doc_url new_doc_id));
     (TS_COL, VStr ts)] in
  if create_pdf o
  then dict_set updates PDF_URL_COL (VStr (pdf_url new_doc_id))
  else updates.

Definition error_updates (e : exn) : dict :=
  [(STATUS_COL, VStr ("Error: " ++ Py.slice_to 100 e))].

Section Generate.

Context {World : Type} `{GoogleUtils World} `{Clock World}.

Local Abbreviation G := (M World counters).

Definition ensure_control_columns (sid : string) (cols : list string)
  : G unit :=
  external (EnsureControlColumns sid cols) (gu_ensure_control_columns sid cols).

Definition read_sheet_df (sid : string) : G DataFrame :=
  external (ReadSheetDf sid) (gu_read_sheet_df sid).

Definition copy_gdoc (tid name : string) (folder : option string) : G string :=
  external (CopyGdoc tid name folder) (gu_copy_gdoc tid name folder).

Definition replace_placeholders (doc_id : string) (mapping : dict) : G unit :=
  external (ReplacePlaceholders doc_id mapping)
           (gu_replace_placeholders doc_id mapping).

Definition write_back (sid : string) (row_index : Z) (updates : dict)
  : G unit :=
  external (WriteBack sid row_index updates) (gu_write_back sid row_index updates).

(** Reading the clock leaves no entry in the trace. *)
Definition now : G string :=
  fun s =>
    let '(w, ts) := clock_now (world s) in
    ({| world := w; trace := trace s; locals := locals s |}, inr ts).

(** The body of the [try]. *)
Definition generate_row (sess : session) (o : gen_options) (df : DataFrame)
           (row_index_1 : Z) (row : Series) : G unit :=
  let filename := build_filename (custom_filename o) (columns df) row in
  new_doc_id <- copy_gdoc (template_id sess) filename (dest_folder_id sess) ;;
  let mapping := build_mapping (columns df) row in
  replace_placeholders new_doc_id mapping ;;
  ts <- now ;;
  write_back (spreadsheet_id sess) row_index_1 (done_updates o new_doc_id ts) ;;
  modify_locals (fun c => {| success_count := success_count c + 1;
                             error_count_ := error_count_ c |}) ;;
  emit (StSuccess ("✅ Row " ++ Py.str_int row_index_1 ++ ": " ++ filename)).

(** The body of the [except]. *)
Definition handle_row_error (sess : session) (row_index_1 : Z) (e : exn)
  : G unit :=
  modify_locals (fun c => {| success_count := success_count c;
                             error_count_ := error_count_ c + 1 |}) ;;
  write_back (spreadsheet_id sess) row_index_1 (error_updates e) ;;
  emit (StError ("❌ Row " ++ Py.str_int row_index_1 ++ ": "
                   ++ Py.slice_to 100 e)).

(** One turn of [for idx, row in df.iterrows()]; a [continue] ends the
    turn at once. *)
Definition generate_step (sess : session) (o : gen_options) (df : DataFrame)
           (ir : Z * Series) : G unit :=
  let '(idx, row) := ir in
  let row_index_1 := idx + 2 in
  if selection_skip o row_index_1 row then ret tt
  else if has_url row then ret tt
  else
    try_except (generate_row sess o df row_index_1 row)
               (handle_row_error sess row_index_1) ;;
    emit (StProgress (idx + 1) (len df)).

(** What the "Generate Documents Now" button runs. *)
Definition generate_documents (sess : session) (o : gen_options)
           (df : DataFrame) : G unit :=
  modify_locals (fun _ => {| success_count := 0; error_count_ := 0 |}) ;;
  emit (StProgress 0 1) ;;
  for_each (iterrows df) (generate_step sess o df) ;;
  c <- get_locals ;;
  emit (StMarkdown (GenerationComplete (success_count c) (error_count_ c))).

(** The tab with both identifiers configured and the button pressed.  The
    manual selection is read only in "Manual selection" mode. *)
Definition tab4 (sess : session) (o : gen_options) : G unit :=
  try_except
    (ensure_control_columns (spreadsheet_id sess)
       [TRIGGER_COL; STATUS_COL; URL_COL; TS_COL; PDF_URL_COL] ;;
     df <- read_sheet_df (spreadsheet_id sess) ;;
     if empty df then
       emit (StInfo "📭 No data rows found. Add some data to your sheet first.")
     else
       emit (StMarkdown (Text "#### 📊 Data Preview")) ;;
       emit (StDataframe df) ;;
       emit (StMarkdown (Text "#### ⚙️ Generation Options")) ;;
       let o' := {| gen_mode := gen_mode o;
                    create_pdf := create_pdf o;
                    custom_filename := custom_filename o;
                    manual_sel :=
                      if (gen_mode o =? "Manual selection")%string
                      then manual_sel o else [] |} in
       generate_documents sess o' df)
    (fun e => emit (StError ("Error loading data: " ++ e))).

End Generate.

(* ================================================================== *)
(** ** app.py: the agent runner (tab 5) *)

(** One entry of [results]. *)
Record result : Type := {
  res_agent : value;
  res_status : string;
  res_output : string
}.

(** The local variables of the runner that change while it runs: the list
    of results and the contents of the shared context dictionary. *)
Record runner_locals : Type := {
  results : list result;
  context : dict
}.

(** [range(n)]. *)
Definition range (n : Z) : list Z := map Z.of_nat (seq 0 (Z.to_nat n)).

(** [agent.get("name", agent.get("id", f"Agent {i+1}"))]. *)
Definition agent_name_of (agent : dict) (i : Z) : value :=
  get agent "name" (get agent "id" (VStr ("Agent " ++ Py.str_int (i + 1)))).

Definition build_context (row_data : dict) (required_fields : string) : dict :=
  [("row_json", VStr (Json.dumps row_data));
   ("required_fields_csv", VStr required_fields)].

Section Runner.

Context {World : Type} `{GoogleUtils World} `{LlmProviders World}.

Local Abbreviation R := (M World runner_locals).

Definition read_sheet : string -> R DataFrame :=
  fun sid => external (ReadSheetDf sid) (gu_read_sheet_df sid).

(** [agents[i]]: out of range raises [IndexError]. *)
Definition subscript_list {A} (xs : list A) (i : Z) : R A :=
  match item xs i with
  | Some x => ret x
  | None => raise "list index out of range"
  end.

(** [run_agent(agent, context)]: the call sees the current contents of the
    context dictionary and leaves its own. *)
Definition run_agent (agent : dict) : R string :=
  fun s =>
    let ctx := context (locals s) in
    let '(w, ctx', r) := llm_run_agent agent ctx (world s) in
    ({| world := w;
        trace := trace s ++ [RunAgent agent ctx];
        locals := {| results := results (locals s); context := ctx' |} |}, r).

(** [results.append(r)]. *)
Definition append_result (r : result) : R unit :=
  modify_locals (fun l => {| results := results l ++ [r];
                             context := context l |}).

(** One turn of [for i in range(int(num_agents))]. *)
Definition run_step (agents : list dict) (num_agents : Z) (i : Z) : R unit :=
  agent <- subscript_list agents i ;;
  let agent_name := agent_name_of agent i in
  emit (StStatus ("🤖 Running: " ++ str agent_name)) ;;
  try_except
    (emit (StWrite ("Provider: " ++ str (get agent "provider" VNone)
                      ++ " | Model: " ++ str (get agent "model" VNone))) ;;
     output <- run_agent agent ;;
     append_result {| res_agent := agent_name;
                      res_status := "success";
                      res_output := output |} ;;
     emit (StStatusUpdate ("✅ " ++ str agent_name ++ " - Complete") "complete") ;;
     emit Sleep)
    (fun e =>
       append_result {| res_agent := agent_name;
                        res_status := "error";
                        res_output := "Error: " ++ e |} ;;
       emit (StStatusUpdate ("❌ " ++ str agent_name ++ " - Error") "error")) ;;
  emit (StProgress (i + 1) num_agents).

(** One turn of [for result in results]. *)
Definition display_result (r : result) : R unit :=
  (if (res_status r =? "success")%string then
     emit (StMarkdown (AgentCard true (str (res_agent r)))) ;;
     emit (StMarkdown (Text (res_output r)))
   else
     emit (StMarkdown (AgentCard false (str (res_agent r)))) ;;
     emit (StError (res_output r))) ;;
  emit (StMarkdown (Text "<br>")).

Definition display_results : R unit :=
  emit (StMarkdown (Text "---")) ;;
  emit (StMarkdown (Text "### 📊 Agent Results")) ;;
  l <- get_locals ;;
  for_each (results l) display_result.

(** From the construction of the context to the display, for the row
    chosen. *)
Definition run_agents_on (row : Series) (row_number : Z)
           (required_fields : string) (num_agents : Z) (agents : list dict)
  : R unit :=
  let row_data := to_dict row in
  modify_locals (fun l => {| results := results l;
                             context := build_context row_data required_fields |}) ;;
  emit (StMarkdown (AnalyzingRow row_number row_data)) ;;
  modify_locals (fun l => {| results := []; context := context l |}) ;;
  emit (StProgress 0 1) ;;
  for_each (range num_agents) (run_step agents num_agents) ;;
  display_results.

(** What the "Run Agents Pipeline" button runs. *)
Definition run_agents_pipeline (sid : string) (row_number : Z)
           (required_fields : string) (num_agents : Z) (agents : list dict)
  : R unit :=
  if negb (Py.truthy sid) then emit (StError "Please provide a spreadsheet ID")
  else
    try_except
      (df <- read_sheet sid ;;
       if (row_number - 2 >=? len df) || (row_number - 2 <? 0) then
         emit (StError ("Row " ++ Py.str_int row_number ++ " is out of range"))
       else
         match iloc df (row_number - 2) with
         | Some row =>
             run_agents_on row row_number required_fields num_agents agents
         | None => raise "single positional indexer is out-of-bounds"
         end)
      (fun e => emit (StError ("Error running agents: " ++ e))).

End Runner.

(* ================================================================== *)
(** ** An in-memory stand-in for the outside services

    Used to run the scripts on concrete inputs: a sheet held in memory,
    which may be shared read-only; a document store that hands out numbered
    identifiers and may be down; and a language-model provider that fails
    for one provider name. *)

Record sim : Type := {
  drive_up : bool;
  sheet_writable : bool;
  next_doc : Z;
  sheet : DataFrame
}.

Fixpoint write_cells (cols : list string) (cells : list value) (updates : dict)
  : list value :=
  match cols, cells with
  | c :: cols', x :: cells' => get updates c x :: write_cells cols' cells' updates
  | _, _ => cells
  end.

Fixpoint update_nth {A : Type} (n : nat) (f : A -> A) (xs : list A) : list A :=
  match xs, n with
  | [], _ => []
  | x :: xs', O => f x :: xs'
  | x :: xs', S n' => x :: update_nth n' f xs'
  end.

Definition sheet_write (df : DataFrame) (row_index : Z) (updates : dict)
  : DataFrame :=
  {| columns := columns df;
     rows := update_nth (Z.to_nat (row_index - 2))
                        (fun cells => write_cells (columns df) cells updates)
                        (rows df) |}.

Definition add_columns (df : DataFrame) (cols : list string) : DataFrame :=
  let missing := filter (fun c => negb (Py.str_in c (columns df))) cols in
  {| columns := (columns df ++ missing)%list;
     rows := map (fun cells => (cells ++ map (fun _ => VStr "") missing)%list)
                 (rows df) |}.

Definition with_sheet (w : sim) (df : DataFrame) : sim :=
  {| drive_up := drive_up w; sheet_writable := sheet_writable w;
     next_doc := next_doc w; sheet := df |}.

Definition forbidden : exn := "The caller does not have permission".

#[export] Instance sim_google_utils : GoogleUtils sim := {
  gu_ensure_control_columns _ cols w :=
    if forallb (fun c => Py.str_in c (columns (sheet w))) cols then (w, inr tt)
    else if sheet_writable w
         then (with_sheet w (add_columns (sheet w) cols), inr tt)
         else (w, inl forbidden);
  gu_read_sheet_df _ w := (w, inr (sheet w));
  gu_copy_gdoc _ _ _ w :=
    if drive_up w
    then ({| drive_up := true; sheet_writable := sheet_writable w;
             next_doc := next_doc w + 1; sheet := sheet w |},
          inr ("doc" ++ Py.str_int (next_doc w)))
    else (w, inl "Drive unavailable");
  gu_replace_placeholders _ _ w :=
    if drive_up w then (w, inr tt) else (w, inl "Drive unavailable");
  gu_write_back _ row_index updates w :=
    if sheet_writable w
    then (with_sheet w (sheet_write (sheet w) row_index updates), inr tt)
    else (w, inl forbidden)
}.

#[export] Instance sim_clock : Clock sim := {
  clock_now w := (w, "2024-05-01 09:30:00")
}.

#[export] Instance sim_llm : LlmProviders sim := {
  llm_run_agent agent ctx w :=
    if (str (get agent "provider" VNone) =? "grok")%string
    then (w, ctx, inl "provider unavailable")
    else (w, ctx, inr ("Report of " ++ str (get agent "id" VNone)))
}.

(** A provider that, unlike [sim_llm], writes to the context it is given:
    it leaves the text it returns there for the agent that runs next. *)
Definition chaining_llm : LlmProviders sim := {|
  llm_run_agent agent ctx w :=
    let text := "Report of " ++ str (get agent "id" VNone) in
    (w, dict_set ctx "previous_output" (VStr text), inr text)
|}.

(** A sheet of three companies with the control columns; the second row
    already has its document. *)
Definition sample_df : DataFrame :=
  {| columns := ["Company"; "Industry"; "Generate"; "Status"; "Doc URL";
                 "Generated At"; "PDF URL"];
     rows :=
       [[VStr "Acme"; VStr "Tools"; VStr "TRUE"; VStr ""; VStr "";
         VStr ""; VStr ""];
        [VStr "Bolt"; VStr "Energy"; VStr "yes"; VStr "Done";
         VStr "https://docs.google.com/document/d/doc0/edit";
         VStr "2024-04-30 10:00:00"; VStr ""];
        [VStr "Coil"; VStr "Retail"; VStr " Checked "; VStr ""; VStr "";
         VStr ""; VStr ""]] |}.

(** The [i]-th row of the sample sheet, as [iterrows] hands it out. *)
Definition sample_row (i : nat) : Series :=
  series sample_df (nth i (rows sample_df) []).

(** The no-break space, and a row that a spreadsheet user could have
    typed: the trigger has blanks and a no-break space around it, and the
    Doc URL cell holds a no-break space only. *)
Definition nbsp : string := Eval cbv in Py.utf8 160.

Definition padded_row : Series :=
  [("Company", VStr "Dune"); ("Industry", VStr "Travel");
   ("Generate", VStr (" " ++ nbsp ++ "Yes" ++ nbsp));
   ("Status", VStr ""); ("Doc URL", VStr nbsp);
   ("Generated At", VStr ""); ("PDF URL", VStr "")].

Definition sample_session : session :=
  {| spreadsheet_id := "sheet1"; template_id := "tpl1"; dest_folder_id := None |}.

Definition sample_options : gen_options :=
  {| gen_mode := "Rows with Generate=TRUE";
     create_pdf := true;
     custom_filename := "{{Company}} - {{Industry}} Report";
     manual_sel := [] |}.

Definition sim_start (drive writable : bool) (df : DataFrame) : sim :=
  {| drive_up := drive; sheet_writable := writable; next_doc := 1;
     sheet := df |}.

Definition start {L : Type} (w : sim) (l : L) : state sim L :=
  {| world := w; trace := []; locals := l |}.

Definition no_counts : counters := {| success_count := 0; error_count_ := 0 |}.

Definition no_results : runner_locals := {| results := []; context := [] |}.

Definition sample_agents : list dict :=
  [[("id", VStr "data_validator"); ("name", VStr "Data Quality Validator");
    ("provider", VStr "openai"); ("model", VStr "gpt-4o-mini")];
   [("id", VStr "trend_analyzer"); ("name", VStr "Trend Analysis Agent");
    ("provider", VStr "grok"); ("model", VStr "grok-beta")];
   [("id", VStr "summarizer"); ("provider", VStr "gemini")]].

(* ================================================================== *)
(** ** The specification's vocabulary *)

(** A text made of white-space characters only. *)
Inductive Blank : string -> Prop :=
| Blank_nil : Blank ""
| Blank_cons (w s : string) : In w Py.spaces -> Blank s -> Blank (w ++ s).

(** The small letters and the digits, of which the trigger words are made. *)
Definition is_word_char (c : ascii) : bool :=
  let n := nat_of_ascii c in
  ((97 <=? n)%nat && (n <=? 122)%nat) || ((48 <=? n)%nat && (n <=? 57)%nat).

(** The capital of a small letter; other characters have none. *)
Definition capital (c : ascii) : ascii :=
  let n := nat_of_ascii c in
  if ((97 <=? n)%nat && (n <=? 122)%nat)%bool then ascii_of_nat (n - 32) else c.

(** [spelled w t]: the text [t] is the word [w] written in some mix of
    small and capital letters; the Kelvin sign counts as a capital k. *)
Fixpoint spelled (w t : string) : Prop :=
  match w with
  | EmptyString => t = ""
  | String c w' =>
      exists t', spelled w' t'
        /\ (t = String c t' \/ t = String (capital c) t'
            \/ (c = "k"%char /\ t = Py.kelvin ++ t'))
  end.

(** Reading a JSON string literal back: [read_json_string s] takes the
    text that follows the opening quote and gives the string it encodes,
    with what follows the closing quote.  It knows the escapes of the JSON
    grammar, the [\u] escape for the first 256 code points only. *)
Definition hex_value (c : ascii) : option nat :=
  let n := nat_of_ascii c in
  if ((48 <=? n)%nat && (n <=? 57)%nat)%bool then Some (n - 48)%nat
  else if ((97 <=? n)%nat && (n <=? 102)%nat)%bool then Some (n - 87)%nat
  else if ((65 <=? n)%nat && (n <=? 70)%nat)%bool then Some (n - 55)%nat
  else None.

Definition simple_escape (e : ascii) : option ascii :=
  let n := nat_of_ascii e in
  if (n =? 34)%nat then Some "034"%char
  else if (n =? 92)%nat then Some "092"%char
  else if (n =? 47)%nat then Some "/"%char
  else if (n =? 98)%nat then Some "008"%char
  else if (n =? 102)%nat then Some "012"%char
  else if (n =? 110)%nat then Some "010"%char
  else if (n =? 114)%nat then Some "013"%char
  else if (n =? 116)%nat then Some "009"%char
  else None.

Fixpoint read_json_string (s : string) : option (string * string) :=
  let cons c r :=
    match r with
    | Some (t, rest) => Some (String c t, rest)
    | None => None
    end in
  match s with
  | EmptyString => None
  | String c s1 =>
      let n := nat_of_ascii c in
      if (n =? 34)%nat then Some (""%string, s1)
      else if (n =? 92)%nat then
        match s1 with
        | EmptyString => None
        | String e s2 =>
            if (nat_of_ascii e =? 117)%nat then
              match s2 with
              | String h1 (String h2 (String h3 (String h4 s3))) =>
                  match hex_value h1, hex_value h2, hex_value h3, hex_value h4 with
                  | Some O, Some O, Some a, Some b =>
                      cons (ascii_of_nat (16 * a + b)) (read_json_string s3)
                  | _, _, _, _ => None
                  end
              | _ => None
              end
            else
              match simple_escape e with
              | Some d => cons d (read_json_string s2)
              | None => None
              end
        end
      else if (n <? 32)%nat then None
      else cons c (read_json_string s1)
  end.

(** A status badge of the given class and text. *)
Definition badge (badge_class badge_text : string) : string :=
  "<span class=" ++ Py.dquote ++ "status-badge " ++ badge_class ++ Py.dquote
    ++ ">" ++ badge_text ++ "</span>".

(** The number of rows whose status, as a string, satisfies [p]. *)
Definition count_status (p : string -> bool) (df : DataFrame) : Z :=
  Z.of_nat
    (length
       (filter (fun cells => p (str (get (series df cells) STATUS_COL VNaN)))
               (rows df))).

(** Substituting one column's placeholder, and all of them in column
    order. *)
Definition substitute (row : Series) (filename col : string) : string :=
  Py.replace filename (placeholder col) (str (get row col (VStr ""))).

Definition substitute_all (pattern : string) (cols : list string) (row : Series)
  : string :=
  fold_left (substitute row) cols pattern.

(** An occurrence of [old] in [a ++ rest] begins inside [a]. *)
Fixpoint starts_within (old a rest : string) : bool :=
  match a with
  | EmptyString => false
  | String _ a' => String.prefix old (a ++ rest) || starts_within old a' rest
  end.


(** The [copy_gdoc] calls of a trace. *)
Definition copy_calls (tr : list event) : list event :=
  filter (fun ev => match ev with CopyGdoc _ _ _ => true | _ => false end) tr.

(** The [run_agent] calls of a trace, in order: the agent and the context
    each one was given. *)
Fixpoint run_agent_calls (tr : list event) : list (dict * dict) :=
  match tr with
  | [] => []
  | RunAgent agent ctx :: tr' => (agent, ctx) :: run_agent_calls tr'
  | _ :: tr' => run_agent_calls tr'
  end.

(** One call of [run_agent]: the agent, the context it was given, and what
    came back. *)
Definition call : Type := dict * dict * (exn + string).

(** Calling [run_agent] on the agents one after the other, each call seeing
    the context as the previous one left it; also the context and the world
    at the end. *)
Fixpoint call_in_turn {World : Type} `{LlmProviders World}
         (agents : list dict) (ctx : dict) (w : World)
  : list call * dict * World :=
  match agents with
  | [] => ([], ctx, w)
  | agent :: agents' =>
      let '(w', ctx', r) := llm_run_agent agent ctx w in
      let '(calls, ctx'', w'') := call_in_turn agents' ctx' w' in
      ((agent, ctx, r) :: calls, ctx'', w'')
  end.

(** The result collected for the [i]-th agent: the returned text on
    success, an error string on exception. *)
Definition result_of (i : Z) (c : call) : result :=
  let '(agent, _, r) := c in
  match r with
  | inr output =>
      {| res_agent := agent_name_of agent i;
         res_status := "success";
         res_output := output |}
  | inl e =>
      {| res_agent := agent_name_of agent i;
         res_status := "error";
         res_output := "Error: " ++ e |}
  end.

Fixpoint collect (i : Z) (calls : list call) : list result :=
  match calls with
  | [] => []
  | c :: calls' => result_of i c :: collect (i + 1) calls'
  end.

(** What one turn of the runner loop leaves in the trace. *)
Definition step_events (num_agents i : Z) (c : call) : list event :=
  let '(agent, ctx, r) := c in
  let agent_name := str (agent_name_of agent i) in
  [StStatus ("🤖 Running: " ++ agent_name);
   StWrite ("Provider: " ++ str (get agent "provider" VNone)
              ++ " | Model: " ++ str (get agent "model" VNone));
   RunAgent agent ctx]
  ++ match r with
     | inr _ =>
         [StStatusUpdate ("✅ " ++ agent_name ++ " - Complete") "complete"; Sleep]
     | inl _ => [StStatusUpdate ("❌ " ++ agent_name ++ " - Error") "error"]
     end
  ++ [StProgress (i + 1) num_agents].

Fixpoint loop_events (num_agents i : Z) (calls : list call) : list event :=
  match calls with
  | [] => []
  | c :: calls' => step_events num_agents i c ++ loop_events num_agents (i + 1) calls'
  end.

(** What the display of one result leaves in the trace. *)
Definition display_events (r : result) : list event :=
  (if (res_status r =? "success")%string
   then [StMarkdown (AgentCard true (str (res_agent r)));
         StMarkdown (Text (res_output r))]
   else [StMarkdown (AgentCard false (str (res_agent r)));
         StError (res_output r)])
  ++ [StMarkdown (Text "<br>")].

Definition display_trace (rs : list result) : list event :=
  [StMarkdown (Text "---"); StMarkdown (Text "### 📊 Agent Results")]
  ++ flat_map display_events rs.

(** A row is acted upon when it passes the selection and has no document
    yet. *)
Definition selected (o : gen_options) (ir : Z * Series) : bool :=
  negb (selection_skip o (fst ir + 2) (snd ir)) && negb (has_url (snd ir)).

(** What a turn of the generation loop for sheet row [row_index] may leave
    in the trace: calls on this session's template and folder, writes to
    this sheet and this row, and messages. *)
Definition aims_at (sess : session) (row_index : Z) (ev : event) : Prop :=
  match ev with
  | CopyGdoc tid _ folder =>
      tid = template_id sess /\ folder = dest_folder_id sess
  | WriteBack sid r _ => sid = spreadsheet_id sess /\ r = row_index
  | ReplacePlaceholders _ _ | StSuccess _ | StError _ | StProgress _ _ => True
  | _ => False
  end.

(** The [copy_gdoc] call that the loop makes for a row it acts upon: the
    session's template, the row's file name, the session's folder. *)
Definition copy_for (sess : session) (o : gen_options) (df : DataFrame)
           (ir : Z * Series) : event :=
  CopyGdoc (template_id sess)
           (build_filename (custom_filename o) (columns df) (snd ir))
           (dest_folder_id sess).

(** A sheet with the control columns and no data row, and one with a data
    row and no control column. *)
Definition blank_df : DataFrame :=
  {| columns := ["Company"; "Generate"; "Status"; "Doc URL"; "Generated At";
                 "PDF URL"];
     rows := [] |}.

Definition bare_df : DataFrame :=
  {| columns := ["Company"]; rows := [[VStr "Acme"]] |}.

(* ================================================================== *)
(** ** app.py: the sidebar *)


(** [xs.index(x)]: the position of the first occurrence, [ValueError] when
    there is none. *)
Fixpoint index_of (xs : list string) (x : string) : exn + nat :=
  match xs with
  | [] => inl ("'" ++ x ++ "' is not in list")
  | y :: ys =>
      if (y =? x)%string then inr O
      else match index_of ys x with
           | inl e => inl e
           | inr i => inr (S i)
           end
  end.






(** ** app.py: the provider selector of the agent editor (tab 5) *)

Definition provider_options : list string := ["openai"; "gemini"; "grok"].

(** [v in xs] for a list of strings: only a string equals a string. *)
Definition value_in (v : value) (xs : list string) : bool :=
  match v with
  | VStr s => Py.str_in s xs
  | _ => false
  end.

(** [xs.index(v)]. *)
Definition index_of_value (xs : list string) (v : value) : exn + nat :=
  match v with
  | VStr s => index_of xs s
  | _ => inl (str v ++ " is not in list")
  end.

(** The [index] argument of the provider selector. *)
Definition provider_index (agent : dict) : exn + nat :=
  let current_provider := get agent "provider" (VStr "openai") in
  if value_in current_provider provider_options
  then index_of_value provider_options current_provider
  else inr 0%nat.

(** The provider the selector shows, and stores into the agent, as long as
    the user does not pick another one. *)
Definition provider_offered (agent : dict) : exn + string :=
  match provider_index agent with
  | inl e => inl e
  | inr i =>
      match nth_error provider_options i with
      | Some p => inr p
      | None => inl "Selectbox index out of range"
      end
  end.

(* ================================================================== *)
(** ** app.py: the sheet setup and template tabs (tabs 2 and 3) *)

(** [s.split(sep)] for a separator of one character. *)
Fixpoint split_on (sep : ascii) (s : string) : list string :=
  match s with
  | EmptyString => [""]
  | String c s' =>
      if Ascii.eqb c sep then "" :: split_on sep s'
      else match split_on sep s' with
           | h :: t => String c h :: t
           | [] => [String c ""]
           end
  end.

(** [[h.strip() for h in headers_input.split(",") if h.strip()]]. *)
Definition parse_headers (headers_input : string) : list string :=
  map Py.strip
      (filter (fun h => Py.truthy (Py.strip h)) (split_on "," headers_input)).

Definition control_cols : list string :=
  [TRIGGER_COL; STATUS_COL; URL_COL; TS_COL; PDF_URL_COL].

Definition full_headers (headers_input : string) : list string :=
  parse_headers headers_input ++ control_cols.

(** The entries of [st.session_state] that the tabs share; [None] is a
    missing entry, or the entry [None]. *)
Record session_state : Type := {
  ss_spreadsheet_id : option string;
  ss_spreadsheet_url : option string;
  ss_dest_folder_id : option string;
  ss_template_id : option string
}.

(** Truth value of an entry read with [.get]. *)
Definition truthy_opt (x : option string) : bool :=
  match x with
  | Some s => Py.truthy s
  | None => false
  end.

(** The calls of the setup tabs into [google_utils]. *)
Inductive setup_call : Type :=
| EnsureFolder (folder_id name : string)
| CreateSheet (title : string) (headers : list string)
| UploadDocxAsGdoc (file_bytes title : string) (folder_id : option string)
| CreateGdocFromText (title text : string) (folder_id : option string).

Class DriveSetup (World : Type) : Type := {
  gs_ensure_folder : string -> string -> World -> World * (exn + string);
  gs_create_sheet :
    string -> list string -> World -> World * (exn + list (string * string));
  gs_upload_docx_as_gdoc :
    string -> string -> option string -> World -> World * (exn + string);
  gs_create_gdoc_from_text :
    string -> string -> option string -> World -> World * (exn + string)
}.

(** The state of the setup tabs: the session entries and, in order, the
    calls made so far. *)
Record setup_locals : Type := {
  ss : session_state;
  calls : list setup_call
}.

(** The card that shows the URL of the new sheet. *)
Definition sheet_card (url : string) : string :=
  Json.newline
  ++ "                    <div class='metric-card'>" ++ Json.newline
  ++ "                        <p><strong>Sheet URL:</strong></p>" ++ Json.newline
  ++ "                        <a href=" ++ Py.dquote ++ url ++ Py.dquote
  ++ " target=" ++ Py.dquote ++ "_blank" ++ Py.dquote ++ ">" ++ url ++ "</a>"
  ++ Json.newline
  ++ "                    </div>" ++ Json.newline
  ++ "                ".

Section Setup.

Context {World : Type} `{DriveSetup World}.

Local Abbreviation S := (M World setup_locals).

Definition call_out {A : Type} (c : setup_call)
           (f : World -> World * (exn + A)) : S A :=
  fun s =>
    let '(w, r) := f (world s) in
    ({| world := w;
        trace := trace s;
        locals := {| ss := ss (locals s); calls := calls (locals s) ++ [c] |} |},
     r).

Definition set_session (f : session_state -> session_state) : S unit :=
  modify_locals (fun l => {| ss := f (ss l); calls := calls l |}).

(** An expression that returns or raises. *)
Definition eval {A : Type} (r : exn + A) : S A :=
  match r with
  | inl e => raise e
  | inr a => ret a
  end.

(** What the "Create Sheet" button runs.  (Here and in the template tab
    the spinner shown around the body leaves no entry in the trace.) *)
Definition create_sheet_clicked
           (sheet_title headers_input folder_id create_dest_folder : string)
  : S unit :=
  try_except
    (dest_folder_id <-
       (if Py.truthy folder_id || Py.truthy create_dest_folder
        then id <- call_out (EnsureFolder folder_id create_dest_folder)
                            (gs_ensure_folder folder_id create_dest_folder) ;;
             ret (Some id)
        else ret None) ;;
     let headers := parse_headers headers_input in
     let full_headers := (headers ++ control_cols)%list in
     info <- call_out (CreateSheet sheet_title full_headers)
                      (gs_create_sheet sheet_title full_headers) ;;
     sid <- eval (subscript info "spreadsheet_id") ;;
     set_session (fun st => {| ss_spreadsheet_id := Some sid;
                               ss_spreadsheet_url := ss_spreadsheet_url st;
                               ss_dest_folder_id := ss_dest_folder_id st;
                               ss_template_id := ss_template_id st |}) ;;
     url <- eval (subscript info "url") ;;
     set_session (fun st => {| ss_spreadsheet_id := ss_spreadsheet_id st;
                               ss_spreadsheet_url := Some url;
                               ss_dest_folder_id := ss_dest_folder_id st;
                               ss_template_id := ss_template_id st |}) ;;
     set_session (fun st => {| ss_spreadsheet_id := ss_spreadsheet_id st;
                               ss_spreadsheet_url := ss_spreadsheet_url st;
                               ss_dest_folder_id := dest_folder_id;
                               ss_template_id := ss_template_id st |}) ;;
     emit (StSuccess "✅ Sheet created successfully!") ;;
     emit (StMarkdown (Text (sheet_card url))) ;;
     if truthy_opt dest_folder_id
     then emit (StInfo ("📁 Destination folder: "
                          ++ match dest_folder_id with
                             | Some id => id
                             | None => "None"
                             end))
     else ret tt)
    (fun e => emit (StError ("❌ Error creating sheet: " ++ e))).

(** What the "Use This Template" button runs. *)
Definition use_template_clicked (template_id : string) : S unit :=
  if Py.truthy (Py.strip template_id) then
    set_session (fun st => {| ss_spreadsheet_id := ss_spreadsheet_id st;
                              ss_spreadsheet_url := ss_spreadsheet_url st;
                              ss_dest_folder_id := ss_dest_folder_id st;
                              ss_template_id := Some (Py.strip template_id) |}) ;;
    emit (StSuccess ("✅ Template set: " ++ Py.strip template_id))
  else emit (StWarning "Please enter a template ID").

Definition set_template (new_id : string) : S unit :=
  set_session (fun st => {| ss_spreadsheet_id := ss_spreadsheet_id st;
                            ss_spreadsheet_url := ss_spreadsheet_url st;
                            ss_dest_folder_id := ss_dest_folder_id st;
                            ss_template_id := Some new_id |}).

(** The "Convert & Save" button; it is offered only once a file has been
    uploaded ([tpl_upload] holds its bytes). *)
Definition convert_clicked (tpl_upload : option string) (tpl_title : string)
  : S unit :=
  match tpl_upload with
  | None => ret tt
  | Some file_bytes =>
      try_except
        (l <- get_locals ;;
         let dest_folder_id := ss_dest_folder_id (ss l) in
         new_id <- call_out (UploadDocxAsGdoc file_bytes tpl_title dest_folder_id)
                            (gs_upload_docx_as_gdoc file_bytes tpl_title
                                                    dest_folder_id) ;;
         set_template new_id ;;
         emit (StSuccess ("✅ Converted successfully! ID: " ++ new_id)))
        (fun e => emit (StError ("❌ Conversion error: " ++ e)))
  end.

(** The "Create Template" button; it is offered only when the pasted text
    is not blank. *)
Definition create_template_clicked (tpl_text tpl_title : string) : S unit :=
  if Py.truthy (Py.strip tpl_text) then
    try_except
      (l <- get_locals ;;
       let dest_folder_id := ss_dest_folder_id (ss l) in
       new_id <- call_out (CreateGdocFromText tpl_title tpl_text dest_folder_id)
                          (gs_create_gdoc_from_text tpl_title tpl_text
                                                    dest_folder_id) ;;
       set_template new_id ;;
       emit (StSuccess ("✅ Template created! ID: " ++ new_id)))
      (fun e => emit (StError ("❌ Creation error: " ++ e)))
  else ret tt.

End Setup.

Section GeneratePage.

Context {World : Type} `{GoogleUtils World} `{Clock World}.

(** The generation tab from its first line: it asks for a spreadsheet,
    then for a template, and only then does its work. *)
Definition tab4_page (st : session_state) (o : gen_options)
  : M World counters unit :=
  if negb (truthy_opt (ss_spreadsheet_id st)) then
    emit (StWarning "⚠️ Please create or connect a spreadsheet first (Sheet Setup tab)")
  else if negb (truthy_opt (ss_template_id st)) then
    emit (StWarning "⚠️ Please configure a template first (Template Manager tab)")
  else
    match ss_spreadsheet_id st, ss_template_id st with
    | Some sid, Some tid =>
        tab4 {| spreadsheet_id := sid;
                template_id := tid;
                dest_folder_id := ss_dest_folder_id st |} o
    | _, _ => ret tt
    end.

End GeneratePage.

(** [", ".join(hs)]. *)
Fixpoint join_comma (hs : list string) : string :=
  match hs with
  | [] => ""
  | [h] => h
  | h :: hs' => h ++ ", " ++ join_comma hs'
  end.

(** [c in s] for a character. *)
Fixpoint has_char (c : ascii) (s : string) : bool :=
  match s with
  | EmptyString => false
  | String d s' => Ascii.eqb d c || has_char c s'
  end.

(** A header as [parse_headers] leaves it: not empty, nothing to strip,
    no comma. *)
Definition clean_header (h : string) : Prop :=
  h <> ""%string /\ Py.strip h = h /\ has_char "," h = false.

(** A stand-in for the setup services: folders and sheets are numbered. *)
#[export] Instance sim_drive_setup : DriveSetup sim := {
  gs_ensure_folder folder_id name w :=
    if drive_up w
    then (w, inr (if Py.truthy folder_id then folder_id else "folder-" ++ name))
    else (w, inl "Drive unavailable");
  gs_create_sheet title headers w :=
    if drive_up w
    then (with_sheet w {| columns := headers; rows := [] |},
          inr [("spreadsheet_id", "sheet" ++ Py.str_int (next_doc w));
               ("url", "https://docs.google.com/spreadsheets/d/sheet"
                         ++ Py.str_int (next_doc w))])
    else (w, inl "Drive unavailable");
  gs_upload_docx_as_gdoc _ _ _ w :=
    if drive_up w then (w, inr ("doc" ++ Py.str_int (next_doc w)))
    else (w, inl "Drive unavailable");
  gs_create_gdoc_from_text _ _ _ w :=
    if drive_up w then (w, inr ("doc" ++ Py.str_int (next_doc w)))
    else (w, inl "Drive unavailable")
}.

Definition no_session : session_state :=
  {| ss_spreadsheet_id := None; ss_spreadsheet_url := None;
     ss_dest_folder_id := None; ss_template_id := None |}.

Definition fresh_setup : setup_locals := {| ss := no_session; calls := [] |}.

(** What the progress bar shows after a trace: the arguments of the last
    [progress] call, if any. *)
Definition last_progress (tr : list event) : option (Z * Z) :=
  fold_left (fun shown ev =>
               match ev with
               | StProgress num den => Some (num, den)
               | _ => shown
               end) tr None.

(** The index of the last row acted upon, if any. *)
Definition last_selected (o : gen_options) (irs : list (Z * Series))
  : option Z :=
  fold_left (fun found ir => if selected o ir then Some (fst ir) else found)
            irs None.

(* ================================================================== *)
(** * Part II: properties *)
(* ================================================================== *)

(** ** Strings *)

Lemma append_assoc (a b c : string) : ((a ++ b) ++ c = a ++ (b ++ c))%string.
Proof. induction a as [|x a IH]; simpl; [reflexivity | now rewrite IH]. Qed.

Lemma append_empty_r (a : string) : (a ++ "" = a)%string.
Proof. induction a as [|x a IH]; simpl; [reflexivity | now rewrite IH]. Qed.

Lemma prefix_append (p s : string) : String.prefix p (p ++ s) = true.
Proof.
  induction p as [|c p IH]; simpl.
  - now destruct s.
  - destruct (ascii_dec c c) as [_|n]; [exact IH | now elim n].
Qed.

Lemma prefix_empty_l (s : string) : String.prefix "" s = true.
Proof. now destruct s. Qed.

Lemma occurs_empty (s : string) : Py.occurs "" s = true.
Proof. destruct s; simpl; reflexivity. Qed.

Lemma replace_from_absent (old new s : string) :
  Py.occurs old s = false -> Py.replace_from 0 old new s = s.
Proof.
  induction s as [|c s IH]; intros Hocc; [reflexivity|].
  cbn [Py.occurs] in Hocc. apply orb_false_iff in Hocc as [Hp Hs].
  cbn [Py.replace_from]. rewrite Hp, (IH Hs). reflexivity.
Qed.

(** A string in which [old] does not occur is left as it is. *)
Lemma replace_absent (s old new : string) :
  Py.occurs old s = false -> Py.replace s old new = s.
Proof.
  intros Hocc. destruct old as [|c old].
  - now rewrite occurs_empty in Hocc.
  - unfold Py.replace. now apply replace_from_absent.
Qed.

Lemma replace_from_skip (x old new b : string) :
  Py.replace_from (String.length x) old new (x ++ b)
  = Py.replace_from 0 old new b.
Proof.
  induction x as [|c x IH]; simpl.
  - destruct b; reflexivity.
  - exact IH.
Qed.

(** The leftmost occurrence is replaced and the scan goes on behind it. *)
Lemma replace_leftmost (a old new b : string) :
  old <> ""%string ->
  starts_within old a (old ++ b) = false ->
  Py.replace (a ++ old ++ b) old new = (a ++ new ++ Py.replace b old new)%string.
Proof.
  intros Hne. destruct old as [|c old]; [now elim Hne|].
  unfold Py.replace. induction a as [|x a IH]; intros Hw.
  - change ("" ++ String c old ++ b)%string with (String c (old ++ b)).
    cbn [Py.replace_from].
    change (String c (old ++ b)) with (String c old ++ b)%string.
    rewrite prefix_append.
    replace (String.length (String c old) - 1)%nat with (String.length old)
      by (cbn [String.length]; lia).
    now rewrite replace_from_skip.
  - cbn [starts_within] in Hw. apply orb_false_iff in Hw as [Hp Hw].
    change (String x a ++ String c old ++ b)%string
      with (String x (a ++ String c old ++ b)) in *.
    cbn [Py.replace_from]. rewrite Hp. rewrite (IH Hw). reflexivity.
Qed.

Lemma str_in_In (x : string) (xs : list string) :
  Py.str_in x xs = true <-> In x xs.
Proof.
  induction xs as [|y ys IH]; simpl.
  - split; [discriminate | tauto].
  - rewrite orb_true_iff, IH, String.eqb_eq. split; intros [E|E]; auto.
Qed.

Lemma int_in_In (x : Z) (xs : list Z) : Py.int_in x xs = true <-> In x xs.
Proof.
  induction xs as [|y ys IH]; simpl.
  - split; [discriminate | tauto].
  - rewrite orb_true_iff, IH, Z.eqb_eq. split; intros [E|E]; auto.
Qed.

Lemma truthy_false (s : string) : Py.truthy s = false <-> s = ""%string.
Proof. destruct s; simpl; split; congruence. Qed.

(** ** White space *)

Lemma prefix_split (p s : string) :
  String.prefix p s = true -> exists t, s = p ++ t.
Proof.
  revert s; induction p as [|c p IH]; intros s H.
  - now exists s.
  - destruct s as [|d s]; cbn in H; [discriminate|].
    destruct (ascii_dec c d) as [->|]; [|discriminate].
    destruct (IH _ H) as [t ->]. now exists t.
Qed.

Lemma leading_space_Some (s w : string) :
  Py.leading_space s = Some w -> In w Py.spaces /\ exists t, s = w ++ t.
Proof.
  unfold Py.leading_space; intros H.
  apply find_some in H as [Hin Hp]. split; [exact Hin|].
  now apply prefix_split.
Qed.

Lemma leading_space_app (w s : string) :
  In w Py.spaces -> Py.leading_space (w ++ s) = Some w.
Proof.
  intros Hin. revert s. unfold Py.spaces in Hin; cbn [In] in Hin.
  repeat (destruct Hin as [<-|Hin]; [intros [|c s]; reflexivity|]).
  destruct Hin.
Qed.

Lemma space_cons (w : string) :
  In w Py.spaces -> exists c w', w = String c w'.
Proof.
  intros Hin. unfold Py.spaces in Hin; cbn [In] in Hin.
  repeat (destruct Hin as [<-|Hin]; [eexists; eexists; reflexivity|]).
  destruct Hin.
Qed.

Lemma lstrip_from_skip (x s : string) :
  Py.lstrip_from (String.length x) (x ++ s) = Py.lstrip s.
Proof. induction x as [|c x IH]; cbn; [reflexivity | exact IH]. Qed.

Lemma lstrip_space (w s : string) :
  In w Py.spaces -> Py.lstrip (w ++ s) = Py.lstrip s.
Proof.
  intros Hin. destruct (space_cons w Hin) as (c & w' & ->).
  unfold Py.lstrip at 1. cbn [append Py.lstrip_from].
  change (String c (w' ++ s)) with (String c w' ++ s).
  rewrite (leading_space_app _ s Hin).
  replace (String.length (String c w') - 1)%nat with (String.length w')
    by (cbn; lia).
  apply lstrip_from_skip.
Qed.

Lemma lstrip_none (s : string) :
  Py.leading_space s = None -> Py.lstrip s = s.
Proof.
  intros H. destruct s as [|c s]; [reflexivity|].
  unfold Py.lstrip; cbn [Py.lstrip_from]. now rewrite H.
Qed.

Lemma Blank_app (a b : string) : Blank a -> Blank b -> Blank (a ++ b).
Proof.
  induction 1 as [|w s Hw Hs IH]; intros Hb; [exact Hb|].
  rewrite append_assoc. constructor; auto.
Qed.

Lemma lstrip_Blank (b s : string) : Blank b -> Py.lstrip (b ++ s) = Py.lstrip s.
Proof.
  induction 1 as [|w b Hw Hb IH]; [reflexivity|].
  rewrite append_assoc, lstrip_space by exact Hw. exact IH.
Qed.

Lemma length_append (a b : string) :
  String.length (a ++ b) = (String.length a + String.length b)%nat.
Proof. induction a as [|c a IH]; cbn; [reflexivity | now rewrite IH]. Qed.

Lemma lstrip_split (s : string) :
  exists b, Blank b /\ s = b ++ Py.lstrip s
            /\ Py.leading_space (Py.lstrip s) = None.
Proof.
  remember (String.length s) as n eqn:Hn.
  revert s Hn; induction n as [n IH] using lt_wf_ind; intros s Hn.
  destruct (Py.leading_space s) as [w|] eqn:Hl.
  - destruct (leading_space_Some _ _ Hl) as [Hin [t ->]].
    destruct (space_cons w Hin) as (c & w' & Hw).
    destruct (IH (String.length t)) with (s := t) as (b & Hb & Ht & Hnone);
      [subst; rewrite length_append; cbn; lia | reflexivity |].
    exists (w ++ b). rewrite lstrip_space by exact Hin.
    split; [now constructor|]. split; [|exact Hnone].
    rewrite append_assoc. now rewrite <- Ht.
  - exists "". rewrite lstrip_none by exact Hl.
    split; [constructor|]. split; [reflexivity | exact Hl].
Qed.

Lemma lstrip_idem (s : string) : Py.lstrip (Py.lstrip s) = Py.lstrip s.
Proof.
  destruct (lstrip_split s) as (b & _ & _ & H). now apply lstrip_none.
Qed.

Lemma blank_Blank (s : string) : Py.blank s = true <-> Blank s.
Proof.
  unfold Py.blank. split.
  - intros H. apply negb_true_iff, truthy_false in H.
    destruct (lstrip_split s) as (b & Hb & Hs & _).
    rewrite H, append_empty_r in Hs. now subst.
  - intros H. rewrite <- (append_empty_r s), lstrip_Blank by exact H.
    reflexivity.
Qed.

Lemma rstrip_split (s : string) :
  exists t, Blank t /\ s = Py.rstrip s ++ t.
Proof.
  induction s as [|c s IH].
  - exists "". split; [constructor | reflexivity].
  - cbn [Py.rstrip]. destruct (Py.blank (String c s)) eqn:Hb.
    + exists (String c s). split; [now apply blank_Blank | reflexivity].
    + destruct IH as (t & Ht & Hs). exists t. split; [exact Ht|].
      cbn. now rewrite <- Hs.
Qed.

Lemma rstrip_blank (s : string) : Blank s -> Py.rstrip s = "".
Proof.
  intros H. destruct s as [|c s]; [reflexivity|].
  cbn [Py.rstrip]. now rewrite (proj2 (blank_Blank _) H).
Qed.

Lemma rstrip_empty (s : string) : Py.rstrip s = "" -> Blank s.
Proof.
  destruct s as [|c s]; [constructor|].
  cbn [Py.rstrip]. destruct (Py.blank (String c s)) eqn:Hb; [|discriminate].
  intros _. now apply blank_Blank.
Qed.

Lemma rstrip_idem (s : string) : Py.rstrip (Py.rstrip s) = Py.rstrip s.
Proof.
  induction s as [|c s IH]; [reflexivity|].
  cbn [Py.rstrip]. destruct (Py.blank (String c s)) eqn:Hb; [reflexivity|].
  cbn [Py.rstrip]. rewrite IH.
  destruct (Py.blank (String c (Py.rstrip s))) eqn:Hb'; [|reflexivity].
  exfalso. apply blank_Blank in Hb'.
  destruct (rstrip_split s) as (t & Ht & Hs).
  assert (H : Blank (String c s)).
  { rewrite Hs. change (Blank (String c (Py.rstrip s) ++ t)).
    now apply Blank_app. }
  apply blank_Blank in H. congruence.
Qed.

Lemma prefix_app_l (w a b : string) :
  String.prefix w a = true -> String.prefix w (a ++ b) = true.
Proof.
  intros H. destruct (prefix_split _ _ H) as [t ->].
  rewrite append_assoc. apply prefix_append.
Qed.

Lemma leading_space_prefix (a b : string) :
  Py.leading_space (a ++ b) = None -> Py.leading_space a = None.
Proof.
  unfold Py.leading_space. intros H.
  destruct (find (fun w => String.prefix w a) Py.spaces) as [w|] eqn:Hf;
    [|reflexivity].
  apply find_some in Hf as [Hin Hp].
  apply (find_none _ _ H) in Hin. cbn in Hin.
  rewrite (prefix_app_l _ _ _ Hp) in Hin. discriminate.
Qed.

Lemma strip_idem (s : string) : Py.strip (Py.strip s) = Py.strip s.
Proof.
  unfold Py.strip.
  destruct (lstrip_split s) as (b & _ & _ & Hnone).
  destruct (rstrip_split (Py.lstrip s)) as (t & _ & Ht).
  rewrite Ht in Hnone. apply leading_space_prefix in Hnone.
  rewrite (lstrip_none _ Hnone). apply rstrip_idem.
Qed.

(** [s.strip()] is empty exactly when [s] is white space only. *)
Lemma strip_empty (s : string) : Py.strip s = "" <-> Blank s.
Proof.
  unfold Py.strip. split.
  - intros H. apply rstrip_empty in H.
    destruct (lstrip_split s) as (b & Hb & Hs & _).
    rewrite Hs. now apply Blank_app.
  - intros H. apply rstrip_blank.
    apply blank_Blank in H. unfold Py.blank in H.
    apply negb_true_iff, truthy_false in H. rewrite H. constructor.
Qed.

(** What [strip] removes is white space, at both ends. *)
Lemma strip_split (s : string) :
  exists lead trail, Blank lead /\ Blank trail
                     /\ s = lead ++ Py.strip s ++ trail.
Proof.
  unfold Py.strip.
  destruct (lstrip_split s) as (b & Hb & Hs & _).
  destruct (rstrip_split (Py.lstrip s)) as (t & Ht & Hr).
  exists b, t. split; [exact Hb|]. split; [exact Ht|].
  now rewrite <- Hr.
Qed.





(** ** Letter case *)

Lemma lower_word_char (c : ascii) (t : string) :
  is_word_char c = true ->
  Py.lower (String c t) = String c (Py.lower t)
  /\ Py.lower (String (capital c) t) = String c (Py.lower t).
Proof.
  destruct c as [[] [] [] [] [] [] [] []]; intros H;
    try discriminate H; split; reflexivity.
Qed.

Lemma lower_kelvin (t : string) :
  Py.lower (Py.kelvin ++ t) = String "k" (Py.lower t).
Proof. reflexivity. Qed.

Lemma lower_char_inv (c d : ascii) :
  Py.lower_char d = c -> d = c \/ d = capital c.
Proof.
  intros <-.
  destruct d as [[] [] [] [] [] [] [] []]; cbv; auto.
Qed.

Lemma lower_cons_inv (t : string) (c : ascii) (w : string) :
  Py.lower t = String c w ->
  exists t', Py.lower t' = w
    /\ (t = String c t' \/ t = String (capital c) t'
        \/ (c = "k"%char /\ t = Py.kelvin ++ t')).
Proof.
  destruct t as [|d t]; [discriminate|].
  cbn [Py.lower].
  destruct (nat_of_ascii d =? 226)%nat eqn:Hd.
  - assert (Hd' : d = "226"%char).
    { apply Nat.eqb_eq in Hd. rewrite <- (ascii_nat_embedding d), Hd.
      reflexivity. }
    subst d.
    assert (Hplain : String "226"%char (Py.lower t) = String c w ->
                     exists t', Py.lower t' = w
                       /\ (String "226"%char t = String c t'
                           \/ String "226"%char t = String (capital c) t'
                           \/ (c = "k"%char
                               /\ String "226"%char t = Py.kelvin ++ t'))).
    { intros H. injection H as <- <-. exists t. auto. }
    destruct t as [|c2 [|c3 rest]]; try exact Hplain.
    destruct ((nat_of_ascii c2 =? 132)%nat && (nat_of_ascii c3 =? 170)%nat)
      eqn:Hk; [|exact Hplain].
    apply andb_true_iff in Hk as [H2 H3].
    apply Nat.eqb_eq in H2, H3.
    rewrite <- (ascii_nat_embedding c2), H2.
    rewrite <- (ascii_nat_embedding c3), H3.
    intros H. injection H as <- <-. exists rest.
    split; [reflexivity|]. right; right. split; reflexivity.
  - intros H. injection H as Hc Hw. exists t. split; [exact Hw|].
    destruct (lower_char_inv _ _ Hc) as [->| ->]; auto.
Qed.

Lemma lower_empty (t : string) : Py.lower t = "" -> t = "".
Proof.
  destruct t as [|d t]; [reflexivity|]. cbn [Py.lower].
  destruct (nat_of_ascii d =? 226)%nat; [|discriminate].
  destruct t as [|c2 [|c3 rest]]; try discriminate.
  destruct ((nat_of_ascii c2 =? 132)%nat && (nat_of_ascii c3 =? 170)%nat);
    discriminate.
Qed.

(** A text lowers to [w] only if it spells [w]. *)
Lemma lower_spells (w t : string) : Py.lower t = w -> spelled w t.
Proof.
  revert t; induction w as [|c w IH]; intros t H; cbn [spelled].
  - now apply lower_empty.
  - destruct (lower_cons_inv _ _ _ H) as (t' & Hw & Ht).
    exists t'. split; [now apply IH | exact Ht].
Qed.

(** Every spelling of a word of small letters and digits lowers to it. *)
Lemma spelled_lower (w t : string) :
  forallb is_word_char (list_ascii_of_string w) = true ->
  spelled w t -> Py.lower t = w.
Proof.
  revert t; induction w as [|c w IH]; intros t Hw H; cbn [spelled] in H.
  - now subst.
  - cbn in Hw. apply andb_true_iff in Hw as [Hc Hw].
    destruct H as (t' & Ht' & [->|[->|[-> ->]]]).
    + rewrite (proj1 (lower_word_char c t' Hc)). now rewrite (IH _ Hw Ht').
    + rewrite (proj2 (lower_word_char c t' Hc)). now rewrite (IH _ Hw Ht').
    + rewrite lower_kelvin. now rewrite (IH _ Hw Ht').
Qed.

Lemma word_char_visible (c : ascii) (t : string) :
  is_word_char c = true ->
  Py.leading_space (String c t) = None
  /\ Py.leading_space (String (capital c) t) = None.
Proof.
  destruct c as [[] [] [] [] [] [] [] []]; intros H;
    try discriminate H; split; reflexivity.
Qed.

Lemma blank_visible (s : string) :
  s <> ""%string -> Py.leading_space s = None -> Py.blank s = false.
Proof.
  intros Hs H. unfold Py.blank. rewrite (lstrip_none _ H).
  destruct s; [congruence | reflexivity].
Qed.

Lemma rstrip_visible (c : ascii) (s : string) :
  Py.leading_space (String c s) = None ->
  Py.rstrip (String c s) = String c (Py.rstrip s).
Proof.
  intros H. cbn [Py.rstrip]. rewrite blank_visible; [reflexivity | discriminate | exact H].
Qed.

Lemma rstrip_kelvin (s : string) :
  Py.rstrip (Py.kelvin ++ s) = Py.kelvin ++ Py.rstrip s.
Proof.
  change (Py.kelvin ++ s)
    with (String "226"%char (String "132"%char (String "170"%char s))).
  rewrite !rstrip_visible by reflexivity. reflexivity.
Qed.

(** White space after a spelled word is cut, and nothing of the word. *)
Lemma rstrip_spelled (w t trail : string) :
  forallb is_word_char (list_ascii_of_string w) = true ->
  spelled w t -> Blank trail -> Py.rstrip (t ++ trail) = t.
Proof.
  revert t; induction w as [|c w IH]; intros t Hw H Hb; cbn [spelled] in H.
  - subst. now apply rstrip_blank.
  - cbn in Hw. apply andb_true_iff in Hw as [Hc Hw].
    destruct H as (t' & Ht' & [->|[->|[-> ->]]]).
    + cbn [append]. rewrite rstrip_visible
        by apply (proj1 (word_char_visible c _ Hc)).
      now rewrite (IH _ Hw Ht' Hb).
    + cbn [append]. rewrite rstrip_visible
        by apply (proj2 (word_char_visible c _ Hc)).
      now rewrite (IH _ Hw Ht' Hb).
    + rewrite append_assoc, rstrip_kelvin. now rewrite (IH _ Hw Ht' Hb).
Qed.

Lemma lstrip_spelled (c : ascii) (w t trail : string) :
  is_word_char c = true ->
  spelled (String c w) t -> Py.lstrip (t ++ trail) = t ++ trail.
Proof.
  intros Hc H. cbn [spelled] in H.
  destruct H as (t' & _ & [->|[->|[-> ->]]]); apply lstrip_none.
  - apply (proj1 (word_char_visible c _ Hc)).
  - apply (proj2 (word_char_visible c _ Hc)).
  - reflexivity.
Qed.

(** [strip] gives back a spelled word whatever white space surrounds it. *)
Lemma strip_spelled (w t lead trail : string) :
  forallb is_word_char (list_ascii_of_string w) = true ->
  spelled w t -> Blank lead -> Blank trail ->
  Py.strip (lead ++ t ++ trail) = t.
Proof.
  intros Hw H Hl Ht. unfold Py.strip. rewrite lstrip_Blank by exact Hl.
  destruct w as [|c w].
  - cbn in H. subst t. cbn [append].
    apply rstrip_blank. apply blank_Blank in Ht. unfold Py.blank in Ht.
    apply negb_true_iff, truthy_false in Ht. rewrite Ht. constructor.
  - assert (Hc : is_word_char c = true)
      by (cbn in Hw; now apply andb_true_iff in Hw as [Hc _]).
    rewrite (lstrip_spelled c w t trail Hc H).
    now apply (rstrip_spelled (String c w)).
Qed.


(** The string builtins on text that is not ASCII: white space of any
    kind is stripped, a cut counts characters and not bytes, and the Kelvin
    sign lowers to a small k. *)
Example string_examples :
  Py.strip (" " ++ nbsp ++ "a b" ++ Py.utf8 8195 ++ Json.newline) = "a b"
  /\ Py.strip (nbsp ++ Py.utf8 12288) = ""
  /\ Py.strip "é  " = "é"
  /\ Py.strip ("x" ++ nbsp ++ "y") = "x" ++ nbsp ++ "y"
  /\ Py.slice_to 3 "año nuevo" = "año"
  /\ String.length "año" = 4%nat
  /\ Py.slice_to 2 ("a" ++ nbsp ++ "bc") = "a" ++ nbsp
  /\ Py.slice_to 100 "Drive unavailable" = "Drive unavailable"
  /\ Py.lower ("DONE" ++ Py.kelvin) = "donek".
Proof. vm_compute. repeat split. Qed.

(** ** The status badge *)

Lemma startswith_head (s p : string) (c d : ascii) :
  Py.startswith (String c s) (String d p) = true -> c = d.
Proof.
  unfold Py.startswith. cbn [String.prefix].
  destruct (ascii_dec d c); [congruence | discriminate].
Qed.

Lemma done_not_missing (status : value) :
  Py.startswith (Py.lower (str status)) "done" = true ->
  isna status || is_empty_str status = false.
Proof.
  destruct status as [| |b|z|r|s]; try reflexivity; try discriminate.
  destruct s; [discriminate | reflexivity].
Qed.

Lemma error_not_missing (status : value) :
  Py.startswith (Py.lower (str status)) "error" = true ->
  isna status || is_empty_str status = false.
Proof.
  destruct status as [| |b|z|r|s]; try reflexivity; try discriminate.
  destruct s; [discriminate | reflexivity].
Qed.

Lemma error_not_done (s : string) :
  Py.startswith s "error" = true -> Py.startswith s "done" = false.
Proof.
  destruct s as [|c s]; [discriminate|].
  intros He. apply startswith_head in He. subst c. reflexivity.
Qed.

(** C9.  [render_status_badge] is a total function and classifies every
    status: a missing value (NaN, or None, which [pd.isna] treats alike) or
    the empty string gives the pending badge reading "Pending"; a status
    whose lowercased string form starts with "done" gives the success badge
    reading "✓ Done"; one that starts with "error" gives the error badge
    reading "✗ Error"; every other status gives the pending badge showing
    the status text itself. *)
Theorem render_status_badge_classifies (status : value) :
  let s := Py.lower (str status) in
  (isna status = true \/ status = VStr "" ->
     render_status_badge status = badge "status-pending" "Pending")
  /\ (Py.startswith s "done" = true ->
        render_status_badge status = badge "status-success" "✓ Done")
  /\ (Py.startswith s "error" = true ->
        render_status_badge status = badge "status-error" "✗ Error")
  /\ (isna status = false -> status <> VStr "" ->
      Py.startswith s "done" = false -> Py.startswith s "error" = false ->
        render_status_badge status = badge "status-pending" (str status)).
Proof.
  cbv zeta. unfold render_status_badge, badge. repeat split.
  - intros [Hna | ->]; [rewrite Hna|]; reflexivity.
  - intros Hd. rewrite (done_not_missing _ Hd), Hd. reflexivity.
  - intros He. rewrite (error_not_missing _ He), (error_not_done _ He), He.
    reflexivity.
  - intros Hna Hne Hd He. rewrite Hna, Hd, He.
    destruct status as [| |b|z|r|s]; try reflexivity.
    destruct s; [now elim Hne | reflexivity].
Qed.

(** ** Themes *)





(** ** Float arithmetic *)

Lemma pow2_pos (e : Z) : (0 < F64.pow2 e)%Q.
Proof. apply Qpower_0_lt. reflexivity. Qed.

Lemma pow2_add (a b : Z) : (F64.pow2 (a + b) == F64.pow2 a * F64.pow2 b)%Q.
Proof. apply Qpower_plus. discriminate. Qed.

Lemma pow2_le (a b : Z) : a <= b -> (F64.pow2 a <= F64.pow2 b)%Q.
Proof. intros H. apply Qpower_le_compat_l; [exact H | discriminate]. Qed.

Lemma pow2_lt_inv (a b : Z) : (F64.pow2 a < F64.pow2 b)%Q -> a < b.
Proof. intros H. apply (Qpower_lt_compat_l_inv 2); [exact H | reflexivity]. Qed.

Lemma pow2_Z (n : Z) : 0 <= n -> (inject_Z (2 ^ n) == F64.pow2 n)%Q.
Proof. intros H. apply (Zpower_Qpower 2 n H). Qed.

Lemma ilog2_spec (q : Q) :
  (0 < q)%Q ->
  (F64.pow2 (F64.ilog2 q) <= q)%Q /\ (q < F64.pow2 (F64.ilog2 q + 1))%Q.
Proof.
  intros Hq. destruct q as [n d].
  assert (Hn : 0 < n) by (unfold Qlt in Hq; cbn in Hq; lia).
  unfold F64.ilog2; cbn [Qnum Qden].
  set (a := Z.log2 n). set (b := Z.log2 (Z.pos d)).
  destruct (Z.log2_spec n Hn) as [Ha1 Ha2].
  destruct (Z.log2_spec (Z.pos d) (eq_refl : 0 < Z.pos d)) as [Hb1 Hb2].
  fold a in Ha1, Ha2. fold b in Hb1, Hb2.
  assert (Ha0 : 0 <= a) by apply Z.log2_nonneg.
  assert (Hb0 : 0 <= b) by apply Z.log2_nonneg.
  assert (Qa1 : (F64.pow2 a <= inject_Z n)%Q)
    by (rewrite <- pow2_Z by lia; now rewrite <- Zle_Qle).
  assert (Qa2 : (inject_Z n < F64.pow2 (a + 1))%Q)
    by (rewrite <- pow2_Z by lia; rewrite <- Zlt_Qlt; now rewrite <- Z.add_1_r in Ha2).
  assert (Qb1 : (F64.pow2 b <= inject_Z (Z.pos d))%Q)
    by (rewrite <- pow2_Z by lia; now rewrite <- Zle_Qle).
  assert (Qb2 : (inject_Z (Z.pos d) < F64.pow2 (b + 1))%Q)
    by (rewrite <- pow2_Z by lia; rewrite <- Zlt_Qlt; now rewrite <- Z.add_1_r in Hb2).
  assert (Hd : (0 < inject_Z (Z.pos d))%Q) by reflexivity.
  assert (Eq : (n # d == inject_Z n / inject_Z (Z.pos d))%Q) by apply Qmake_Qdiv.
  assert (Hup : (n # d < F64.pow2 (a - b + 1))%Q).
  { rewrite Eq. apply Qlt_shift_div_r; [exact Hd|].
    apply Qlt_le_trans with (1 := Qa2).
    replace (a + 1) with ((a - b + 1) + b) by lia. rewrite pow2_add.
    apply Qmult_le_l; [apply pow2_pos | exact Qb1]. }
  assert (Hlo : (F64.pow2 (a - b - 1) <= n # d)%Q).
  { rewrite Eq. apply Qle_shift_div_l; [exact Hd|].
    apply Qle_trans with (2 := Qa1).
    replace a with ((a - b - 1) + (b + 1)) at 2 by lia. rewrite pow2_add.
    apply Qmult_le_l; [apply pow2_pos | apply Qlt_le_weak, Qb2]. }
  destruct (Qle_bool (F64.pow2 (a - b)) (n # d)) eqn:Hc.
  - apply Qle_bool_iff in Hc. split; [exact Hc | exact Hup].
  - split; [exact Hlo|].
    replace (a - b - 1 + 1) with (a - b) by lia.
    apply Qnot_le_lt. intros H. apply Qle_bool_iff in H. congruence.
Qed.

Lemma ilog2_mono (p q : Q) :
  (0 < p)%Q -> (p <= q)%Q -> F64.ilog2 p <= F64.ilog2 q.
Proof.
  intros Hp Hpq.
  assert (Hq : (0 < q)%Q) by (apply Qlt_le_trans with (1 := Hp); exact Hpq).
  destruct (ilog2_spec p Hp) as [H1 _]. destruct (ilog2_spec q Hq) as [_ H2].
  assert (H : (F64.pow2 (F64.ilog2 p) < F64.pow2 (F64.ilog2 q + 1))%Q).
  { apply Qle_lt_trans with (1 := H1). apply Qle_lt_trans with (1 := Hpq).
    exact H2. }
  apply pow2_lt_inv in H. lia.
Qed.

Lemma nearest_even_range (x : Q) :
  Qfloor x <= F64.nearest_even x <= Qfloor x + 1.
Proof.
  unfold F64.nearest_even.
  destruct (x - inject_Z (Qfloor x) ?= 1 # 2)%Q; [destruct (Z.even _)| |]; lia.
Qed.

Lemma nearest_even_ge (n : Z) (x : Q) :
  (inject_Z n <= x)%Q -> n <= F64.nearest_even x.
Proof.
  intros H. apply Qfloor_resp_le in H. rewrite Qfloor_Z in H.
  pose proof (nearest_even_range x). lia.
Qed.

Lemma nearest_even_le (n : Z) (x : Q) :
  (x <= inject_Z n)%Q -> F64.nearest_even x <= n.
Proof.
  intros H. pose proof (Qfloor_resp_le _ _ H) as Hf. rewrite Qfloor_Z in Hf.
  pose proof (nearest_even_range x) as Hr.
  destruct (Z.eq_dec (Qfloor x) n) as [E|E]; [|lia].
  unfold F64.nearest_even.
  assert (Hx : (inject_Z (Qfloor x) <= x)%Q) by apply Qfloor_le.
  rewrite E in *.
  destruct (Qcompare_spec (x - inject_Z n) (1 # 2)) as [C|C|C];
    try lia; exfalso; lra.
Qed.

Lemma nearest_even_mono (x y : Q) :
  (x <= y)%Q -> F64.nearest_even x <= F64.nearest_even y.
Proof.
  intros H. pose proof (Qfloor_resp_le _ _ H) as Hf.
  pose proof (nearest_even_range x) as Hx.
  pose proof (nearest_even_range y) as Hy.
  destruct (Z.eq_dec (Qfloor x) (Qfloor y)) as [E|E]; [|lia].
  unfold F64.nearest_even in *. rewrite <- E in *.
  destruct (Qcompare_spec (x - inject_Z (Qfloor x)) (1 # 2)) as [Cx|Cx|Cx];
    destruct (Qcompare_spec (y - inject_Z (Qfloor x)) (1 # 2)) as [Cy|Cy|Cy];
    try lia; try (exfalso; lra);
    destruct (Z.even (Qfloor x)); lia.
Qed.

Lemma scaled_range (q : Q) :
  (0 < q)%Q ->
  (inject_Z (2 ^ 52) <= q / F64.pow2 (F64.ilog2 q - 52))%Q
  /\ (q / F64.pow2 (F64.ilog2 q - 52) <= inject_Z (2 ^ 53))%Q.
Proof.
  intros Hq. destruct (ilog2_spec q Hq) as [H1 H2].
  set (k := F64.ilog2 q) in *.
  rewrite !pow2_Z by lia. split.
  - apply Qle_shift_div_l; [apply pow2_pos|].
    rewrite <- pow2_add. now replace (52 + (k - 52)) with k by lia.
  - apply Qle_shift_div_r; [apply pow2_pos|].
    rewrite <- pow2_add. replace (53 + (k - 52)) with (k + 1) by lia.
    now apply Qlt_le_weak.
Qed.

Lemma round_pos_range (q : Q) :
  (0 < q)%Q ->
  (F64.pow2 (F64.ilog2 q) <= F64.round_pos q)%Q
  /\ (F64.round_pos q <= F64.pow2 (F64.ilog2 q + 1))%Q.
Proof.
  intros Hq. destruct (scaled_range q Hq) as [H1 H2].
  apply nearest_even_ge in H1. apply nearest_even_le in H2.
  unfold F64.round_pos. set (k := F64.ilog2 q) in *.
  set (m := F64.nearest_even _) in *.
  rewrite Zle_Qle in H1, H2. rewrite !pow2_Z in H1, H2 by lia. split.
  - replace k with (52 + (k - 52)) at 1 by lia. rewrite pow2_add.
    apply Qmult_le_compat_r; [exact H1 | apply Qlt_le_weak, pow2_pos].
  - replace (k + 1) with (53 + (k - 52)) by lia. rewrite pow2_add.
    apply Qmult_le_compat_r; [exact H2 | apply Qlt_le_weak, pow2_pos].
Qed.

Lemma round_pos_mono (p q : Q) :
  (0 < p)%Q -> (p <= q)%Q -> (F64.round_pos p <= F64.round_pos q)%Q.
Proof.
  intros Hp Hpq.
  assert (Hq : (0 < q)%Q) by (apply Qlt_le_trans with (1 := Hp); exact Hpq).
  pose proof (ilog2_mono p q Hp Hpq) as Hk.
  destruct (Z.eq_dec (F64.ilog2 p) (F64.ilog2 q)) as [E|E].
  - unfold F64.round_pos. rewrite E. set (e := F64.ilog2 q - 52).
    apply Qmult_le_compat_r; [|apply Qlt_le_weak, pow2_pos].
    rewrite <- Zle_Qle. apply nearest_even_mono.
    apply Qmult_le_compat_r; [exact Hpq|].
    apply Qlt_le_weak, Qinv_lt_0_compat, pow2_pos.
  - destruct (round_pos_range p Hp) as [_ H1].
    destruct (round_pos_range q Hq) as [H2 _].
    apply Qle_trans with (1 := H1). apply Qle_trans with (2 := H2).
    apply pow2_le. lia.
Qed.

Lemma round_pos_pos (q : Q) : (0 < q)%Q -> (0 < F64.round_pos q)%Q.
Proof.
  intros Hq. destruct (round_pos_range q Hq) as [H _].
  apply Qlt_le_trans with (2 := H). apply pow2_pos.
Qed.

(** Rounding keeps the order of the numbers it rounds. *)
Lemma round_mono (p q : Q) :
  (0 <= p)%Q -> (p <= q)%Q -> (F64.round p <= F64.round q)%Q.
Proof.
  intros Hp Hpq. unfold F64.round.
  destruct (Qcompare_spec p 0) as [Cp|Cp|Cp];
    destruct (Qcompare_spec q 0) as [Cq|Cq|Cq];
    try (exfalso; lra).
  - apply Qle_refl.
  - apply Qlt_le_weak, round_pos_pos. exact Cq.
  - apply round_pos_mono; [exact Cp | exact Hpq].
Qed.

(** ** The dashboard metrics *)

Lemma sum_bools_from (p : value -> bool) (vs : list value) (acc : Z) :
  fold_left (fun a b => a + b2z b) (map p vs) acc
  = acc + Z.of_nat (length (filter p vs)).
Proof.
  revert acc. induction vs as [|v vs IH]; intros acc; simpl; [lia|].
  rewrite IH. destruct (p v); simpl length; unfold b2z; lia.
Qed.

(** Summing a boolean series counts its true entries. *)
Lemma sum_bools_count (p : value -> bool) (vs : list value) :
  sum_bools (map p vs) = Z.of_nat (length (filter p vs)).
Proof. unfold sum_bools. rewrite sum_bools_from. lia. Qed.

Lemma filter_map_length {A B : Type} (f : A -> B) (p : B -> bool) (xs : list A) :
  length (filter p (map f xs)) = length (filter (fun x => p (f x)) xs).
Proof.
  induction xs as [|x xs IH]; simpl; [reflexivity|].
  destruct (p (f x)); simpl; now rewrite IH.
Qed.

Lemma len_nonneg (df : DataFrame) : 0 <= len df.
Proof. unfold len. lia. Qed.

(** The dashboard's rate for 29 rows done out of 50 is the float
    57.99999999999999, not 58: the quotient 0.58 and its product with 100
    are both rounded. *)
Example rate_29_of_50 :
  Qred (F64.mul (F64.div (F64.of_int 29) (F64.of_int 50)) (F64.of_int 100))
  = (8162774324609023 # 140737488355328)%Q
  /\ (F64.mul (F64.div (F64.of_int 29) (F64.of_int 50)) (F64.of_int 100)
      < 58)%Q.
Proof. split; vm_compute; reflexivity. Qed.

(** C4.  With a status column in the sheet, the dashboard metrics are:
    [total_rows] the number of rows, [done_count] the number of rows whose
    status as a string starts with "Done", [error_count] the number starting
    with "Error", [pending_count] the total minus the two, and
    [success_rate] the done count divided by the total times 100 -- as
    Python computes it on floats: the quotient of the two counts, rounded,
    times 100, rounded again -- and 0 when there is no row. *)
Theorem compute_metrics_spec (df : DataFrame) :
  Py.str_in STATUS_COL (columns df) = true ->
  exists m : metrics,
    compute_metrics df = inr m
    /\ total_rows m = len df
    /\ done_count m = count_status (fun s => Py.startswith s "Done") df
    /\ error_count m = count_status (fun s => Py.startswith s "Error") df
    /\ pending_count m = total_rows m - done_count m - error_count m
    /\ success_rate m
       = if total_rows m =? 0 then 0%Q
         else F64.mul (F64.div (F64.of_int (done_count m))
                               (F64.of_int (total_rows m)))
                      (F64.of_int 100).
Proof.
  intros Hcol. unfold compute_metrics, column. rewrite Hcol.
  eexists. split; [reflexivity|]. cbn [total_rows done_count error_count
                                       pending_count success_rate].
  repeat split.
  - rewrite sum_bools_count, filter_map_length. reflexivity.
  - rewrite sum_bools_count, filter_map_length. reflexivity.
  - pose proof (len_nonneg df) as Hn.
    destruct (Z.eqb_spec (len df) 0) as [E|E].
    + rewrite E. reflexivity.
    + destruct (Z.gtb_spec (len df) 0); [reflexivity | lia].
Qed.

(** The witness of C4: the sample sheet has one row done out of three, and
    its rate is the float 33.33333333333333. *)
Lemma compute_metrics_spec_witness :
  exists m : metrics,
    compute_metrics sample_df = inr m
    /\ total_rows m = 3
    /\ done_count m = 1
    /\ error_count m = 0
    /\ pending_count m = 2
    /\ Qred (success_rate m) = (2345624805922133 # 70368744177664)%Q.
Proof.
  destruct (compute_metrics_spec sample_df) as (m & Hm & Ht & Hd & He & Hp & Hr);
    [reflexivity|].
  exists m. rewrite Hr, Hp, Ht, Hd, He.
  split; [exact Hm|]. repeat split; vm_compute; reflexivity.
Defined.

(** No row is counted twice: the pending rows are those whose status starts
    with neither word, so the pending count is never negative. *)
Lemma pending_count_rows (df : DataFrame) (m : metrics) :
  compute_metrics df = inr m ->
  pending_count m
  = count_status (fun s => negb (Py.startswith s "Done")
                           && negb (Py.startswith s "Error")) df.
Proof.
  unfold compute_metrics, column.
  destruct (Py.str_in STATUS_COL (columns df)); [|discriminate].
  intros [= <-]. cbn [pending_count].
  rewrite !sum_bools_count, !filter_map_length. unfold count_status, len.
  induction (rows df) as [|cells rs IH]; [reflexivity|].
  cbn [filter length].
  destruct (Py.startswith (str (get (series df cells) STATUS_COL VNaN)) "Done")
    eqn:Hd;
    destruct (Py.startswith (str (get (series df cells) STATUS_COL VNaN)) "Error")
      eqn:He; cbn [negb andb length]; try lia.
  destruct (str (get (series df cells) STATUS_COL VNaN)) as [|c s];
    [discriminate|].
  apply startswith_head in Hd, He. congruence.
Qed.

(** ** The selection filter *)

Lemma negb_false (b : bool) : negb b = false <-> b = true.
Proof. destruct b; simpl; split; congruence. Qed.

(** ** The file name *)

Lemma build_filename_fold (pattern : string) (cols : list string) (row : Series) :
  build_filename pattern cols row = substitute_all pattern cols row.
Proof.
  unfold substitute_all. revert pattern.
  induction cols as [|col cols IH]; intros pattern; [reflexivity|].
  cbn [build_filename fold_left]. now rewrite IH.
Qed.

Lemma placeholder_nonempty (col : string) : placeholder col <> ""%string.
Proof. unfold placeholder. discriminate. Qed.

(** C6.  The file name is the pattern in which, column after column in the
    order of the dataframe, the text "{{" + column + "}}" has been replaced
    by the row's value for that column as a string.  A replacement rewrites
    the leftmost occurrence and goes on behind it, so that every occurrence
    is rewritten; a pattern without any placeholder comes back unchanged. *)
Theorem build_filename_spec (pattern : string) (cols : list string) (row : Series) :
  build_filename pattern cols row = substitute_all pattern cols row
  /\ (forall (col a b : string),
        starts_within (placeholder col) a (placeholder col ++ b) = false ->
        substitute row (a ++ placeholder col ++ b) col
        = (a ++ str (get row col (VStr ""))
             ++ substitute row b col)%string)
  /\ ((forall col, In col cols -> Py.occurs (placeholder col) pattern = false) ->
      build_filename pattern cols row = pattern).
Proof.
  split; [apply build_filename_fold|]. split.
  - intros col a b Hw. unfold substitute.
    apply replace_leftmost; [apply placeholder_nonempty | exact Hw].
  - revert pattern. induction cols as [|col cols IH]; intros pattern Hno;
      [reflexivity|].
    cbn [build_filename]. rewrite replace_absent by (apply Hno; now left).
    apply IH. intros c Hc. apply Hno. now right.
Qed.

(** The witness of C6: the default pattern on the first sample row, and a
    pattern without placeholders. *)
Lemma build_filename_spec_witness :
  build_filename "{{Company}} - {{Industry}} Report" ["Company"; "Industry"]
                 [("Company", VStr "Acme"); ("Industry", VStr "Tools")]
  = "Acme - Tools Report"%string
  /\ build_filename "Quarterly report" ["Company"; "Industry"]
                    [("Company", VStr "Acme"); ("Industry", VStr "Tools")]
     = "Quarterly report"%string.
Proof.
  split.
  - rewrite (proj1 (build_filename_spec _ _ _)). reflexivity.
  - apply (proj2 (proj2 (build_filename_spec _ _ _))).
    intros col [<-|[<-|[]]]; reflexivity.
Defined.

(** ** JSON *)

Lemma occurs_middle (x a b : string) : Py.occurs x (a ++ x ++ b) = true.
Proof.
  induction a as [|c a IH].
  - cbn [append]. destruct (x ++ b) eqn:E; cbn [Py.occurs];
      rewrite <- E, prefix_append; reflexivity.
  - cbn [append Py.occurs]. rewrite IH. apply orb_true_r.
Qed.

Lemma encode_items_has (d : dict) (kv : string * value) :
  In kv d -> exists a b, Json.encode_items d = a ++ Json.encode_item kv ++ b.
Proof.
  induction d as [|kv0 d IH]; intros Hin; [elim Hin|].
  destruct Hin as [->|Hin].
  - exists "". destruct d as [|kv1 d]; cbn [Json.encode_items append].
    + exists "". now rewrite append_empty_r.
    + eexists. reflexivity.
  - destruct (IH Hin) as (a & b & E). destruct d as [|kv1 d]; [elim Hin|].
    cbn [Json.encode_items]. cbn [Json.encode_items] in E. rewrite E.
    exists (Json.encode_item kv0 ++ "," ++ Json.newline ++ "  " ++ a), b.
    now rewrite !append_assoc.
Qed.

(** Every entry of a dictionary is in its JSON text, the key and the value
    in their JSON form with a colon between them. *)
Lemma dumps_has_item (d : dict) (kv : string * value) :
  In kv d -> Py.occurs (Json.encode_item kv) (Json.dumps d) = true.
Proof.
  intros Hin. destruct (encode_items_has d kv Hin) as (a & b & E).
  destruct d as [|kv0 d]; [elim Hin|].
  unfold Json.dumps. rewrite E.
  replace ("{" ++ Json.newline ++ "  "
               ++ (a ++ Json.encode_item kv ++ b) ++ Json.newline ++ "}")
    with (("{" ++ Json.newline ++ "  " ++ a)
            ++ Json.encode_item kv ++ (b ++ Json.newline ++ "}"))
    by (now rewrite !append_assoc).
  apply occurs_middle.
Qed.

Lemma read_json_string_app (s tail : string) :
  read_json_string (Json.escape s ++ tail)
  = match read_json_string tail with
    | Some (t, rest) => Some (s ++ t, rest)
    | None => None
    end.
Proof.
  induction s as [|c s IH].
  - cbn [Json.escape append]. now destruct (read_json_string tail) as [[t r]|].
  - cbn [Json.escape]. rewrite append_assoc.
    set (body := Json.escape s ++ tail) in *.
    destruct c as [[] [] [] [] [] [] [] []];
      match goal with
      | |- context [Json.escape_char ?c] =>
          let e := eval vm_compute in (Json.escape_char c) in
          change (Json.escape_char c) with e
      end;
      cbn; rewrite IH; destruct (read_json_string tail) as [[t r]|];
      reflexivity.
Qed.

(** The JSON text of a string loses nothing: reading the literal back gives
    the string, whatever quotes, backslashes and control characters it
    holds. *)
Lemma read_json_string_escape (s rest : string) :
  read_json_string (Json.escape s ++ Py.dquote ++ rest) = Some (s, rest).
Proof.
  rewrite read_json_string_app.
  change (read_json_string (Py.dquote ++ rest)) with (Some (""%string, rest)).
  cbv beta iota. now rewrite append_empty_r.
Qed.

Lemma dict_get_absent (d : dict) (k : string) :
  ~ In k (map fst d) -> dict_get d k = None.
Proof.
  induction d as [|[k' v'] d IH]; intros Hno; [reflexivity|].
  cbn [dict_get]. destruct (String.eqb_spec k' k) as [->|Hne].
  - elim Hno. now left.
  - apply IH. intros Hin. apply Hno. now right.
Qed.

Lemma dict_set_fresh (d : dict) (k : string) (v : value) :
  ~ In k (map fst d) -> dict_set d k v = (d ++ [(k, v)])%list.
Proof.
  induction d as [|[k' v'] d IH]; intros Hno; [reflexivity|].
  cbn [dict_set app]. destruct (String.eqb_spec k' k) as [->|Hne].
  - elim Hno. now left.
  - rewrite IH; [reflexivity|]. intros Hin. apply Hno. now right.
Qed.

Lemma to_dict_from (row acc : dict) :
  NoDup (map fst (acc ++ row)%list) ->
  fold_left (fun d kv => dict_set d (fst kv) (snd kv)) row acc
  = (acc ++ row)%list.
Proof.
  revert acc. induction row as [|[k v] row IH]; intros acc Hnd.
  - now rewrite app_nil_r.
  - cbn [fold_left fst snd]. rewrite dict_set_fresh.
    + rewrite IH; rewrite <- app_assoc; [reflexivity | exact Hnd].
    + rewrite map_app in Hnd. cbn [map fst] in Hnd.
      apply NoDup_remove_2 in Hnd. intros Hin. apply Hnd.
      apply in_or_app. now left.
Qed.

(** A row with distinct labels becomes the dictionary of its cells, label
    by label, in the order of the columns. *)
Lemma to_dict_distinct (row : Series) :
  NoDup (map fst row) -> to_dict row = row.
Proof. intros Hnd. unfold to_dict. now rewrite to_dict_from. Qed.

(** ** The agent runner *)

Section RunnerProperties.

Context {World : Type} `{GU : GoogleUtils World} `{LLM : LlmProviders World}.

(** One turn of the loop, for an agent that is in the list: the call is
    made, one result is appended whatever the outcome, and the turn ends
    normally. *)
Lemma run_step_spec (agents : list dict) (num : Z) (k : nat) (a : dict)
      (s : state World runner_locals) :
  nth_error agents k = Some a ->
  run_step agents num (Z.of_nat k) s
  = let ctx := context (locals s) in
    let r := llm_run_agent a ctx (world s) in
    ({| world := fst (fst r);
        trace := trace s ++ step_events num (Z.of_nat k) (a, ctx, snd r);
        locals := {| results := results (locals s)
                                ++ [result_of (Z.of_nat k) (a, ctx, snd r)];
                     context := snd (fst r) |} |}, inr tt).
Proof.
  intros Hk. unfold run_step, subscript_list, item.
  assert (Hlt : (Z.of_nat k <? 0) = false) by (apply Z.ltb_ge; lia).
  cbv zeta. rewrite !Hlt, Nat2Z.id, Hk.
  unfold bind, ret, try_except, emit, run_agent, append_result, modify_locals.
  cbn [world trace locals results context].
  destruct (llm_run_agent a (context (locals s)) (world s)) as [[w' ctx'] r].
  destruct r as [e|output]; cbn [fst snd world trace locals results context];
    unfold step_events, result_of; rewrite <- !app_assoc; reflexivity.
Qed.

Lemma run_loop_spec (agents : list dict) (num : Z) :
  forall (todo : list dict) (k : nat) (s : state World runner_locals),
    (forall j a, nth_error todo j = Some a -> nth_error agents (k + j) = Some a) ->
    for_each (map Z.of_nat (seq k (length todo))) (run_step agents num) s
    = let run := call_in_turn todo (context (locals s)) (world s) in
      ({| world := snd run;
          trace := trace s ++ loop_events num (Z.of_nat k) (fst (fst run));
          locals := {| results := results (locals s)
                                  ++ collect (Z.of_nat k) (fst (fst run));
                       context := snd (fst run) |} |}, inr tt).
Proof.
  induction todo as [|a todo IH]; intros k s Hnth.
  - cbn. rewrite !app_nil_r. destruct s as [w tr [rs ctx]]. reflexivity.
  - cbn [length seq map for_each]. unfold bind at 1.
    rewrite (run_step_spec agents num k a s)
      by (specialize (Hnth 0%nat a eq_refl); now rewrite Nat.add_0_r in Hnth).
    cbv beta iota zeta. rewrite IH.
    + cbn [world trace locals results context call_in_turn].
      destruct (llm_run_agent a (context (locals s)) (world s)) as [[w' ctx'] r].
      cbn [fst snd].
      destruct (call_in_turn todo ctx' w') as [[calls ctx''] w''].
      cbn [fst snd loop_events collect].
      rewrite Nat2Z.inj_succ, <- Z.add_1_r, <- !app_assoc. reflexivity.
    + intros j b Hj. specialize (Hnth (S j) b Hj).
      now rewrite Nat.add_succ_r in Hnth.
Qed.

Lemma nth_error_firstn_Some {A : Type} (n : nat) (xs : list A) :
  forall j a, nth_error (firstn n xs) j = Some a -> nth_error xs j = Some a.
Proof.
  revert xs. induction n as [|n IH]; intros [|x xs] [|j] a; cbn;
    try discriminate; auto.
Qed.

Lemma display_loop (rs : list result) (s : state World runner_locals) :
  for_each rs display_result s
  = ({| world := world s;
        trace := trace s ++ flat_map display_events rs;
        locals := locals s |}, inr tt).
Proof.
  revert s. induction rs as [|r rs IH]; intros s.
  - cbn. rewrite app_nil_r. destruct s; reflexivity.
  - cbn [for_each flat_map]. unfold bind at 1.
    unfold display_result at 1, display_events at 1.
    destruct (res_status r =? "success")%string;
      unfold bind, emit; cbn [world trace locals]; rewrite IH;
      cbn [world trace locals]; rewrite <- !app_assoc; reflexivity.
Qed.

(** The whole run, when the number of agents asked for is within the
    list. *)
Lemma run_agents_on_trace (row : Series) (row_number : Z)
      (required_fields : string) (n : nat) (agents : list dict)
      (s : state World runner_locals) :
  (n <= length agents)%nat ->
  run_agents_on row row_number required_fields (Z.of_nat n) agents s
  = let ctx0 := build_context (to_dict row) required_fields in
    let run := call_in_turn (firstn n agents) ctx0 (world s) in
    let rs := collect 0 (fst (fst run)) in
    ({| world := snd run;
        trace := trace s
                 ++ ([StMarkdown (AnalyzingRow row_number (to_dict row));
                      StProgress 0 1]
                     ++ loop_events (Z.of_nat n) 0 (fst (fst run)))
                 ++ display_trace rs;
        locals := {| results := rs; context := snd (fst run) |} |}, inr tt).
Proof.
  intros Hn. unfold run_agents_on, range. rewrite Nat2Z.id.
  unfold bind at 1. unfold modify_locals at 1.
  unfold bind at 1. unfold emit at 1.
  unfold bind at 1. unfold modify_locals at 1.
  unfold bind at 1. unfold emit at 1.
  unfold bind at 1. cbn [world trace locals results context].
  pose proof (run_loop_spec agents (Z.of_nat n) (firstn n agents) 0) as Hloop.
  rewrite (firstn_length_le _ Hn) in Hloop.
  rewrite Hloop by (intros j a; apply nth_error_firstn_Some).
  cbv zeta. cbn [world trace locals results context].
  unfold display_results, bind, emit, get_locals.
  cbn [world trace locals results context].
  rewrite display_loop. cbn [world trace locals app Z.of_nat].
  unfold display_trace. rewrite <- !app_assoc. reflexivity.
Qed.

Lemma run_agent_calls_app (a b : list event) :
  run_agent_calls (a ++ b)%list = (run_agent_calls a ++ run_agent_calls b)%list.
Proof.
  induction a as [|ev a IH]; [reflexivity|].
  destruct ev; cbn [app run_agent_calls]; rewrite IH; reflexivity.
Qed.

Lemma run_agent_calls_step (num i : Z) (c : call) :
  run_agent_calls (step_events num i c) = [fst c].
Proof. destruct c as [[agent ctx] [e|out]]; reflexivity. Qed.

Lemma run_agent_calls_loop (num : Z) (calls : list call) :
  forall i, run_agent_calls (loop_events num i calls) = map fst calls.
Proof.
  induction calls as [|c calls IH]; intros i; [reflexivity|].
  cbn [loop_events map]. rewrite run_agent_calls_app, run_agent_calls_step, IH.
  reflexivity.
Qed.

Lemma run_agent_calls_display (rs : list result) :
  run_agent_calls (display_trace rs) = [].
Proof.
  unfold display_trace. rewrite run_agent_calls_app. cbn [run_agent_calls app].
  induction rs as [|r rs IH]; [reflexivity|].
  cbn [flat_map]. rewrite run_agent_calls_app, IH. unfold display_events.
  destruct (res_status r =? "success")%string; reflexivity.
Qed.

Lemma call_in_turn_agents (agents : list dict) :
  forall ctx w,
    map (fun c : call => fst (fst c)) (fst (fst (call_in_turn agents ctx w)))
    = agents.
Proof.
  induction agents as [|a agents IH]; intros ctx w; [reflexivity|].
  cbn [call_in_turn]. destruct (llm_run_agent a ctx w) as [[w' ctx'] r].
  specialize (IH ctx' w').
  destruct (call_in_turn agents ctx' w') as [[calls ctx''] w''].
  cbn [fst snd map] in *. now rewrite IH.
Qed.

(** C7.  With [num_agents] within the list, the runner calls [run_agent]
    exactly [num_agents] times, on [agents[0]] to [agents[num_agents-1]] in
    list order, one after the other; it collects one result per agent, the
    returned text on success and an error string on exception; an exception
    in one call does not keep the later calls from being made; and every
    collected result is displayed after the loop, where no call is made any
    more. *)
Theorem run_agents_on_spec (row : Series) (row_number : Z)
        (required_fields : string) (n : nat) (agents : list dict)
        (s : state World runner_locals) :
  (n <= length agents)%nat ->
  let ctx0 := build_context (to_dict row) required_fields in
  let calls := fst (fst (call_in_turn (firstn n agents) ctx0 (world s))) in
  exists (s' : state World runner_locals) (loop : list event),
    run_agents_on row row_number required_fields (Z.of_nat n) agents s
    = (s', inr tt)
    /\ map (fun c : call => fst (fst c)) calls = firstn n agents
    /\ length calls = n
    /\ results (locals s') = collect 0 calls
    /\ trace s' = (trace s ++ loop ++ display_trace (results (locals s')))%list
    /\ run_agent_calls loop = map fst calls
    /\ run_agent_calls (display_trace (results (locals s'))) = [].
Proof.
  intros Hn ctx0 calls.
  pose proof (call_in_turn_agents (firstn n agents) ctx0 (world s)) as Hag.
  fold calls in Hag.
  eexists. eexists. split.
  - rewrite run_agents_on_trace by exact Hn. cbv zeta. reflexivity.
  - cbn [trace locals results]. fold ctx0. fold calls.
    split; [exact Hag|]. split.
    + transitivity (length (firstn n agents));
        [|now apply firstn_length_le].
      rewrite <- Hag. now rewrite length_map.
    + split; [reflexivity|]. split; [reflexivity|]. split.
      * rewrite run_agent_calls_app. cbn [run_agent_calls app].
        apply run_agent_calls_loop.
      * apply run_agent_calls_display.
Qed.

Lemma call_in_turn_same_context (agents : list dict) :
  (forall a c w, snd (fst (llm_run_agent a c w)) = c) ->
  forall ctx w,
    snd (fst (call_in_turn agents ctx w)) = ctx
    /\ Forall (fun c : call => snd (fst c) = ctx)
              (fst (fst (call_in_turn agents ctx w))).
Proof.
  intros Hkeep. induction agents as [|a agents IH]; intros ctx w.
  - split; [reflexivity | constructor].
  - cbn [call_in_turn]. specialize (Hkeep a ctx w).
    destruct (llm_run_agent a ctx w) as [[w' ctx'] r]. cbn [fst snd] in Hkeep.
    subst ctx'. specialize (IH ctx w').
    destruct (call_in_turn agents ctx w') as [[calls ctx''] w''].
    cbn [fst snd] in *. destruct IH as [IH1 IH2].
    split; [exact IH1|]. constructor; [reflexivity | exact IH2].
Qed.

Lemma displayed_unchanged (calls : list call) :
  forall (i : Z) (agent ctx : dict) (text : string),
    In (agent, ctx, inr text) calls ->
    In (StMarkdown (Text text)) (flat_map display_events (collect i calls)).
Proof.
  induction calls as [|c calls IH]; intros i agent ctx text Hin; [elim Hin|].
  cbn [collect flat_map]. apply in_or_app. destruct Hin as [->|Hin].
  - left. cbn. auto.
  - right. eapply IH; eassumption.
Qed.

Lemma call_in_turn_first (agents : list dict) (ctx : dict) (w : World) :
  forall c, nth_error (fst (fst (call_in_turn agents ctx w))) 0 = Some c ->
            snd (fst c) = ctx.
Proof.
  destruct agents as [|a agents]; intros c; [discriminate|].
  cbn [call_in_turn]. destruct (llm_run_agent a ctx w) as [[w' ctx'] r].
  destruct (call_in_turn agents ctx' w') as [[calls ctx''] w''].
  cbn. now intros [= <-].
Qed.

(** Each call is given the dictionary as the call before it left it. *)
Lemma call_in_turn_chain (agents : list dict) :
  forall (ctx : dict) (w : World) (i : nat) (a c : dict) (r : exn + string)
         (a' c' : dict) (r' : exn + string),
    nth_error (fst (fst (call_in_turn agents ctx w))) i = Some (a, c, r) ->
    nth_error (fst (fst (call_in_turn agents ctx w))) (S i) = Some (a', c', r') ->
    exists w0, c' = snd (fst (llm_run_agent a c w0)).
Proof.
  induction agents as [|a0 agents IH]; intros ctx w i a c r a' c' r' H1 H2;
    [destruct i; discriminate|].
  cbn [call_in_turn] in H1, H2.
  destruct (llm_run_agent a0 ctx w) as [[w' ctx'] r0] eqn:Hcall.
  pose proof (call_in_turn_first agents ctx' w') as Hfirst.
  specialize (IH ctx' w').
  destruct (call_in_turn agents ctx' w') as [[calls ctx''] w''].
  cbn [fst snd nth_error] in *. destruct i as [|i].
  - injection H1 as <- <- <-. exists w. rewrite Hcall. cbn [fst snd].
    exact (Hfirst _ H2).
  - eapply IH; eassumption.
Qed.

(** C8.  The runner builds the context once, before the loop, from the
    chosen row: its "row_json" entry is the JSON text of the row's cells
    (for a row with distinct labels, of every cell under its own label)
    and its "required_fields_csv" entry is the required-fields string.  It
    hands that one dictionary to every call of [run_agent] and never writes
    to it: the first call receives it as built, and each later call as the
    call before it left it.  So all calls receive the same contents
    provided [run_agent] leaves the dictionary as it found it.  The text
    returned by each successful call is displayed as it is. *)
Theorem run_agents_same_context (row : Series) (row_number : Z)
        (required_fields : string) (n : nat) (agents : list dict)
        (s : state World runner_locals) :
  (n <= length agents)%nat ->
  let ctx0 := build_context (to_dict row) required_fields in
  let calls := fst (fst (call_in_turn (firstn n agents) ctx0 (world s))) in
  exists (s' : state World runner_locals) (new : list event)
         (row_json : string),
    run_agents_on row row_number required_fields (Z.of_nat n) agents s
    = (s', inr tt)
    /\ trace s' = (trace s ++ new)%list
    /\ ctx0 = [("row_json", VStr row_json);
               ("required_fields_csv", VStr required_fields)]
    /\ (NoDup (map fst row) ->
        row_json = Json.dumps row
        /\ forall k v,
             In (k, v) row ->
             Py.occurs (Json.encode_str k ++ ": " ++ Json.encode_value v)
                       row_json = true)
    /\ run_agent_calls new = map fst calls
    /\ length calls = n
    /\ (forall c, nth_error calls 0 = Some c -> snd (fst c) = ctx0)
    /\ (forall i a c r a' c' r',
           nth_error calls i = Some (a, c, r) ->
           nth_error calls (S i) = Some (a', c', r') ->
           exists w, c' = snd (fst (llm_run_agent a c w)))
    /\ ((forall a c w, snd (fst (llm_run_agent a c w)) = c) ->
        (forall agent ctx,
            In (agent, ctx) (run_agent_calls new) -> ctx = ctx0)
        /\ context (locals s') = ctx0)
    /\ (forall agent ctx text,
           In (agent, ctx, inr text) calls -> In (StMarkdown (Text text)) new).
Proof.
  intros Hn ctx0 calls.
  pose proof (call_in_turn_agents (firstn n agents) ctx0 (world s)) as Hag.
  fold calls in Hag.
  eexists. eexists. exists (Json.dumps (to_dict row)). split.
  - rewrite run_agents_on_trace by exact Hn. cbv zeta. reflexivity.
  - cbn [trace locals results context]. fold ctx0. fold calls.
    split; [reflexivity|]. split; [reflexivity|].
    assert (Hcalls :
              run_agent_calls
                (([StMarkdown (AnalyzingRow row_number (to_dict row));
                   StProgress 0 1] ++ loop_events (Z.of_nat n) 0 calls)
                 ++ display_trace (collect 0 calls))%list = map fst calls).
    { rewrite !run_agent_calls_app, run_agent_calls_display, app_nil_r.
      cbn [run_agent_calls app]. apply run_agent_calls_loop. }
    split; [|split; [|split; [|split; [|split; [|split]]]]].
    + intros Hnd. rewrite (to_dict_distinct row Hnd). split; [reflexivity|].
      intros k v Hin. exact (dumps_has_item row (k, v) Hin).
    + exact Hcalls.
    + transitivity (length (firstn n agents));
        [|now apply firstn_length_le].
      rewrite <- Hag. now rewrite length_map.
    + apply call_in_turn_first.
    + apply call_in_turn_chain.
    + intros Hkeep.
      destruct (call_in_turn_same_context (firstn n agents) Hkeep ctx0 (world s))
        as [Hctx Hall].
      fold calls in Hall. split; [|exact Hctx].
      intros agent ctx Hin. rewrite Hcalls in Hin.
      apply in_map_iff in Hin as ([[a c] r] & [= -> ->] & Hin).
      rewrite Forall_forall in Hall. exact (Hall _ Hin).
    + intros agent ctx text Hin. apply in_or_app. right.
      unfold display_trace. apply in_or_app. right.
      eapply displayed_unchanged; eassumption.
Qed.

End RunnerProperties.

(** The witness of C7: three agents on the first sample row; the second
    one fails and the third is called all the same. *)
Lemma run_agents_on_spec_witness :
  (3 <= length sample_agents)%nat
  /\ exists (s' : state sim runner_locals) (loop : list event),
       run_agents_on (sample_row 0) 2
                     "Company, Industry" 3 sample_agents
                     (start (sim_start true true sample_df) no_results)
       = (s', inr tt)
       /\ map res_status (results (locals s')) = ["success"; "error"; "success"]
       /\ map fst (run_agent_calls loop) = sample_agents.
Proof.
  split; [cbn; lia|].
  destruct (run_agents_on_spec (sample_row 0) 2
              "Company, Industry" 3 sample_agents
              (start (sim_start true true sample_df) no_results))
    as (s' & loop & Hrun & _ & _ & Hres & _ & Hcalls & _); [cbn; lia|].
  exists s', loop. split; [exact Hrun|].
  rewrite Hres, Hcalls. split; reflexivity.
Defined.

(** The witness of C8: the stand-in provider leaves the context alone, and
    the three calls get the same dictionary. *)
Lemma run_agents_same_context_witness :
  (3 <= length sample_agents)%nat
  /\ NoDup (map fst (sample_row 0))
  /\ (forall a c (w : sim), snd (fst (llm_run_agent a c w)) = c)
  /\ exists (s' : state sim runner_locals) (new : list event)
            (row_json : string),
       run_agents_on (sample_row 0) 2
                     "Company, Industry" 3 sample_agents
                     (start (sim_start true true sample_df) no_results)
       = (s', inr tt)
       /\ String.length row_json = 140%nat
       /\ Py.occurs (Py.dquote ++ "Company" ++ Py.dquote ++ ": "
                       ++ Py.dquote ++ "Acme" ++ Py.dquote) row_json = true
       /\ length (run_agent_calls new) = 3%nat
       /\ (forall agent ctx,
              In (agent, ctx) (run_agent_calls new) ->
              ctx = [("row_json", VStr row_json);
                     ("required_fields_csv", VStr "Company, Industry")])
       /\ In (StMarkdown (Text "Report of data_validator")) new.
Proof.
  assert (Hkeep : forall a c (w : sim), snd (fst (llm_run_agent a c w)) = c).
  { intros a c w. cbn. destruct (_ =? _)%string; reflexivity. }
  assert (Hnd : NoDup (map fst (sample_row 0))).
  { repeat (constructor;
            [cbn; intros H;
             repeat (destruct H as [H|H]; [discriminate H|]); exact H|]).
    constructor. }
  split; [cbn; lia|]. split; [exact Hnd|]. split; [exact Hkeep|].
  destruct (run_agents_same_context
              (sample_row 0) 2
              "Company, Industry" 3 sample_agents
              (start (sim_start true true sample_df) no_results))
    as (s' & new & row_json & Hrun & _ & Hctx & Hjson & Hcalls & Hlen & _ & _
        & Hsame & Hshown); [cbn; lia|].
  destruct (Hjson Hnd) as [Htext Hcells].
  destruct (Hsame Hkeep) as [Hall _].
  exists s', new, row_json. split; [exact Hrun|].
  split; [rewrite Htext; reflexivity|].
  split; [exact (Hcells "Company" (VStr "Acme") (or_introl eq_refl))|].
  split; [rewrite Hcalls, length_map; exact Hlen|].
  split; [intros agent ctx Hin; rewrite (Hall agent ctx Hin); exact Hctx|].
  apply (Hshown (nth 0 sample_agents [])
                (build_context
                   (to_dict (sample_row 0))
                   "Company, Industry")).
  left. reflexivity.
Defined.

(** The counterexample of C8: with a provider that writes to the context,
    the second call of one run does not receive what the first call
    received. *)
Lemma context_rewritten_by_run_agent :
  let run :=
    @run_agents_on sim chaining_llm (sample_row 0) 2 "Company, Industry" 2
                   sample_agents
                   (start (sim_start true true sample_df) no_results) in
  let ctx0 := build_context (to_dict (sample_row 0)) "Company, Industry" in
  let ctx1 :=
    (ctx0 ++ [("previous_output", VStr "Report of data_validator")])%list in
  snd run = inr tt
  /\ run_agent_calls (trace (fst run))
     = [(nth 0 sample_agents [], ctx0); (nth 1 sample_agents [], ctx1)]
  /\ ctx1 <> ctx0
  /\ ~ (forall agent ctx,
           In (agent, ctx) (run_agent_calls (trace (fst run))) -> ctx = ctx0).
Proof.
  cbv zeta. split; [vm_compute; reflexivity|].
  split; [vm_compute; reflexivity|].
  split; [vm_compute; discriminate|].
  intros Hall.
  specialize (Hall (nth 1 sample_agents [])
                   (build_context (to_dict (sample_row 0)) "Company, Industry"
                      ++ [("previous_output",
                           VStr "Report of data_validator")])%list).
  assert (Hin : In (nth 1 sample_agents [],
                    (build_context (to_dict (sample_row 0)) "Company, Industry"
                       ++ [("previous_output",
                            VStr "Report of data_validator")])%list)
                   (run_agent_calls
                      (trace
                         (fst
                            (@run_agents_on
                               sim chaining_llm (sample_row 0) 2
                               "Company, Industry" 2 sample_agents
                               (start (sim_start true true sample_df)
                                      no_results)))))).
  { vm_compute. right. left. reflexivity. }
  specialize (Hall Hin). vm_compute in Hall. discriminate Hall.
Qed.

(** ** The generation loop *)

Lemma dict_get_set_same (d : dict) (k : string) (v : value) :
  dict_get (dict_set d k v) k = Some v.
Proof.
  induction d as [|[k' v'] d IH]; cbn.
  - now rewrite String.eqb_refl.
  - destruct (String.eqb_spec k' k) as [->|Hne]; cbn.
    + now rewrite String.eqb_refl.
    + destruct (String.eqb_spec k' k); [contradiction | exact IH].
Qed.

Lemma dict_get_set_other (d : dict) (k k' : string) (v : value) :
  k <> k' -> dict_get (dict_set d k v) k' = dict_get d k'.
Proof.
  intros Hne. induction d as [|[k0 v0] d IH]; cbn.
  - destruct (String.eqb_spec k k'); [contradiction | reflexivity].
  - destruct (String.eqb_spec k0 k) as [->|Hk]; cbn.
    + destruct (String.eqb_spec k k'); [contradiction | reflexivity].
    + destruct (String.eqb_spec k0 k'); [reflexivity | exact IH].
Qed.

Lemma build_mapping_from (row : Series) (cols : list string) (col : string) :
  forall d : dict,
    dict_get (fold_left (fun d c => dict_set d c (get row c (VStr ""))) cols d)
             col
    = if in_dec string_dec col cols
      then Some (get row col (VStr ""))
      else dict_get d col.
Proof.
  induction cols as [|c cols IH]; intros d; [reflexivity|].
  cbn [fold_left]. rewrite IH.
  destruct (in_dec string_dec col cols) as [Hin|Hnin];
    destruct (in_dec string_dec col (c :: cols)) as [Hin'|Hnin'].
  - reflexivity.
  - elim Hnin'. now right.
  - destruct Hin' as [->|Hin']; [apply dict_get_set_same | contradiction].
  - apply dict_get_set_other. intros ->. apply Hnin'. now left.
Qed.

(** The mapping has an entry for every column of the dataframe: the row's
    value for it. *)
Lemma build_mapping_columns (cols : list string) (row : Series) (col : string) :
  In col cols -> dict_get (build_mapping cols row) col = Some (get row col (VStr "")).
Proof.
  intros Hin. unfold build_mapping. rewrite build_mapping_from.
  destruct (in_dec string_dec col cols); [reflexivity | contradiction].
Qed.

(** A document URL is not blank. *)
Lemma doc_url_has_url (row : Series) (new_doc_id : string) :
  get row URL_COL (VStr "") = VStr (doc_url new_doc_id) -> has_url row = true.
Proof.
  intros Hcell. unfold has_url. rewrite Hcell.
  cbn [str]. unfold doc_url. cbn [append]. unfold Py.strip.
  rewrite lstrip_none by reflexivity.
  rewrite rstrip_visible by reflexivity. reflexivity.
Qed.

Section GenerateProperties.

Context {World : Type} `{GU : GoogleUtils World} `{CK : Clock World}.

(** A loop whose body does nothing on some elements can leave them out. *)
Lemma for_each_filter {X : Type} (keep : X -> bool)
      (body : X -> M World counters unit) :
  (forall x s, keep x = false -> body x s = (s, inr tt)) ->
  forall xs s, for_each xs body s = for_each (filter keep xs) body s.
Proof.
  intros Hskip. induction xs as [|x xs IH]; intros s; [reflexivity|].
  cbn [filter]. destruct (keep x) eqn:Hk.
  - cbn [for_each]. unfold bind. destruct (body x s) as [s' [e|u]];
      [reflexivity | apply IH].
  - cbn [for_each]. unfold bind. rewrite (Hskip x s Hk). apply IH.
Qed.

Lemma generate_step_has_url (sess : session) (o : gen_options) (df : DataFrame)
      (idx : Z) (row : Series) (s : state World counters) :
  has_url row = true -> generate_step sess o df (idx, row) s = (s, inr tt).
Proof.
  intros Hurl. unfold generate_step. rewrite Hurl.
  destruct (selection_skip o (idx + 2) row); reflexivity.
Qed.

(** A turn that passes the filter for a row without a document starts by
    copying the template under the row's file name, and copies nothing
    else. *)
Lemma generate_step_acts (sess : session) (o : gen_options) (df : DataFrame)
      (idx : Z) (row : Series) (s : state World counters) :
  selection_skip o (idx + 2) row = false ->
  has_url row = false ->
  exists s1 r rest,
    generate_step sess o df (idx, row) s = (s1, r)
    /\ trace s1
       = (trace s
            ++ CopyGdoc (template_id sess)
                        (build_filename (custom_filename o) (columns df) row)
                        (dest_folder_id sess) :: rest)%list
    /\ copy_calls rest = [].
Proof.
  intros Hsel Hurl. unfold generate_step. rewrite Hsel, Hurl.
  unfold bind at 1. unfold try_except, generate_row, handle_row_error.
  unfold bind, copy_gdoc, replace_placeholders, write_back, now, external,
    modify_locals, emit.
  cbn [world trace locals].
  destruct (gu_copy_gdoc _ _ _ (world s)) as [w1 [e1|id]];
    cbn [world trace locals success_count error_count_].
  - destruct (gu_write_back _ _ (error_updates e1) w1) as [w2 [e2|u2]];
      cbn [world trace locals];
      do 3 eexists; (split; [reflexivity|]); cbn [trace];
      rewrite <- ?app_assoc; cbn [app]; split; reflexivity.
  - destruct (gu_replace_placeholders id _ w1) as [w2 [e2|u2]];
      cbn [world trace locals success_count error_count_].
    + destruct (gu_write_back _ _ (error_updates e2) w2) as [w3 [e3|u3]];
        cbn [world trace locals];
        do 3 eexists; (split; [reflexivity|]); cbn [trace];
        rewrite <- ?app_assoc; cbn [app]; split; reflexivity.
    + destruct (clock_now w2) as [w3 ts]. cbn [world trace locals].
      destruct (gu_write_back _ _ (done_updates o id ts) w3) as [w4 [e4|u4]];
        cbn [world trace locals success_count error_count_].
      * destruct (gu_write_back _ _ (error_updates e4) w4) as [w5 [e5|u5]];
          cbn [world trace locals];
          do 3 eexists; (split; [reflexivity|]); cbn [trace];
          rewrite <- ?app_assoc; cbn [app]; split; reflexivity.
      * do 3 eexists; (split; [reflexivity|]); cbn [trace];
          rewrite <- ?app_assoc; cbn [app]; split; reflexivity.
Qed.

Lemma trigger_words_plain (word : string) :
  In word ["true"; "yes"; "y"; "1"; "checked"] ->
  forallb is_word_char (list_ascii_of_string word) = true.
Proof.
  intros Hin. repeat (destruct Hin as [<-|Hin]; [reflexivity|]). destruct Hin.
Qed.

(** C5.  The selection filter is a predicate of the row and of its sheet row
    number, the dataframe index plus 2, and the loop obeys it: the turn of
    a row that does not pass does nothing, and the turn of a row that
    passes and has no document copies the template.  A row passes, in
    "Rows with Generate=TRUE" mode, exactly when its trigger value is one
    of the words "true", "yes", "y", "1", "checked", in any mix of small
    and capital letters and with any white space before and after it; in
    "All rows without Doc URL" mode, exactly when its Doc URL cell holds
    nothing but white space; in "Manual selection" mode, exactly when its
    sheet row number is among the selected numbers. *)
Theorem selection_filter_spec
        (pdf : bool) (pattern : string) (sel : list Z) (sess : session)
        (df : DataFrame) (idx : Z) (row : Series) (s : state World counters) :
  let opts mode :=
    {| gen_mode := mode; create_pdf := pdf;
       custom_filename := pattern; manual_sel := sel |} in
  let passes mode := selection_skip (opts mode) (idx + 2) row = false in
  (forall mode,
      ~ passes mode ->
      generate_step sess (opts mode) df (idx, row) s = (s, inr tt))
  /\ (forall mode,
         passes mode -> has_url row = false ->
         exists s1 r rest,
           generate_step sess (opts mode) df (idx, row) s = (s1, r)
           /\ trace s1
              = (trace s
                   ++ CopyGdoc (template_id sess)
                               (build_filename pattern (columns df) row)
                               (dest_folder_id sess) :: rest)%list)
  /\ (passes "Rows with Generate=TRUE"
      <-> exists lead text trail word,
            In word ["true"; "yes"; "y"; "1"; "checked"]
            /\ str (get row TRIGGER_COL (VStr "")) = lead ++ text ++ trail
            /\ Blank lead /\ Blank trail /\ spelled word text)
  /\ (passes "All rows without Doc URL"
      <-> Blank (str (get row URL_COL (VStr ""))))
  /\ (passes "Manual selection" <-> In (idx + 2) sel).
Proof.
  cbv zeta. split; [|split; [|split; [|split]]].
  - intros mode Hno. unfold generate_step.
    destruct (selection_skip _ (idx + 2) row); [reflexivity | now elim Hno].
  - intros mode Hpass Hurl.
    destruct (generate_step_acts sess _ df idx row s Hpass Hurl)
      as (s1 & r & rest & Hstep & Htr & _).
    now exists s1, r, rest.
  - unfold selection_skip. cbn [gen_mode String.eqb Ascii.eqb Bool.eqb andb].
    set (cell := str (get row TRIGGER_COL (VStr ""))). split.
    + intros Hs. apply negb_false, str_in_In in Hs.
      destruct (strip_split cell) as (lead & trail & Hl & Ht & Hcell).
      exists lead, (Py.strip cell), trail, (Py.lower (Py.strip cell)).
      split; [exact Hs|]. split; [exact Hcell|]. split; [exact Hl|].
      split; [exact Ht|]. now apply lower_spells.
    + intros (lead & text & trail & word & Hin & Hcell & Hl & Ht & Hsp).
      apply negb_false, str_in_In.
      pose proof (trigger_words_plain word Hin) as Hplain.
      rewrite Hcell, (strip_spelled word text lead trail Hplain Hsp Hl Ht).
      now rewrite (spelled_lower word text Hplain Hsp).
  - unfold selection_skip. cbn [gen_mode String.eqb Ascii.eqb Bool.eqb andb].
    rewrite truthy_false. apply strip_empty.
  - unfold selection_skip.
    cbn [gen_mode manual_sel String.eqb Ascii.eqb Bool.eqb andb].
    split; intros Hs.
    + apply negb_false in Hs. now apply int_in_In.
    + apply negb_false. now apply int_in_In.
Qed.

(** C3.  A row whose Doc URL cell is not empty after stripping is passed
    over before anything is done for it, whatever the selection mode: its
    turn of the loop leaves the world, the trace and the counters as they
    were, so the loop acts as if it ran over the rows without a URL only.
    A row whose Doc URL cell holds the URL that a successful turn writes is
    such a row, so a row completed by one run is passed over by the next;
    and so is every row whose cell holds anything but white space. *)
Theorem generated_rows_skipped (sess : session) (o : gen_options)
        (df : DataFrame) (s : state World counters) :
  (forall idx row,
      Py.strip (str (get row URL_COL (VStr ""))) <> ""%string ->
      generate_step sess o df (idx, row) s = (s, inr tt))
  /\ for_each (iterrows df) (generate_step sess o df) s
     = for_each (filter (fun ir => negb (has_url (snd ir))) (iterrows df))
                (generate_step sess o df) s
  /\ (forall idx row new_doc_id,
         get row URL_COL (VStr "") = VStr (doc_url new_doc_id) ->
         generate_step sess o df (idx, row) s = (s, inr tt))
  /\ (forall idx row,
         ~ Blank (str (get row URL_COL (VStr ""))) ->
         generate_step sess o df (idx, row) s = (s, inr tt)).
Proof.
  split; [|split; [|split]].
  - intros idx row Hne. apply generate_step_has_url. unfold has_url.
    destruct (Py.strip (str (get row URL_COL (VStr ""))));
      [now elim Hne | reflexivity].
  - apply for_each_filter. intros [idx row] s0 Hk.
    apply generate_step_has_url. cbn [snd] in Hk. now destruct (has_url row).
  - intros idx row new_doc_id Hcell. apply generate_step_has_url.
    exact (doc_url_has_url row new_doc_id Hcell).
  - intros idx row Hvis. apply generate_step_has_url. unfold has_url.
    destruct (Py.strip (str (get row URL_COL (VStr "")))) eqn:Hs;
      [|reflexivity].
    elim Hvis. now apply strip_empty.
Qed.

(** What a failed attempt at a row has done when the exception is raised:
    one call of [copy_gdoc], and then at most one call of each later step. *)
Lemma generate_row_raises (sess : session) (o : gen_options) (df : DataFrame)
      (r : Z) (row : Series) (s s1 : state World counters) (e : exn) :
  generate_row sess o df r row s = (s1, inl e) ->
  let filename := build_filename (custom_filename o) (columns df) row in
  let copy := CopyGdoc (template_id sess) filename (dest_folder_id sess) in
  let mapping := build_mapping (columns df) row in
  locals s1 = locals s
  /\ exists evs : list event,
       trace s1 = (trace s ++ evs)%list
       /\ (evs = [copy]
           \/ (exists id, evs = [copy; ReplacePlaceholders id mapping])
           \/ (exists id ts,
                  evs = [copy; ReplacePlaceholders id mapping;
                         WriteBack (spreadsheet_id sess) r (done_updates o id ts)])).
Proof.
  unfold generate_row, bind, copy_gdoc, replace_placeholders, write_back, now,
    external, modify_locals, emit.
  cbn [world trace locals].
  destruct (gu_copy_gdoc _ _ _ (world s)) as [w1 [e1|id]].
  - intros [= <- <-]. cbn. split; [reflexivity|]. eexists. split; [reflexivity|].
    now left.
  - cbn [world trace locals].
    destruct (gu_replace_placeholders id _ w1) as [w2 [e2|u]].
    + intros [= <- <-]. cbn. split; [reflexivity|]. eexists.
      split; [now rewrite <- app_assoc|]. right. left. now exists id.
    + cbn [world trace locals].
      destruct (clock_now w2) as [w3 ts]. cbn [world trace locals].
      destruct (gu_write_back _ r _ w3) as [w4 [e4|u4]].
      * intros [= <- <-]. cbn. split; [reflexivity|]. eexists.
        split; [now rewrite <- !app_assoc|]. right. right. now exists id, ts.
      * intros [=].
Qed.

(** C1, as the code has it.  When the attempt at a selected row raises an
    exception, the one attempt is not repeated, and the recovery is a single
    [write_back] whose only entry sets Status to "Error: " followed by the
    first 100 characters of the message.  If that call returns, the error
    is shown, the progress bar moves and the loop goes on with the next
    row; if that call raises in turn, the exception leaves the loop and no
    later row is processed. *)
Theorem row_error_recovery (sess : session) (o : gen_options) (df : DataFrame)
        (idx : Z) (row : Series) (rest : list (Z * Series))
        (s s1 : state World counters) (e : exn) :
  selection_skip o (idx + 2) row = false ->
  has_url row = false ->
  generate_row sess o df (idx + 2) row s = (s1, inl e) ->
  let sid := spreadsheet_id sess in
  let updates := [(STATUS_COL, VStr ("Error: " ++ Py.slice_to 100 e))] in
  let recovery := WriteBack sid (idx + 2) updates in
  let wb := gu_write_back sid (idx + 2) updates (world s1) in
  let counted := {| success_count := success_count (locals s);
                    error_count_ := error_count_ (locals s) + 1 |} in
  (exists attempt : list event,
      trace s1 = (trace s ++ attempt)%list
      /\ length (copy_calls attempt) = 1%nat)
  /\ match snd wb with
     | inr _ =>
         let s2 :=
           {| world := fst wb;
              trace := trace s1
                       ++ [recovery;
                           StError ("❌ Row " ++ Py.str_int (idx + 2) ++ ": "
                                      ++ Py.slice_to 100 e);
                           StProgress (idx + 1) (len df)];
              locals := counted |} in
         generate_step sess o df (idx, row) s = (s2, inr tt)
         /\ for_each ((idx, row) :: rest) (generate_step sess o df) s
            = for_each rest (generate_step sess o df) s2
     | inl e2 =>
         let s2 := {| world := fst wb;
                      trace := trace s1 ++ [recovery];
                      locals := counted |} in
         generate_step sess o df (idx, row) s = (s2, inl e2)
         /\ for_each ((idx, row) :: rest) (generate_step sess o df) s
            = (s2, inl e2)
     end.
Proof.
  intros Hsel Hurl Hrow. cbv zeta.
  destruct (generate_row_raises _ _ _ _ _ _ _ _ Hrow) as (Hloc & evs & Htr & Hevs).
  split.
  - exists evs. split; [exact Htr|].
    destruct Hevs as [->|[(id & ->)|(id & ts & ->)]]; reflexivity.
  - assert (Hstep :
              generate_step sess o df (idx, row) s
              = bind (try_except (generate_row sess o df (idx + 2) row)
                                 (handle_row_error sess (idx + 2)))
                     (fun _ => emit (StProgress (idx + 1) (len df))) s).
    { unfold generate_step. now rewrite Hsel, Hurl. }
    destruct (gu_write_back (spreadsheet_id sess) (idx + 2)
                [(STATUS_COL, VStr ("Error: " ++ Py.slice_to 100 e))] (world s1))
      as [w2 [e2|u]] eqn:Hwb; cbn [fst snd].
    + assert (Hgen : generate_step sess o df (idx, row) s
                     = ({| world := w2;
                           trace := trace s1
                                    ++ [WriteBack (spreadsheet_id sess) (idx + 2)
                                          [(STATUS_COL,
                                            VStr ("Error: " ++ Py.slice_to 100 e))]];
                           locals := {| success_count := success_count (locals s);
                                        error_count_ := error_count_ (locals s) + 1 |}
                        |}, inl e2)).
      { rewrite Hstep. unfold bind at 1. unfold try_except. rewrite Hrow.
        unfold handle_row_error, bind, modify_locals, write_back, external, emit,
          error_updates.
        cbn [world trace locals]. rewrite Hwb, Hloc. reflexivity. }
      split; [exact Hgen|]. cbn [for_each]. unfold bind. now rewrite Hgen.
    + assert (Hgen : generate_step sess o df (idx, row) s
                     = ({| world := w2;
                           trace := trace s1
                                    ++ [WriteBack (spreadsheet_id sess) (idx + 2)
                                          [(STATUS_COL,
                                            VStr ("Error: " ++ Py.slice_to 100 e))];
                                        StError ("❌ Row " ++ Py.str_int (idx + 2)
                                                   ++ ": " ++ Py.slice_to 100 e);
                                        StProgress (idx + 1) (len df)];
                           locals := {| success_count := success_count (locals s);
                                        error_count_ := error_count_ (locals s) + 1 |}
                        |}, inr tt)).
      { rewrite Hstep. unfold bind at 1. unfold try_except. rewrite Hrow.
        unfold handle_row_error, bind, modify_locals, write_back, external, emit,
          error_updates.
        cbn [world trace locals]. rewrite Hwb, Hloc.
        cbn [world trace locals]. rewrite <- !app_assoc. reflexivity. }
      split; [exact Hgen|]. cbn [for_each]. unfold bind at 1. now rewrite Hgen.
Qed.

(** C2.  For a selected row on which the steps return, the outside calls
    are, in this order: [copy_gdoc] of the template, [replace_placeholders]
    on the copy with a mapping that has, for every column of the dataframe,
    the row's value, and [write_back] on the row with Status "Done", the
    Doc URL holding the new document identifier, the Generated At
    timestamp, and the PDF URL exactly when PDF export is on. *)
Theorem generate_row_steps (sess : session) (o : gen_options) (df : DataFrame)
        (idx : Z) (row : Series) (s : state World counters)
        (new_doc_id ts : string) (w1 w2 w3 : World) :
  let filename := build_filename (custom_filename o) (columns df) row in
  let mapping := build_mapping (columns df) row in
  let updates := done_updates o new_doc_id ts in
  selection_skip o (idx + 2) row = false ->
  has_url row = false ->
  gu_copy_gdoc (template_id sess) filename (dest_folder_id sess) (world s)
  = (w1, inr new_doc_id) ->
  gu_replace_placeholders new_doc_id mapping w1 = (w2, inr tt) ->
  clock_now w2 = (w3, ts) ->
  (exists after : list event,
      trace (fst (generate_step sess o df (idx, row) s))
      = (trace s
         ++ [CopyGdoc (template_id sess) filename (dest_folder_id sess);
             ReplacePlaceholders new_doc_id mapping;
             WriteBack (spreadsheet_id sess) (idx + 2) updates]
         ++ after)%list
      /\ copy_calls after = [])
  /\ (forall col, In col (columns df) ->
                  dict_get mapping col = Some (get row col (VStr "")))
  /\ dict_get updates STATUS_COL = Some (VStr "Done")
  /\ dict_get updates URL_COL
     = Some (VStr ("https://docs.google.com/document/d/" ++ new_doc_id
                     ++ "/edit"))
  /\ dict_get updates TS_COL = Some (VStr ts)
  /\ dict_get updates PDF_URL_COL
     = (if create_pdf o
        then Some (VStr ("https://docs.google.com/document/d/" ++ new_doc_id
                           ++ "/export?format=pdf"))
        else None)
  /\ dict_keys updates
     = ([STATUS_COL; URL_COL; TS_COL]
        ++ if create_pdf o then [PDF_URL_COL] else [])%list.
Proof.
  intros filename mapping updates Hsel Hurl Hcopy Hrepl Hnow.
  split; [|split; [|repeat split]].
  - unfold generate_step. rewrite Hsel, Hurl.
    unfold bind at 1. unfold try_except, generate_row.
    unfold bind, copy_gdoc, replace_placeholders, write_back, now, external,
      modify_locals, emit, handle_row_error.
    cbn [world trace locals]. fold filename. rewrite Hcopy.
    cbn [world trace locals]. fold mapping. rewrite Hrepl.
    cbn [world trace locals]. rewrite Hnow. cbn [world trace locals].
    fold updates.
    destruct (gu_write_back (spreadsheet_id sess) (idx + 2) updates w3)
      as [w4 [e4|u4]]; cbn [world trace locals].
    + unfold handle_row_error, bind, modify_locals, write_back, external, emit.
      cbn [world trace locals].
      destruct (gu_write_back (spreadsheet_id sess) (idx + 2)
                  (error_updates e4) w4)
        as [w5 [e5|u5]]; cbn [fst world trace locals];
        rewrite <- !app_assoc; cbn [app]; eexists; split; reflexivity.
    + rewrite <- !app_assoc. cbn [app fst trace]. eexists. split; reflexivity.
  - intros col Hin. now apply build_mapping_columns.
  - subst updates. unfold done_updates. destruct (create_pdf o); reflexivity.
  - subst updates. unfold done_updates. destruct (create_pdf o); reflexivity.
  - subst updates. unfold done_updates. destruct (create_pdf o); reflexivity.
  - subst updates. unfold done_updates. destruct (create_pdf o); reflexivity.
  - subst updates. unfold done_updates. destruct (create_pdf o); reflexivity.
Qed.

End GenerateProperties.

(** ** The generation loop on the stand-in services *)

(** The witness of C1 as amended: Drive is down and Sheets is up, so the
    attempt at the first row fails, the error is written back and the turn
    ends normally. *)
Lemma row_error_recovery_witness :
  generate_step sample_session sample_options sample_df (0, sample_row 0)
                (start (sim_start false true sample_df) no_counts)
  = ({| world :=
          sim_start false true
            (sheet_write sample_df 2
               [("Status", VStr "Error: Drive unavailable")]);
        trace :=
          [CopyGdoc "tpl1" "Acme - Tools Report" None;
           WriteBack "sheet1" 2 [("Status", VStr "Error: Drive unavailable")];
           StError "❌ Row 2: Drive unavailable";
           StProgress 1 3];
        locals := {| success_count := 0; error_count_ := 1 |} |}, inr tt).
Proof.
  pose proof (row_error_recovery
                sample_session sample_options sample_df 0 (sample_row 0) []
                (start (sim_start false true sample_df) no_counts)
                {| world := sim_start false true sample_df;
                   trace := [CopyGdoc "tpl1" "Acme - Tools Report" None];
                   locals := no_counts |}
                "Drive unavailable" eq_refl eq_refl eq_refl) as [_ Hstep].
  exact (proj1 Hstep).
Defined.

(** The counterexample to C1 as stated: Drive is down and the sheet is
    shared read-only.  The attempt at the first row raises, the [write_back]
    of the recovery raises as well, and the loop is left: the turn does not
    end normally, and the third row, which is selected too, is never tried.
    The exception ends up in the handler around the whole tab. *)
Lemma loop_stops_when_recovery_fails :
  let s0 := start (sim_start false false sample_df) no_counts in
  selection_skip sample_options 2 (sample_row 0) = false
  /\ has_url (sample_row 0) = false
  /\ selection_skip sample_options 4 (sample_row 2) = false
  /\ has_url (sample_row 2) = false
  /\ snd (generate_row sample_session sample_options sample_df 2
                       (sample_row 0) s0)
     = inl "Drive unavailable"%string
  /\ ~ (exists s2,
           generate_step sample_session sample_options sample_df
                         (0, sample_row 0) s0 = (s2, inr tt))
  /\ generate_documents sample_session sample_options sample_df s0
     = ({| world := sim_start false false sample_df;
           trace :=
             [StProgress 0 1;
              CopyGdoc "tpl1" "Acme - Tools Report" None;
              WriteBack "sheet1" 2 [("Status", VStr "Error: Drive unavailable")]];
           locals := {| success_count := 0; error_count_ := 1 |} |},
        inl forbidden)
  /\ trace (fst (tab4 sample_session sample_options s0))
     = [EnsureControlColumns "sheet1"
          [TRIGGER_COL; STATUS_COL; URL_COL; TS_COL; PDF_URL_COL];
        ReadSheetDf "sheet1";
        StMarkdown (Text "#### 📊 Data Preview");
        StDataframe sample_df;
        StMarkdown (Text "#### ⚙️ Generation Options");
        StProgress 0 1;
        CopyGdoc "tpl1" "Acme - Tools Report" None;
        WriteBack "sheet1" 2 [("Status", VStr "Error: Drive unavailable")];
        StError "Error loading data: The caller does not have permission"].
Proof.
  cbv zeta. repeat split; try reflexivity.
  intros [s2 Hs2]. vm_compute in Hs2. discriminate Hs2.
Qed.

(** The witness of C2: both services up, the first sample row. *)
Lemma generate_row_steps_witness :
  exists after : list event,
    trace (fst (generate_step sample_session sample_options sample_df
                              (0, sample_row 0)
                              (start (sim_start true true sample_df) no_counts)))
    = ([CopyGdoc "tpl1" "Acme - Tools Report" None;
        ReplacePlaceholders "doc1" (sample_row 0);
        WriteBack "sheet1" 2
          [("Status", VStr "Done");
           ("Doc URL", VStr "https://docs.google.com/document/d/doc1/edit");
           ("Generated At", VStr "2024-05-01 09:30:00");
           ("PDF URL",
            VStr "https://docs.google.com/document/d/doc1/export?format=pdf")]]
       ++ after)%list.
Proof.
  destruct (generate_row_steps
              sample_session sample_options sample_df 0 (sample_row 0)
              (start (sim_start true true sample_df) no_counts)
              "doc1" "2024-05-01 09:30:00"
              {| drive_up := true; sheet_writable := true; next_doc := 2;
                 sheet := sample_df |}
              {| drive_up := true; sheet_writable := true; next_doc := 2;
                 sheet := sample_df |}
              {| drive_up := true; sheet_writable := true; next_doc := 2;
                 sheet := sample_df |})
    as [(after & Htrace & _) _]; try reflexivity.
  exists after. exact Htrace.
Defined.

(** The witness of C3: the second sample row has its document, and its turn
    does nothing, here in manual mode with that very row selected. *)
(** The witness of C5: the padded row passes in each of the three modes,
    as sheet row 2. *)
Lemma selection_filter_spec_witness :
  selection_skip sample_options 2 padded_row = false
  /\ selection_skip
       {| gen_mode := "All rows without Doc URL"; create_pdf := true;
          custom_filename := "{{Company}} - {{Industry}} Report";
          manual_sel := [] |} 2 padded_row = false
  /\ ~ In 2 [3; 4]
  /\ selection_skip
       {| gen_mode := "Manual selection"; create_pdf := true;
          custom_filename := "{{Company}} - {{Industry}} Report";
          manual_sel := [3; 4] |} 2 padded_row = true.
Proof.
  assert (Hsp : In " " Py.spaces) by (cbn; tauto).
  assert (Hnb : In nbsp Py.spaces) by (cbn; tauto).
  destruct (selection_filter_spec
              true "{{Company}} - {{Industry}} Report" []
              sample_session sample_df 0 padded_row
              (start (sim_start true true sample_df) no_counts))
    as (_ & _ & Htrig & Hurl & _).
  destruct (selection_filter_spec
              true "{{Company}} - {{Industry}} Report" [3; 4]
              sample_session sample_df 0 padded_row
              (start (sim_start true true sample_df) no_counts))
    as (_ & _ & _ & _ & Hman).
  split; [|split; [|split]].
  - apply Htrig. exists (" " ++ nbsp), "Yes", nbsp, "yes".
    split; [cbn; tauto|]. split; [reflexivity|].
    split; [exact (Blank_cons " " _ Hsp (Blank_cons nbsp "" Hnb Blank_nil))|].
    split; [exact (Blank_cons nbsp "" Hnb Blank_nil)|].
    exists "es". split; [|right; left; reflexivity].
    exists "s". split; [|left; reflexivity].
    exists "". split; [reflexivity | left; reflexivity].
  - apply Hurl. exact (Blank_cons nbsp "" Hnb Blank_nil).
  - intros [H|[H|[]]]; discriminate.
  - destruct (selection_skip _ 2 padded_row) eqn:Hskip; [reflexivity|].
    apply Hman in Hskip. destruct Hskip as [H|[H|[]]]; discriminate.
Defined.

(** The filter at work: surrounding white space, including the no-break
    space, and letter case do not matter; anything else does. *)
Example selection_examples :
  let trigger v :=
    selection_skip sample_options 2 [("Generate", VStr v)] in
  trigger " TRUE " = false
  /\ trigger ("true" ++ nbsp) = false
  /\ trigger "Checked" = false
  /\ trigger ("CHEC" ++ Py.kelvin ++ "ED") = false
  /\ trigger "Y" = false
  /\ trigger "1" = false
  /\ trigger "t rue" = true
  /\ trigger "no" = true
  /\ trigger "" = true
  /\ selection_skip sample_options 2 [("Company", VStr "Acme")] = true
  /\ selection_skip sample_options 2 [("Generate", VBool true)] = false
  /\ selection_skip sample_options 2 [("Generate", VInt 1)] = false.
Proof. vm_compute. repeat split. Qed.

Lemma generated_rows_skipped_witness :
  generate_step sample_session
                {| gen_mode := "Manual selection"; create_pdf := true;
                   custom_filename := "{{Company}}"; manual_sel := [3] |}
                sample_df (1, sample_row 1)
                (start (sim_start true true sample_df) no_counts)
  = (start (sim_start true true sample_df) no_counts, inr tt).
Proof.
  apply (proj1 (generated_rows_skipped
                  sample_session
                  {| gen_mode := "Manual selection"; create_pdf := true;
                     custom_filename := "{{Company}}"; manual_sel := [3] |}
                  sample_df
                  (start (sim_start true true sample_df) no_counts))).
  vm_compute. discriminate.
Defined.

(** A second run over the sheet as the first run left it: nothing is
    copied and nothing is written. *)
Example second_run_does_nothing :
  let first :=
    fst (tab4 sample_session sample_options
              (start (sim_start true true sample_df) no_counts)) in
  let second :=
    fst (tab4 sample_session sample_options (start (world first) no_counts)) in
  length (copy_calls (trace first)) = 2%nat
  /\ trace second
     = [EnsureControlColumns "sheet1"
          [TRIGGER_COL; STATUS_COL; URL_COL; TS_COL; PDF_URL_COL];
        ReadSheetDf "sheet1";
        StMarkdown (Text "#### 📊 Data Preview");
        StDataframe (sheet (world first));
        StMarkdown (Text "#### ⚙️ Generation Options");
        StProgress 0 1;
        StMarkdown (GenerationComplete 0 0)].
Proof. vm_compute. split; reflexivity. Qed.

(** The witness of C9: one status of each kind. *)
Lemma render_status_badge_classifies_witness :
  render_status_badge VNaN = badge "status-pending" "Pending"
  /\ render_status_badge (VStr "DONE 12:00") = badge "status-success" "✓ Done"
  /\ render_status_badge (VStr "Error: quota") = badge "status-error" "✗ Error"
  /\ render_status_badge (VStr "Queued") = badge "status-pending" "Queued".
Proof.
  split; [|split; [|split]].
  - apply (proj1 (render_status_badge_classifies VNaN)). now left.
  - apply (proj1 (proj2 (render_status_badge_classifies (VStr "DONE 12:00")))).
    reflexivity.
  - apply (proj1 (proj2 (proj2
                   (render_status_badge_classifies (VStr "Error: quota"))))).
    reflexivity.
  - apply (proj2 (proj2 (proj2
                   (render_status_badge_classifies (VStr "Queued")))));
      [reflexivity | discriminate | reflexivity | reflexivity].
Defined.

(* ================================================================== *)
(** * Part III: further properties of the code *)
(* ================================================================== *)

(** ** The dashboard *)

Lemma count_le_len (p : string -> bool) (df : DataFrame) :
  0 <= count_status p df <= len df.
Proof.
  unfold count_status, len. split; [lia|].
  apply inj_le. apply filter_length_le.
Qed.

(** X1.  The three counts of the dashboard split the rows: the pending rows
    are exactly those whose status starts with neither "Done" nor "Error",
    no count is negative, and the three add up to the number of rows. *)
Theorem metrics_partition (df : DataFrame) :
  Py.str_in STATUS_COL (columns df) = true ->
  exists m : metrics,
    compute_metrics df = inr m
    /\ pending_count m
       = count_status (fun s => negb (Py.startswith s "Done")
                                && negb (Py.startswith s "Error")) df
    /\ 0 <= done_count m
    /\ 0 <= error_count m
    /\ 0 <= pending_count m
    /\ done_count m + error_count m + pending_count m = total_rows m.
Proof.
  intros Hcol.
  destruct (compute_metrics df) as [e|m] eqn:Hm.
  - unfold compute_metrics, column in Hm. rewrite Hcol in Hm. discriminate.
  - exists m. split; [reflexivity|].
    pose proof (pending_count_rows df m Hm) as Hp.
    unfold compute_metrics, column in Hm. rewrite Hcol in Hm.
    injection Hm as <-.
    cbn [total_rows done_count error_count pending_count] in *.
    rewrite !sum_bools_count, !filter_map_length in *.
    pose proof (count_le_len (fun s => negb (Py.startswith s "Done")
                                       && negb (Py.startswith s "Error")) df).
    repeat split; first [exact Hp | lia].
Qed.

Lemma metrics_partition_witness :
  exists m : metrics,
    compute_metrics sample_df = inr m
    /\ pending_count m = 2
    /\ done_count m + error_count m + pending_count m = 3.
Proof.
  destruct (metrics_partition sample_df) as (m & Hm & Hp & _ & _ & _ & Hsum);
    [reflexivity|].
  exists m. split; [exact Hm|]. split; [rewrite Hp; reflexivity|].
  rewrite Hsum.
  vm_compute in Hm. injection Hm as <-.
  reflexivity.
Defined.

(** The float rate of a count out of a total is a percentage. *)
Lemma rate_bounds (d t : Z) :
  0 <= d <= t -> 0 < t ->
  (0 <= F64.mul (F64.div (F64.of_int d) (F64.of_int t)) (F64.of_int 100))%Q
  /\ (F64.mul (F64.div (F64.of_int d) (F64.of_int t)) (F64.of_int 100)
      <= inject_Z 100)%Q.
Proof.
  intros Hd Ht.
  assert (R0 : (F64.round 0 == 0)%Q) by reflexivity.
  assert (R1 : (F64.round 1 == 1)%Q) by reflexivity.
  assert (R100 : (F64.of_int 100 == 100)%Q) by reflexivity.
  assert (R100' : (F64.round 100 == 100)%Q) by reflexivity.
  assert (Hd0 : (0 <= F64.of_int d)%Q).
  { rewrite <- R0. apply round_mono; [apply Qle_refl|].
    change 0%Q with (inject_Z 0). rewrite <- Zle_Qle. lia. }
  assert (Ht1 : (1 <= F64.of_int t)%Q).
  { rewrite <- R1. apply round_mono; [discriminate|].
    change 1%Q with (inject_Z 1). rewrite <- Zle_Qle. lia. }
  assert (Hdt : (F64.of_int d <= F64.of_int t)%Q).
  { apply round_mono; [change 0%Q with (inject_Z 0)|]; rewrite <- Zle_Qle; lia. }
  set (x := (F64.of_int d / F64.of_int t)%Q).
  assert (Hx0 : (0 <= x)%Q).
  { apply Qle_shift_div_l; [lra | lra]. }
  assert (Hx1 : (x <= 1)%Q).
  { apply Qle_shift_div_r; [lra | lra]. }
  assert (Hr0 : (0 <= F64.round x)%Q).
  { rewrite <- R0. apply round_mono; [apply Qle_refl | exact Hx0]. }
  assert (Hr1 : (F64.round x <= 1)%Q).
  { rewrite <- R1. apply round_mono; [exact Hx0 | exact Hx1]. }
  unfold F64.mul, F64.div. fold x.
  set (y := (F64.round x * F64.of_int 100)%Q).
  assert (Hy0 : (0 <= y)%Q) by (unfold y; rewrite R100; lra).
  assert (Hy1 : (y <= 100)%Q) by (unfold y; rewrite R100; lra).
  split.
  - rewrite <- R0. apply round_mono; [apply Qle_refl | exact Hy0].
  - change (inject_Z 100) with 100%Q. rewrite <- R100'.
    apply round_mono; [exact Hy0 | exact Hy1].
Qed.

(** X2.  The success rate is a percentage: it lies between 0 and 100, whatever
    the sheet holds. *)
Theorem success_rate_bounds (df : DataFrame) :
  Py.str_in STATUS_COL (columns df) = true ->
  exists m : metrics,
    compute_metrics df = inr m
    /\ (0 <= success_rate m)%Q
    /\ (success_rate m <= inject_Z 100)%Q.
Proof.
  intros Hcol. unfold compute_metrics, column. rewrite Hcol.
  eexists. split; [reflexivity|]. cbn [success_rate].
  rewrite sum_bools_count, filter_map_length.
  pose proof (count_le_len (fun s => Py.startswith s "Done") df) as Hd.
  fold (count_status (fun s => Py.startswith s "Done") df).
  destruct (Z.gtb_spec (len df) 0) as [Hpos|Hz].
  - apply rate_bounds; lia.
  - split; discriminate.
Qed.

Lemma success_rate_bounds_witness :
  exists m : metrics,
    compute_metrics sample_df = inr m
    /\ (0 <= success_rate m)%Q
    /\ (success_rate m <= inject_Z 100)%Q.
Proof. apply (success_rate_bounds sample_df). reflexivity. Defined.

Lemma empty_false (df : DataFrame) :
  empty df = false <-> rows df <> [] /\ columns df <> [].
Proof.
  unfold empty. destruct (rows df), (columns df); split;
    try discriminate; try (intros [H1 H2]; congruence); intros _;
    split; discriminate.
Qed.

(** The labels of the sample sheet are distinct. *)
Lemma sample_columns_distinct : NoDup (columns sample_df).
Proof.
  repeat (constructor;
          [cbn; intros H;
           repeat (destruct H as [H|H]; [discriminate H|]); exact H|]).
  constructor.
Qed.

(** X3.  The dashboard shows its notice instead of the metrics exactly when the
    sheet has no row, no column or no status column.  When it does compute
    them, on a sheet whose column labels are distinct, the status column is
    there, so no [KeyError] is raised, and there is at least one row, so the
    rate is the float quotient times 100 and the zero of the guard against
    division by zero is never what is shown. *)
Theorem dashboard_guard (df : DataFrame) :
  (dashboard_metrics df = None
   <-> rows df = [] \/ columns df = [] \/ ~ In STATUS_COL (columns df))
  /\ (NoDup (columns df) ->
      forall r, dashboard_metrics df = Some r ->
        exists m : metrics,
          r = inr m
          /\ 0 < total_rows m
          /\ success_rate m
             = F64.mul (F64.div (F64.of_int (done_count m))
                                (F64.of_int (total_rows m)))
                       (F64.of_int 100)).
Proof.
  unfold dashboard_metrics. split.
  - destruct (empty df) eqn:He; cbn [negb andb].
    + split; [intros _|reflexivity].
      unfold empty in He. destruct (rows df); [now left|].
      destruct (columns df); [right; now left | discriminate].
    + apply empty_false in He as [Hr Hc].
      destruct (Py.str_in STATUS_COL (columns df)) eqn:Hs.
      * split; [discriminate|]. apply str_in_In in Hs. intros [H|[H|H]]; tauto.
      * split; [intros _|reflexivity]. right. right. intros Hin.
        apply str_in_In in Hin. congruence.
  - intros _ r. destruct (empty df) eqn:He; cbn [negb andb]; [discriminate|].
    destruct (Py.str_in STATUS_COL (columns df)) eqn:Hs; [|discriminate].
    intros [= <-]. unfold compute_metrics, column. rewrite Hs.
    eexists. split; [reflexivity|]. cbn [total_rows done_count success_rate].
    apply empty_false in He as [Hr _].
    assert (Hpos : 0 < len df).
    { unfold len. destruct (rows df); [congruence | cbn [length]; lia]. }
    split; [exact Hpos|].
    destruct (Z.gtb_spec (len df) 0); [reflexivity | lia].
Qed.

Lemma dashboard_guard_witness :
  NoDup (columns sample_df)
  /\ exists m : metrics,
       dashboard_metrics sample_df = Some (inr m) /\ total_rows m = 3.
Proof.
  split; [exact sample_columns_distinct|].
  destruct (proj2 (dashboard_guard sample_df) sample_columns_distinct
              (compute_metrics sample_df))
    as (m & Hm & _); [reflexivity|].
  exists m. split.
  - unfold dashboard_metrics. cbn [negb andb]. now rewrite <- Hm.
  - vm_compute in Hm. injection Hm as <-. reflexivity.
Defined.

Lemma startswith_cons (s p : string) (c d : ascii) :
  Py.startswith (String c s) (String d p) = true ->
  c = d /\ Py.startswith s p = true.
Proof.
  unfold Py.startswith. cbn [String.prefix].
  destruct (ascii_dec d c); [auto | discriminate].
Qed.

Lemma lower_done (s : string) :
  Py.startswith s "Done" = true -> Py.startswith (Py.lower s) "done" = true.
Proof.
  intros H.
  destruct s as [|c1 s]; [discriminate|]. apply startswith_cons in H as [-> H].
  destruct s as [|c2 s]; [discriminate|]. apply startswith_cons in H as [-> H].
  destruct s as [|c3 s]; [discriminate|]. apply startswith_cons in H as [-> H].
  destruct s as [|c4 s]; [discriminate|]. apply startswith_cons in H as [-> H].
  cbn. unfold Py.startswith. apply prefix_empty_l.
Qed.

Lemma lower_error (s : string) :
  Py.startswith s "Error" = true -> Py.startswith (Py.lower s) "error" = true.
Proof.
  intros H.
  destruct s as [|c1 s]; [discriminate|]. apply startswith_cons in H as [-> H].
  destruct s as [|c2 s]; [discriminate|]. apply startswith_cons in H as [-> H].
  destruct s as [|c3 s]; [discriminate|]. apply startswith_cons in H as [-> H].
  destruct s as [|c4 s]; [discriminate|]. apply startswith_cons in H as [-> H].
  destruct s as [|c5 s]; [discriminate|]. apply startswith_cons in H as [-> H].
  cbn. unfold Py.startswith. apply prefix_empty_l.
Qed.

Lemma badge_done (status : value) :
  Py.startswith (Py.lower (str status)) "done" = true ->
  render_status_badge status = badge "status-success" "✓ Done".
Proof.
  intros Hd. unfold render_status_badge, badge.
  rewrite (done_not_missing _ Hd), Hd. reflexivity.
Qed.

Lemma badge_error (status : value) :
  Py.startswith (Py.lower (str status)) "error" = true ->
  render_status_badge status = badge "status-error" "✗ Error".
Proof.
  intros He. unfold render_status_badge, badge.
  rewrite (error_not_missing _ He), (error_not_done _ He), He. reflexivity.
Qed.

(** X4.  The table of recent activity agrees with the counters above it: a row
    that the dashboard counts as done carries the success badge, and a row
    that it counts as an error carries the error badge.  (The badge test
    ignores case, the counters do not, so the converse does not hold.) *)
Theorem counted_rows_badged (status : value) :
  (Py.startswith (str status) "Done" = true ->
     render_status_badge status = badge "status-success" "✓ Done")
  /\ (Py.startswith (str status) "Error" = true ->
        render_status_badge status = badge "status-error" "✗ Error").
Proof.
  split; intros H.
  - apply badge_done. now apply lower_done.
  - apply badge_error. now apply lower_error.
Qed.

Lemma counted_rows_badged_witness :
  render_status_badge (VStr "Done") = badge "status-success" "✓ Done"
  /\ render_status_badge (VStr "Error: quota exceeded")
     = badge "status-error" "✗ Error".
Proof.
  split.
  - apply (proj1 (counted_rows_badged (VStr "Done"))). reflexivity.
  - apply (proj2 (counted_rows_badged (VStr "Error: quota exceeded"))).
    reflexivity.
Defined.

(** X5.  What the generation loop writes into the Status cell is what the
    dashboard looks for: the status of a successful turn is counted as done
    and badged as done, and the status of a failed turn, whatever the
    exception message, is counted as an error, not as done, and badged as
    an error. *)
Theorem written_status_counted (o : gen_options) (new_doc_id ts : string)
        (e : exn) :
  let done := get (done_updates o new_doc_id ts) STATUS_COL VNaN in
  let failed := get (error_updates e) STATUS_COL VNaN in
  Py.startswith (str done) "Done" = true
  /\ Py.startswith (str done) "Error" = false
  /\ render_status_badge done = badge "status-success" "✓ Done"
  /\ Py.startswith (str failed) "Error" = true
  /\ Py.startswith (str failed) "Done" = false
  /\ render_status_badge failed = badge "status-error" "✗ Error".
Proof.
  cbv zeta. unfold done_updates, error_updates.
  destruct (create_pdf o); repeat split; reflexivity.
Qed.

(** ** The generation loop as a whole *)

Lemma copy_calls_app (a b : list event) :
  copy_calls (a ++ b)%list = (copy_calls a ++ copy_calls b)%list.
Proof. unfold copy_calls. apply filter_app. Qed.

Lemma iterrows_from_range (df : DataFrame) (rs : list (list value)) :
  forall (k idx : Z) (row : Series),
    In (idx, row) (iterrows_from k df rs) ->
    k <= idx < k + Z.of_nat (length rs)
    /\ exists cells, nth_error rs (Z.to_nat (idx - k)) = Some cells
                     /\ row = series df cells.
Proof.
  induction rs as [|cells rs IH]; intros k idx row Hin; [elim Hin|].
  cbn [iterrows_from] in Hin. destruct Hin as [[= <- <-]|Hin].
  - split; [cbn [length]; lia|]. exists cells.
    rewrite Z.sub_diag. split; reflexivity.
  - apply IH in Hin as [Hr (c & Hn & Hrow)]. split; [cbn [length]; lia|].
    exists c. split; [|exact Hrow].
    replace (Z.to_nat (idx - k)) with (S (Z.to_nat (idx - (k + 1)))) by lia.
    exact Hn.
Qed.

Section GenerateLoop.

Context {World : Type} `{GU : GoogleUtils World} `{CK : Clock World}.

(** One turn: nothing at all for a row that is not acted upon; for one that
    is, a single [copy_gdoc], outside calls for this row only, and one more
    row counted when the turn ends normally. *)
Lemma generate_step_effect (sess : session) (o : gen_options) (df : DataFrame)
      (idx : Z) (row : Series) (s s' : state World counters) (r : exn + unit) :
  generate_step sess o df (idx, row) s = (s', r) ->
  if selected o (idx, row) then
    exists evs : list event,
      trace s' = (trace s ++ evs)%list
      /\ length (copy_calls evs) = 1%nat
      /\ Forall (aims_at sess (idx + 2)) evs
      /\ success_count (locals s) <= success_count (locals s')
      /\ error_count_ (locals s) <= error_count_ (locals s')
      /\ (r = inr tt ->
          success_count (locals s') + error_count_ (locals s')
          = success_count (locals s) + error_count_ (locals s) + 1)
  else s' = s /\ r = inr tt.
Proof.
  unfold selected, generate_step. cbn [fst snd].
  destruct (selection_skip o (idx + 2) row); cbn [negb andb];
    [intros [= <- <-]; auto|].
  destruct (has_url row); cbn [negb andb]; [intros [= <- <-]; auto|].
  unfold bind at 1. unfold try_except, generate_row, handle_row_error.
  unfold bind, copy_gdoc, replace_placeholders, write_back, now, external,
    modify_locals, emit.
  cbn [world trace locals].
  destruct (gu_copy_gdoc _ _ _ (world s)) as [w1 [e1|id]];
    cbn [world trace locals success_count error_count_].
  - destruct (gu_write_back _ _ (error_updates e1) w1) as [w2 [e2|u2]];
      cbn [world trace locals]; intros [= <- <-];
      cbn [world trace locals success_count error_count_];
      rewrite <- ?app_assoc; cbn [app];
      (eexists; split; [reflexivity|]; split; [reflexivity|];
       split; [repeat constructor|]; repeat split; try lia; discriminate).
  - destruct (gu_replace_placeholders id _ w1) as [w2 [e2|u2]];
      cbn [world trace locals success_count error_count_].
    + destruct (gu_write_back _ _ (error_updates e2) w2) as [w3 [e3|u3]];
        cbn [world trace locals]; intros [= <- <-];
        cbn [world trace locals success_count error_count_];
        rewrite <- ?app_assoc; cbn [app];
        (eexists; split; [reflexivity|]; split; [reflexivity|];
         split; [repeat constructor|]; repeat split; try lia; discriminate).
    + destruct (clock_now w2) as [w3 ts]. cbn [world trace locals].
      destruct (gu_write_back _ _ (done_updates o id ts) w3) as [w4 [e4|u4]];
        cbn [world trace locals success_count error_count_].
      * destruct (gu_write_back _ _ (error_updates e4) w4) as [w5 [e5|u5]];
          cbn [world trace locals]; intros [= <- <-];
          cbn [world trace locals success_count error_count_];
          rewrite <- ?app_assoc; cbn [app];
          (eexists; split; [reflexivity|]; split; [reflexivity|];
           split; [repeat constructor|]; repeat split; try lia; discriminate).
      * intros [= <- <-];
          cbn [world trace locals success_count error_count_];
          rewrite <- ?app_assoc; cbn [app];
          (eexists; split; [reflexivity|]; split; [reflexivity|];
           split; [repeat constructor|]; repeat split; lia).
Qed.

(** The loop over any list of rows. *)
Lemma generate_loop_effect (sess : session) (o : gen_options) (df : DataFrame) :
  forall (irs : list (Z * Series)) (s s' : state World counters)
         (r : exn + unit),
    for_each irs (generate_step sess o df) s = (s', r) ->
    exists evs : list event,
      trace s' = (trace s ++ evs)%list
      /\ (length (copy_calls evs) <= length (filter (selected o) irs))%nat
      /\ Forall (fun ev => exists ir, In ir irs /\ selected o ir = true
                                      /\ aims_at sess (fst ir + 2) ev) evs
      /\ success_count (locals s) <= success_count (locals s')
      /\ error_count_ (locals s) <= error_count_ (locals s')
      /\ (r = inr tt ->
          length (copy_calls evs) = length (filter (selected o) irs)
          /\ success_count (locals s') + error_count_ (locals s')
             = success_count (locals s) + error_count_ (locals s)
               + Z.of_nat (length (filter (selected o) irs))).
Proof.
  induction irs as [|[idx row] irs IH]; intros s s' r Hrun.
  - cbn in Hrun. injection Hrun as <- <-. exists []. rewrite app_nil_r.
    cbn. repeat split; try lia; constructor.
  - cbn [for_each] in Hrun. unfold bind in Hrun.
    destruct (generate_step sess o df (idx, row) s) as [s1 r1] eqn:Hstep.
    pose proof (generate_step_effect _ _ _ _ _ _ _ _ Hstep) as Heff.
    cbn [filter]. destruct (selected o (idx, row)) eqn:Hsel.
    + destruct Heff as (ev1 & Htr1 & Hc1 & Ha1 & Hs1 & He1 & Hn1).
      assert (Hfirst : Forall (fun ev => exists ir, In ir ((idx, row) :: irs)
                                          /\ selected o ir = true
                                          /\ aims_at sess (fst ir + 2) ev) ev1).
      { eapply Forall_impl; [|exact Ha1]. intros ev Hev.
        exists (idx, row). split; [now left|]. split; [exact Hsel | exact Hev]. }
      destruct r1 as [e1|[]].
      * injection Hrun as <- <-. exists ev1. cbn [length].
        repeat split; try assumption; try lia; discriminate.
      * destruct (IH _ _ _ Hrun) as (ev2 & Htr2 & Hc2 & Ha2 & Hs2 & He2 & Hn2).
        specialize (Hn1 eq_refl).
        exists (ev1 ++ ev2)%list. rewrite Htr2, Htr1, <- app_assoc.
        rewrite copy_calls_app, length_app, Hc1. cbn [length].
        split; [reflexivity|]. split; [lia|]. split.
        { apply Forall_app. split; [exact Hfirst|].
          eapply Forall_impl; [|exact Ha2]. intros ev (ir & Hin & Hs & Ha).
          exists ir. split; [now right | auto]. }
        split; [lia|]. split; [lia|]. intros Hr. destruct (Hn2 Hr). lia.
    + destruct Heff as [-> ->].
      destruct (IH _ _ _ Hrun) as (ev2 & Htr2 & Hc2 & Ha2 & Hs2 & He2 & Hn2).
      exists ev2. split; [exact Htr2|]. split; [exact Hc2|]. split.
      { eapply Forall_impl; [|exact Ha2]. intros ev (ir & Hin & Hs & Ha).
        exists ir. split; [now right | auto]. }
      auto.
Qed.

End GenerateLoop.

Section GenerateRun.

Context {World : Type} `{GU : GoogleUtils World} `{CK : Clock World}.

Lemma generate_documents_unfold (sess : session) (o : gen_options)
      (df : DataFrame) (s : state World counters) :
  generate_documents sess o df s
  = match for_each (iterrows df) (generate_step sess o df)
                   {| world := world s;
                      trace := trace s ++ [StProgress 0 1];
                      locals := {| success_count := 0; error_count_ := 0 |} |}
    with
    | (s1, inl e) => (s1, inl e)
    | (s1, inr _) =>
        ({| world := world s1;
            trace := trace s1
                     ++ [StMarkdown (GenerationComplete
                                       (success_count (locals s1))
                                       (error_count_ (locals s1)))];
            locals := locals s1 |}, inr tt)
    end.
Proof. reflexivity. Qed.

(** X6.  When the run completes, the two counters shown in the summary card
    account for every row acted upon: each such row is counted exactly
    once, as a success or as an error, and no other row is counted. *)
Theorem counters_account (sess : session) (o : gen_options) (df : DataFrame)
        (s s' : state World counters) :
  generate_documents sess o df s = (s', inr tt) ->
  0 <= success_count (locals s')
  /\ 0 <= error_count_ (locals s')
  /\ success_count (locals s') + error_count_ (locals s')
     = Z.of_nat (length (filter (selected o) (iterrows df)))
  /\ exists before : list event,
       trace s'
       = (before ++ [StMarkdown (GenerationComplete
                                   (success_count (locals s'))
                                   (error_count_ (locals s')))])%list.
Proof.
  rewrite generate_documents_unfold.
  destruct (for_each _ _ _) as [s1 [e|u]] eqn:Hloop; [discriminate|].
  intros [= <-]. cbn [locals trace].
  destruct (generate_loop_effect _ _ _ _ _ _ _ Hloop)
    as (evs & _ & _ & _ & Hs & He & Hn).
  destruct u. destruct (Hn eq_refl) as [_ Hsum].
  cbn [locals success_count error_count_] in *.
  repeat split; try lia. eexists. reflexivity.
Qed.

Lemma generate_step_unselected (sess : session) (o : gen_options)
      (df : DataFrame) (ir : Z * Series) (s : state World counters) :
  selected o ir = false -> generate_step sess o df ir s = (s, inr tt).
Proof.
  intros Hsel. destruct ir as [idx row].
  destruct (generate_step sess o df (idx, row) s) as [s' r] eqn:Hstep.
  pose proof (generate_step_effect _ _ _ _ _ _ _ _ Hstep) as Heff.
  rewrite Hsel in Heff. destruct Heff as [-> ->]. reflexivity.
Qed.

(** The copies made by the loop over any list of rows: one for each row
    acted upon among the rows whose turn came, in their order. *)
Lemma generate_loop_copies (sess : session) (o : gen_options) (df : DataFrame) :
  forall (irs : list (Z * Series)) (s s' : state World counters)
         (r : exn + unit),
    for_each irs (generate_step sess o df) s = (s', r) ->
    exists evs reached later,
      irs = (reached ++ later)%list
      /\ trace s' = (trace s ++ evs)%list
      /\ copy_calls evs
         = map (copy_for sess o df) (filter (selected o) reached)
      /\ (r = inr tt -> later = []).
Proof.
  induction irs as [|[idx row] irs IH]; intros s s' r Hrun.
  - cbn in Hrun. injection Hrun as <- <-. exists [], [], [].
    split; [reflexivity|]. split; [now rewrite app_nil_r|].
    split; reflexivity.
  - cbn [for_each] in Hrun. unfold bind in Hrun.
    destruct (selected o (idx, row)) eqn:Hsel.
    + pose proof Hsel as Hsel'. unfold selected in Hsel'. cbn [fst snd] in Hsel'.
      apply andb_true_iff in Hsel' as [Hskip Hurl].
      apply negb_true_iff in Hskip, Hurl.
      destruct (generate_step_acts sess o df idx row s Hskip Hurl)
        as (s1 & r1 & rest & Hstep & Htr1 & Hrest).
      rewrite Hstep in Hrun. destruct r1 as [e1|[]].
      * injection Hrun as <- <-.
        exists (copy_for sess o df (idx, row) :: rest), [(idx, row)], irs.
        split; [reflexivity|]. split; [exact Htr1|].
        cbn [filter]. rewrite Hsel. cbn [map].
        change (copy_calls (copy_for sess o df (idx, row) :: rest))
          with (copy_for sess o df (idx, row) :: copy_calls rest).
        rewrite Hrest. split; [reflexivity | discriminate].
      * destruct (IH _ _ _ Hrun) as (evs & reached & later & Hirs & Htr & Hc & Hr).
        exists ((copy_for sess o df (idx, row) :: rest) ++ evs)%list,
               ((idx, row) :: reached), later.
        split; [cbn [app]; now rewrite Hirs|].
        split; [rewrite Htr, Htr1, <- app_assoc; reflexivity|].
        rewrite copy_calls_app. cbn [filter]. rewrite Hsel. cbn [map].
        change (copy_calls (copy_for sess o df (idx, row) :: rest))
          with (copy_for sess o df (idx, row) :: copy_calls rest).
        rewrite Hrest, Hc. split; [reflexivity | exact Hr].
    + rewrite (generate_step_unselected sess o df (idx, row) s Hsel) in Hrun.
      destruct (IH _ _ _ Hrun) as (evs & reached & later & Hirs & Htr & Hc & Hr).
      exists evs, ((idx, row) :: reached), later.
      split; [cbn [app]; now rewrite Hirs|]. split; [exact Htr|].
      cbn [filter]. rewrite Hsel. split; [exact Hc | exact Hr].
Qed.

(** X7.  A run tries each row it acts upon once.  The rows whose turn came are
    the first rows of the sheet, all of them when the run completes; the
    [copy_gdoc] calls of the run are, in order, one for each of those rows
    that is acted upon, under that row's file name, and there is none for
    a row that is passed over.  So there are at most as many calls as rows
    to act upon, and exactly as many when the run completes. *)
Theorem one_copy_per_selected_row (sess : session) (o : gen_options)
        (df : DataFrame) (s s' : state World counters) (r : exn + unit) :
  generate_documents sess o df s = (s', r) ->
  exists (evs : list event) (reached later : list (Z * Series)),
    trace s' = (trace s ++ evs)%list
    /\ iterrows df = (reached ++ later)%list
    /\ copy_calls evs = map (copy_for sess o df) (filter (selected o) reached)
    /\ (r = inr tt -> later = [])
    /\ (length (copy_calls evs)
        <= length (filter (selected o) (iterrows df)))%nat
    /\ (r = inr tt ->
        length (copy_calls evs)
        = length (filter (selected o) (iterrows df))).
Proof.
  rewrite generate_documents_unfold.
  destruct (for_each _ _ _) as [s1 ru] eqn:Hloop.
  destruct (generate_loop_copies _ _ _ _ _ _ _ Hloop)
    as (evs & reached & later & Hirs & Htr & Hc & Hr).
  cbn [trace] in Htr.
  assert (Hlen : (length (map (copy_for sess o df) (filter (selected o) reached))
                  <= length (filter (selected o) (iterrows df)))%nat).
  { rewrite Hirs, filter_app, length_app, length_map. lia. }
  destruct ru as [e|u]; intros [= <- <-].
  - exists (StProgress 0 1 :: evs), reached, later.
    rewrite Htr, <- app_assoc. split; [reflexivity|]. split; [exact Hirs|].
    change (copy_calls (StProgress 0 1 :: evs)) with (copy_calls evs).
    rewrite Hc. split; [reflexivity|]. split; [discriminate|].
    split; [exact Hlen | discriminate].
  - exists (StProgress 0 1
              :: evs ++ [StMarkdown (GenerationComplete
                                       (success_count (locals s1))
                                       (error_count_ (locals s1)))])%list,
           reached, later.
    cbn [trace]. rewrite Htr, <- !app_assoc. split; [reflexivity|].
    split; [exact Hirs|].
    change (copy_calls (StProgress 0 1 :: ?l)) with (copy_calls l).
    rewrite copy_calls_app. cbn [copy_calls filter]. rewrite app_nil_r, Hc.
    split; [reflexivity|]. destruct u.
    split; [intros _; now apply Hr|]. split; [exact Hlen|].
    intros _. rewrite Hirs, (Hr eq_refl), app_nil_r, length_map. reflexivity.
Qed.

(** X8.  A run writes only where it should: every [write_back] goes to the
    session's spreadsheet and to the sheet row of a dataframe row that is
    acted upon, so never to the header row, never below the last row, and
    never to a row that was passed over. *)
Theorem write_backs_hit_selected_rows (sess : session) (o : gen_options)
        (df : DataFrame) (s s' : state World counters) (r : exn + unit) :
  generate_documents sess o df s = (s', r) ->
  exists evs : list event,
    trace s' = (trace s ++ evs)%list
    /\ forall sid row_index updates,
         In (WriteBack sid row_index updates) evs ->
         sid = spreadsheet_id sess
         /\ 2 <= row_index <= len df + 1
         /\ exists cells,
              nth_error (rows df) (Z.to_nat (row_index - 2)) = Some cells
              /\ selected o (row_index - 2, series df cells) = true.
Proof.
  rewrite generate_documents_unfold.
  destruct (for_each _ _ _) as [s1 ru] eqn:Hloop.
  destruct (generate_loop_effect _ _ _ _ _ _ _ Hloop)
    as (evs & Htr & _ & Hall & _).
  cbn [trace] in Htr.
  assert (Hin : forall sid row_index updates,
             In (WriteBack sid row_index updates) evs ->
             sid = spreadsheet_id sess
             /\ 2 <= row_index <= len df + 1
             /\ exists cells,
                  nth_error (rows df) (Z.to_nat (row_index - 2)) = Some cells
                  /\ selected o (row_index - 2, series df cells) = true).
  { intros sid row_index updates Hev. rewrite Forall_forall in Hall.
    destruct (Hall _ Hev) as ([idx row] & Hir & Hsel & Hsid & Hrow).
    cbn [fst] in Hrow. subst row_index.
    apply iterrows_from_range in Hir as [Hrange (cells & Hnth & ->)].
    split; [exact Hsid|]. unfold len. split; [lia|].
    exists cells. replace (idx + 2 - 2) with idx by lia.
    rewrite Z.sub_0_r in Hnth. auto. }
  destruct ru as [e|u]; intros [= <- <-].
  - exists (StProgress 0 1 :: evs). rewrite Htr, <- app_assoc.
    split; [reflexivity|]. intros sid row_index updates [Hd|Hev];
      [discriminate | eauto].
  - eexists. cbn [trace]. rewrite Htr, <- !app_assoc. split; [reflexivity|].
    intros sid row_index updates Hev. cbn [app] in Hev.
    destruct Hev as [Hd|Hev]; [discriminate|].
    apply in_app_or in Hev as [Hev|[Hd|[]]]; [eauto | discriminate].
Qed.

Lemma for_each_noop {X : Type} (body : X -> M World counters unit)
      (xs : list X) :
  (forall x, In x xs -> forall s, body x s = (s, inr tt)) ->
  forall s, for_each xs body s = (s, inr tt).
Proof.
  induction xs as [|x xs IH]; intros Hno s; [reflexivity|].
  cbn [for_each]. unfold bind. rewrite (Hno x (or_introl eq_refl)).
  apply IH. intros y Hy. apply Hno. now right.
Qed.

(** X9.  A run over a sheet on which no row is to be acted upon, because no row
    passes the selection or every row has its document, makes no outside
    call at all: it resets the progress bar and reports zero successes and
    zero errors, and the world is as it was. *)
Theorem nothing_selected_nothing_done (sess : session) (o : gen_options)
        (df : DataFrame) (s : state World counters) :
  (forall ir, In ir (iterrows df) -> selected o ir = false) ->
  generate_documents sess o df s
  = ({| world := world s;
        trace := trace s ++ [StProgress 0 1; StMarkdown (GenerationComplete 0 0)];
        locals := {| success_count := 0; error_count_ := 0 |} |}, inr tt).
Proof.
  intros Hnone. rewrite generate_documents_unfold.
  rewrite for_each_noop.
  - cbn [world trace locals success_count error_count_].
    rewrite <- app_assoc. reflexivity.
  - intros ir Hin s0. apply generate_step_unselected. now apply Hnone.
Qed.

(** X10.  An empty sheet: the tab reads it, says that there is no data row, and
    goes no further. *)
Theorem tab4_empty_sheet (sess : session) (o : gen_options)
        (s : state World counters) (w1 w2 : World) (df : DataFrame) :
  let sid := spreadsheet_id sess in
  let cols := [TRIGGER_COL; STATUS_COL; URL_COL; TS_COL; PDF_URL_COL] in
  gu_ensure_control_columns sid cols (world s) = (w1, inr tt) ->
  gu_read_sheet_df sid w1 = (w2, inr df) ->
  empty df = true ->
  tab4 sess o s
  = ({| world := w2;
        trace := trace s
                 ++ [EnsureControlColumns sid cols; ReadSheetDf sid;
                     StInfo "📭 No data rows found. Add some data to your sheet first."];
        locals := locals s |}, inr tt).
Proof.
  intros sid cols Hens Hread Hempty.
  unfold tab4, try_except, bind, ensure_control_columns, read_sheet_df,
    external, emit.
  fold sid. fold cols. rewrite Hens. cbn [world trace locals].
  rewrite Hread. cbn [world trace locals]. rewrite Hempty.
  cbn [world trace locals]. rewrite <- !app_assoc. reflexivity.
Qed.

(** X11.  The tab never lets an exception out.  When the control columns cannot
    be ensured or the sheet cannot be read, the error is shown as "Error
    loading data: ..." and nothing is generated. *)
Theorem tab4_load_failure (sess : session) (o : gen_options)
        (s : state World counters) :
  let sid := spreadsheet_id sess in
  let cols := [TRIGGER_COL; STATUS_COL; URL_COL; TS_COL; PDF_URL_COL] in
  snd (tab4 sess o s) = inr tt
  /\ (forall w1 e,
         gu_ensure_control_columns sid cols (world s) = (w1, inl e) ->
         tab4 sess o s
         = ({| world := w1;
               trace := trace s
                        ++ [EnsureControlColumns sid cols;
                            StError ("Error loading data: " ++ e)];
               locals := locals s |}, inr tt))
  /\ (forall w1 w2 e,
         gu_ensure_control_columns sid cols (world s) = (w1, inr tt) ->
         gu_read_sheet_df sid w1 = (w2, inl e) ->
         tab4 sess o s
         = ({| world := w2;
               trace := trace s
                        ++ [EnsureControlColumns sid cols; ReadSheetDf sid;
                            StError ("Error loading data: " ++ e)];
               locals := locals s |}, inr tt)).
Proof.
  intros sid cols. split; [|split].
  - unfold tab4, try_except.
    destruct (bind _ _ s) as [s1 [e|[]]]; reflexivity.
  - intros w1 e Hens.
    unfold tab4, try_except, bind, ensure_control_columns, external, emit.
    fold sid. fold cols. rewrite Hens. cbn [world trace locals].
    rewrite <- !app_assoc. reflexivity.
  - intros w1 w2 e Hens Hread.
    unfold tab4, try_except, bind, ensure_control_columns, read_sheet_df,
      external, emit.
    fold sid. fold cols. rewrite Hens. cbn [world trace locals].
    rewrite Hread. cbn [world trace locals]. rewrite <- !app_assoc.
    reflexivity.
Qed.

End GenerateRun.

(** ** The generation tab on the stand-in services *)

Lemma counters_account_witness :
  let s' :=
    fst (generate_documents sample_session sample_options sample_df
                            (start (sim_start false true sample_df) no_counts)) in
  success_count (locals s') + error_count_ (locals s') = 2.
Proof.
  cbv zeta.
  destruct (counters_account
              sample_session sample_options sample_df
              (start (sim_start false true sample_df) no_counts)
              (fst (generate_documents
                      sample_session sample_options sample_df
                      (start (sim_start false true sample_df) no_counts))))
    as (_ & _ & Hsum & _); [vm_compute; reflexivity|].
  rewrite Hsum. reflexivity.
Defined.

Lemma one_copy_per_selected_row_witness :
  exists evs : list event,
    trace (fst (generate_documents
                  sample_session sample_options sample_df
                  (start (sim_start false false sample_df) no_counts)))
    = evs
    /\ (length (copy_calls evs) <= 2)%nat.
Proof.
  destruct (one_copy_per_selected_row
              sample_session sample_options sample_df
              (start (sim_start false false sample_df) no_counts)
              (fst (generate_documents
                      sample_session sample_options sample_df
                      (start (sim_start false false sample_df) no_counts)))
              (inl forbidden))
    as (evs & reached & later & Htr & _ & _ & _ & Hle & _);
    [vm_compute; reflexivity|].
  exists evs. split; [exact Htr | exact Hle].
Defined.

Lemma write_backs_hit_selected_rows_witness :
  exists evs : list event,
    trace (fst (generate_documents
                  sample_session sample_options sample_df
                  (start (sim_start true true sample_df) no_counts)))
    = evs
    /\ forall sid row_index updates,
         In (WriteBack sid row_index updates) evs ->
         sid = "sheet1"%string /\ 2 <= row_index <= 4.
Proof.
  destruct (write_backs_hit_selected_rows
              sample_session sample_options sample_df
              (start (sim_start true true sample_df) no_counts)
              (fst (generate_documents
                      sample_session sample_options sample_df
                      (start (sim_start true true sample_df) no_counts)))
              (inr tt))
    as (evs & Htr & Hall); [vm_compute; reflexivity|].
  exists evs. split; [exact Htr|].
  intros sid row_index updates Hin.
  destruct (Hall sid row_index updates Hin) as (Hsid & Hrange & _).
  split; [exact Hsid | exact Hrange].
Defined.

Lemma nothing_selected_nothing_done_witness :
  generate_documents
    sample_session
    {| gen_mode := "Manual selection"; create_pdf := true;
       custom_filename := "{{Company}}"; manual_sel := [] |}
    sample_df (start (sim_start true true sample_df) no_counts)
  = ({| world := sim_start true true sample_df;
        trace := [StProgress 0 1; StMarkdown (GenerationComplete 0 0)];
        locals := {| success_count := 0; error_count_ := 0 |} |}, inr tt).
Proof.
  apply (nothing_selected_nothing_done
           sample_session
           {| gen_mode := "Manual selection"; create_pdf := true;
              custom_filename := "{{Company}}"; manual_sel := [] |}
           sample_df (start (sim_start true true sample_df) no_counts)).
  intros ir [<-|[<-|[<-|[]]]]; reflexivity.
Defined.

Lemma tab4_empty_sheet_witness :
  tab4 sample_session sample_options
       (start (sim_start true true blank_df) no_counts)
  = ({| world := sim_start true true blank_df;
        trace :=
          [EnsureControlColumns "sheet1"
             [TRIGGER_COL; STATUS_COL; URL_COL; TS_COL; PDF_URL_COL];
           ReadSheetDf "sheet1";
           StInfo "📭 No data rows found. Add some data to your sheet first."];
        locals := no_counts |}, inr tt).
Proof.
  apply (tab4_empty_sheet sample_session sample_options
                          (start (sim_start true true blank_df) no_counts)
                          (sim_start true true blank_df)
                          (sim_start true true blank_df) blank_df);
    reflexivity.
Defined.

Lemma tab4_load_failure_witness :
  tab4 sample_session sample_options
       (start (sim_start true false bare_df) no_counts)
  = ({| world := sim_start true false bare_df;
        trace :=
          [EnsureControlColumns "sheet1"
             [TRIGGER_COL; STATUS_COL; URL_COL; TS_COL; PDF_URL_COL];
           StError "Error loading data: The caller does not have permission"];
        locals := no_counts |}, inr tt).
Proof.
  apply (proj1 (proj2 (tab4_load_failure
                         sample_session sample_options
                         (start (sim_start true false bare_df) no_counts)))
               (sim_start true false bare_df) forbidden).
  reflexivity.
Defined.

(** ** The agent runner as a whole *)

Lemma for_each_app {World L X : Type} (body : X -> M World L unit)
      (xs ys : list X) (s : state World L) :
  for_each (xs ++ ys) body s
  = match for_each xs body s with
    | (s1, inl e) => (s1, inl e)
    | (s1, inr _) => for_each ys body s1
    end.
Proof.
  revert s. induction xs as [|x xs IH]; intros s; [reflexivity|].
  cbn [app for_each]. unfold bind.
  destruct (body x s) as [s1 [e|u]]; [reflexivity | apply IH].
Qed.

Section RunnerRun.

Context {World : Type} `{GU : GoogleUtils World} `{LLM : LlmProviders World}.

(** X12.  What stops the runner before any agent is called.  A blank
    spreadsheet identifier: an error message, and the sheet is not even
    read.  A sheet that cannot be read: "Error running agents: ...".  A
    row number outside the sheet, below row 2 or past the last row: "Row N
    is out of range".  In none of these cases does an exception leave the
    runner, nor in any other. *)
Theorem runner_guards (sid : string) (row_number : Z) (required_fields : string)
        (num_agents : Z) (agents : list dict) (s : state World runner_locals) :
  snd (run_agents_pipeline sid row_number required_fields num_agents agents s)
  = inr tt
  /\ (sid = ""%string ->
      run_agents_pipeline sid row_number required_fields num_agents agents s
      = ({| world := world s;
            trace := trace s ++ [StError "Please provide a spreadsheet ID"];
            locals := locals s |}, inr tt))
  /\ (forall w1 e,
         sid <> ""%string ->
         gu_read_sheet_df sid (world s) = (w1, inl e) ->
         run_agents_pipeline sid row_number required_fields num_agents agents s
         = ({| world := w1;
               trace := trace s
                        ++ [ReadSheetDf sid;
                            StError ("Error running agents: " ++ e)];
               locals := locals s |}, inr tt))
  /\ (forall w1 df,
         sid <> ""%string ->
         gu_read_sheet_df sid (world s) = (w1, inr df) ->
         row_number < 2 \/ len df + 2 <= row_number ->
         run_agents_pipeline sid row_number required_fields num_agents agents s
         = ({| world := w1;
               trace := trace s
                        ++ [ReadSheetDf sid;
                            StError ("Row " ++ Py.str_int row_number
                                       ++ " is out of range")];
               locals := locals s |}, inr tt)).
Proof.
  split; [|split; [|split]].
  - unfold run_agents_pipeline. destruct (Py.truthy sid); cbn [negb];
      [|reflexivity].
    unfold try_except. destruct (bind _ _ s) as [s1 [e|[]]]; reflexivity.
  - intros ->. reflexivity.
  - intros w1 e Hsid Hread. unfold run_agents_pipeline.
    destruct sid as [|c sid]; [now elim Hsid|]. cbn [Py.truthy negb].
    unfold try_except, bind, read_sheet, external, emit. rewrite Hread.
    cbn [world trace locals]. rewrite <- app_assoc. reflexivity.
  - intros w1 df Hsid Hread Hout. unfold run_agents_pipeline.
    destruct sid as [|c sid]; [now elim Hsid|]. cbn [Py.truthy negb].
    unfold try_except, bind, read_sheet, external. rewrite Hread.
    cbn [world trace locals].
    assert (Htest : (row_number - 2 >=? len df) || (row_number - 2 <? 0) = true).
    { apply orb_true_iff. destruct Hout as [Hlow|Hhigh].
      - right. apply Z.ltb_lt. lia.
      - left. apply Z.geb_le. lia. }
    rewrite Htest. unfold emit. cbn [world trace locals].
    rewrite <- app_assoc. reflexivity.
Qed.

(** X13.  A row number within the sheet is always found: sheet row N, the header
    being row 1, is dataframe row N - 2, and the runner goes on with that
    row. *)
Theorem runner_row_lookup (sid : string) (row_number : Z)
        (required_fields : string) (num_agents : Z) (agents : list dict)
        (s : state World runner_locals) (w1 : World) (df : DataFrame) :
  sid <> ""%string ->
  gu_read_sheet_df sid (world s) = (w1, inr df) ->
  2 <= row_number <= len df + 1 ->
  exists cells : list value,
    nth_error (rows df) (Z.to_nat (row_number - 2)) = Some cells
    /\ run_agents_pipeline sid row_number required_fields num_agents agents s
       = try_except
           (run_agents_on (series df cells) row_number required_fields
                          num_agents agents)
           (fun e => emit (StError ("Error running agents: " ++ e)))
           {| world := w1;
              trace := trace s ++ [ReadSheetDf sid];
              locals := locals s |}.
Proof.
  intros Hsid Hread Hin.
  destruct (nth_error (rows df) (Z.to_nat (row_number - 2))) as [cells|] eqn:Hn.
  - exists cells. split; [reflexivity|]. unfold run_agents_pipeline.
    destruct sid as [|c sid]; [now elim Hsid|]. cbn [Py.truthy negb].
    unfold try_except at 1. unfold bind at 1. unfold read_sheet, external.
    rewrite Hread. cbn [world trace locals].
    assert (Htest : (row_number - 2 >=? len df) || (row_number - 2 <? 0) = false).
    { apply orb_false_iff. split; [|apply Z.ltb_ge; lia].
      rewrite Z.geb_leb. apply Z.leb_gt. lia. }
    rewrite Htest. unfold iloc, item.
    assert (Hlt : (row_number - 2 <? 0) = false) by (apply Z.ltb_ge; lia).
    cbv zeta. rewrite !Hlt, Hn. cbn [option_map]. reflexivity.
  - apply nth_error_None in Hn. unfold len in Hin. lia.
Qed.

(** X14.  Asking for more agents than there are: every agent of the list is
    called in turn, then the lookup of the next one raises [IndexError];
    the loop is left with the results collected so far, which are never
    displayed. *)
Theorem runner_too_many_agents (row : Series) (row_number : Z)
        (required_fields : string) (n : nat) (agents : list dict)
        (s : state World runner_locals) :
  (length agents < n)%nat ->
  let ctx0 := build_context (to_dict row) required_fields in
  let run := call_in_turn agents ctx0 (world s) in
  run_agents_on row row_number required_fields (Z.of_nat n) agents s
  = ({| world := snd run;
        trace := trace s
                 ++ [StMarkdown (AnalyzingRow row_number (to_dict row));
                     StProgress 0 1]
                 ++ loop_events (Z.of_nat n) 0 (fst (fst run));
        locals := {| results := collect 0 (fst (fst run));
                     context := snd (fst run) |} |},
     inl "list index out of range"%string).
Proof.
  intros Hn. cbv zeta. unfold run_agents_on, range. rewrite Nat2Z.id.
  unfold bind at 1. unfold modify_locals at 1.
  unfold bind at 1. unfold emit at 1.
  unfold bind at 1. unfold modify_locals at 1.
  unfold bind at 1. unfold emit at 1.
  unfold bind at 1. cbn [world trace locals results context].
  replace n with (length agents + S (n - length agents - 1))%nat at 1 by lia.
  rewrite seq_app, map_app, for_each_app.
  rewrite (run_loop_spec agents (Z.of_nat n) agents 0)
    by (intros j a Hj; exact Hj).
  cbv zeta. cbn [world trace locals results context seq map for_each plus].
  unfold bind at 1. unfold run_step at 1. unfold bind at 1.
  unfold subscript_list, item.
  assert (Hlt : (Z.of_nat (length agents) <? 0) = false)
    by (apply Z.ltb_ge; lia).
  cbv zeta. rewrite !Hlt, Nat2Z.id.
  replace (nth_error agents (length agents)) with (@None dict)
    by (symmetry; apply nth_error_None; lia).
  unfold raise. cbn [app]. rewrite <- !app_assoc. reflexivity.
Qed.

End RunnerRun.

Lemma runner_guards_witness :
  run_agents_pipeline "sheet1" 5 "Company" 3 sample_agents
                      (start (sim_start true true sample_df) no_results)
  = ({| world := sim_start true true sample_df;
        trace := [ReadSheetDf "sheet1"; StError "Row 5 is out of range"];
        locals := no_results |}, inr tt).
Proof.
  apply (proj2 (proj2 (proj2 (runner_guards
                                "sheet1" 5 "Company" 3 sample_agents
                                (start (sim_start true true sample_df)
                                       no_results))))
               (sim_start true true sample_df) sample_df).
  - discriminate.
  - reflexivity.
  - right. cbn. lia.
Defined.

Lemma runner_row_lookup_witness :
  exists cells : list value,
    nth_error (rows sample_df) 2 = Some cells
    /\ fst (run_agents_pipeline "sheet1" 4 "Company" 1 sample_agents
              (start (sim_start true true sample_df) no_results))
       = fst (try_except
                (run_agents_on (series sample_df cells) 4 "Company" 1
                               sample_agents)
                (fun e => emit (StError ("Error running agents: " ++ e)))
                {| world := sim_start true true sample_df;
                   trace := [ReadSheetDf "sheet1"];
                   locals := no_results |}).
Proof.
  destruct (runner_row_lookup "sheet1" 4 "Company" 1 sample_agents
              (start (sim_start true true sample_df) no_results)
              (sim_start true true sample_df) sample_df)
    as (cells & Hn & Hrun); [discriminate | reflexivity | cbn; lia |].
  exists cells. split; [exact Hn|]. now rewrite Hrun.
Defined.

Lemma runner_too_many_agents_witness :
  snd (run_agents_on (sample_row 0) 2 "Company" 4 sample_agents
                     (start (sim_start true true sample_df) no_results))
  = inl "list index out of range"%string
  /\ length (results (locals (fst (run_agents_on
                                     (sample_row 0) 2 "Company" 4 sample_agents
                                     (start (sim_start true true sample_df)
                                            no_results)))))
     = 3%nat.
Proof.
  rewrite (runner_too_many_agents (sample_row 0) 2 "Company" 4 sample_agents
             (start (sim_start true true sample_df) no_results))
    by (cbn; lia).
  split; reflexivity.
Defined.

(** ** The sidebar *)












(** ** The provider selector *)

(** X17.  The provider selector never fails and always offers one of the three
    providers: the agent's own when it is one of them, and "openai" when
    the agent has none, an unknown one, or one that is not a string. *)
Theorem provider_offered_spec (agent : dict) :
  exists p : string,
    provider_offered agent = inr p
    /\ In p provider_options
    /\ (forall s, dict_get agent "provider" = Some (VStr s) ->
                  In s provider_options -> p = s)
    /\ (dict_get agent "provider" = None -> p = "openai"%string)
    /\ (forall s, dict_get agent "provider" = Some (VStr s) ->
                  ~ In s provider_options -> p = "openai"%string)
    /\ (forall v, dict_get agent "provider" = Some v ->
                  (forall s, v <> VStr s) -> p = "openai"%string).
Proof.
  unfold provider_offered, provider_index, get.
  destruct (dict_get agent "provider") as [v|] eqn:Hv.
  - destruct v as [| |b|z|r|s];
      try (exists "openai"%string; cbn;
           split; [reflexivity|]; split; [auto|];
           split; [intros s' [=]|]; split; [discriminate|];
           split; [intros s' [=] | reflexivity]).
    cbn [value_in index_of_value].
    destruct (Py.str_in s provider_options) eqn:Hin.
    + apply str_in_In in Hin.
      assert (Hcases : s = "openai"%string \/ s = "gemini"%string
                       \/ s = "grok"%string).
      { cbn in Hin. intuition auto. }
      exists s.
      assert (Hrun : match
                       match index_of provider_options s with
                       | inl e => inl e
                       | inr i =>
                           match nth_error provider_options i with
                           | Some p => inr p
                           | None => inl "Selectbox index out of range"%string
                           end
                       end
                     with inl _ => False | inr p => p = s end).
      { destruct Hcases as [-> | [-> | ->]]; reflexivity. }
      split.
      { destruct Hcases as [-> | [-> | ->]]; reflexivity. }
      split; [exact Hin|].
      split; [intros s' [= <-] _; reflexivity|].
      split; [discriminate|].
      split; [intros s' [= <-] Hno; now elim Hno|].
      intros v [= <-] Hno. now elim (Hno s).
    + exists "openai"%string. split; [reflexivity|]. split; [cbn; auto|].
      split.
      { intros s' [= <-] Hs. apply (proj2 (str_in_In _ _)) in Hs. congruence. }
      split; [reflexivity|]. split; reflexivity.
  - exists "openai"%string. cbn.
    split; [reflexivity|]. split; [auto|].
    split; [discriminate|]. split; [reflexivity|].
    split; [discriminate | discriminate].
Qed.

(** The witness of X17: an agent without a provider, one with a provider
    that the selector does not know, and one with "gemini". *)
Lemma provider_offered_spec_witness :
  provider_offered [("id", VStr "x")] = inr "openai"%string
  /\ provider_offered [("id", VStr "x"); ("provider", VStr "anthropic")]
     = inr "openai"%string
  /\ provider_offered [("id", VStr "x"); ("provider", VStr "gemini")]
     = inr "gemini"%string.
Proof.
  split; [|split].
  - destruct (provider_offered_spec [("id", VStr "x")])
      as (p & Hp & _ & _ & Hnone & _).
    rewrite Hp, Hnone; reflexivity.
  - destruct (provider_offered_spec
                [("id", VStr "x"); ("provider", VStr "anthropic")])
      as (p & Hp & _ & _ & _ & Hother & _).
    rewrite Hp, (Hother "anthropic"%string); [reflexivity | reflexivity|].
    intros [H|[H|[H|[]]]]; discriminate.
  - destruct (provider_offered_spec
                [("id", VStr "x"); ("provider", VStr "gemini")])
      as (p & Hp & _ & Hown & _).
    rewrite Hp, (Hown "gemini"%string); [reflexivity | reflexivity|].
    cbn; tauto.
Defined.

(** ** The column headers of a new sheet *)


Lemma has_char_eq (c d : ascii) (s : string) :
  has_char c s = true -> has_char d s = false -> c <> d.
Proof. intros Hc Hd ->. congruence. Qed.




Lemma split_on_whole (sep : ascii) (p : string) :
  has_char sep p = false -> split_on sep p = [p].
Proof.
  induction p as [|c p IH]; intros Hp; [reflexivity|].
  cbn [has_char] in Hp. apply orb_false_iff in Hp as [Hc Hp].
  cbn [split_on]. rewrite Hc, (IH Hp). reflexivity.
Qed.

Lemma split_on_piece (sep : ascii) (p rest : string) :
  has_char sep p = false ->
  split_on sep (p ++ String sep rest) = p :: split_on sep rest.
Proof.
  induction p as [|c p IH]; intros Hp.
  - cbn. now rewrite Ascii.eqb_refl.
  - cbn [has_char] in Hp. apply orb_false_iff in Hp as [Hc Hp].
    cbn [append split_on]. rewrite Hc, (IH Hp). reflexivity.
Qed.

Lemma clean_header_kept (lead : bool) (h : string) :
  clean_header h ->
  let p := ((if lead then " " else "") ++ h)%string in
  has_char "," p = false
  /\ Py.truthy (Py.strip p) = true
  /\ Py.strip p = h.
Proof.
  intros (Hne & Hstrip & Hcomma). cbv zeta.
  assert (Hp : Py.strip ((if lead then " " else "") ++ h) = h).
  { destruct lead; [|exact Hstrip].
    unfold Py.strip in *. rewrite lstrip_space by (cbn; tauto).
    exact Hstrip. }
  split; [|split; [|exact Hp]].
  - destruct lead; cbn [append has_char]; [|exact Hcomma]. exact Hcomma.
  - rewrite Hp. destruct h; [now elim Hne | reflexivity].
Qed.

Lemma parse_joined (hs : list string) :
  Forall clean_header hs ->
  forall (lead : bool) (h : string),
    clean_header h ->
    parse_headers ((if lead then " " else "") ++ join_comma (h :: hs)) = h :: hs.
Proof.
  induction 1 as [|h2 hs Hh2 Hhs IH]; intros lead h Hh.
  - cbn [join_comma].
    destruct (clean_header_kept lead h Hh) as (Hc & Ht & Hs).
    unfold parse_headers. rewrite (split_on_whole _ _ Hc).
    cbn [filter]. rewrite Ht. cbn [map]. now rewrite Hs.
  - change (join_comma (h :: h2 :: hs))
      with (h ++ ", " ++ join_comma (h2 :: hs))%string.
    destruct (clean_header_kept lead h Hh) as (Hc & Ht & Hs).
    rewrite <- append_assoc.
    change (", " ++ join_comma (h2 :: hs))%string
      with (String "," (" " ++ join_comma (h2 :: hs))).
    unfold parse_headers. rewrite (split_on_piece _ _ _ Hc).
    cbn [filter]. rewrite Ht. cbn [map]. rewrite Hs. f_equal.
    exact (IH true h2 Hh2).
Qed.

(** X19.  Headers typed the usual way come back as typed: a list of clean
    headers, written out separated by a comma and a blank, is parsed into
    that same list. *)
Theorem parse_headers_join (hs : list string) :
  Forall clean_header hs -> parse_headers (join_comma hs) = hs.
Proof.
  intros Hall. destruct Hall as [|h hs Hh Hhs]; [reflexivity|].
  exact (parse_joined hs Hhs false h Hh).
Qed.

Lemma parse_headers_join_witness :
  parse_headers "Company, Industry, Revenue"
  = ["Company"; "Industry"; "Revenue"]%string.
Proof.
  apply (parse_headers_join ["Company"; "Industry"; "Revenue"]%string).
  repeat constructor; try discriminate; reflexivity.
Defined.

(** ** The setup tabs *)

Section SetupProperties.

Context {World : Type} `{DS : DriveSetup World}.

(** X20.  "Use This Template" stores a usable identifier or nothing: a field
    left blank only brings a warning and the session is untouched;
    otherwise the identifier stored is the field without the blanks around
    it, it is not empty, and no other entry of the session changes.  No
    outside call is made either way. *)
Theorem use_template_spec (template_id : string)
        (s : state World setup_locals) :
  let s' := fst (use_template_clicked template_id s) in
  snd (use_template_clicked template_id s) = inr tt
  /\ world s' = world s
  /\ calls (locals s') = calls (locals s)
  /\ (Py.strip template_id = ""%string ->
      ss (locals s') = ss (locals s)
      /\ trace s' = (trace s ++ [StWarning "Please enter a template ID"])%list)
  /\ (Py.strip template_id <> ""%string ->
      exists tid : string,
        ss_template_id (ss (locals s')) = Some tid
        /\ tid = Py.strip template_id
        /\ Py.strip tid = tid
        /\ truthy_opt (ss_template_id (ss (locals s'))) = true
        /\ ss_spreadsheet_id (ss (locals s')) = ss_spreadsheet_id (ss (locals s))
        /\ ss_spreadsheet_url (ss (locals s')) = ss_spreadsheet_url (ss (locals s))
        /\ ss_dest_folder_id (ss (locals s')) = ss_dest_folder_id (ss (locals s))).
Proof.
  cbv zeta. unfold use_template_clicked.
  destruct (Py.strip template_id) as [|c t] eqn:Hs; cbn [Py.truthy].
  - cbn. repeat split; try reflexivity. intros Hne. now elim Hne.
  - unfold bind, set_session, modify_locals, emit.
    cbn [fst snd world trace locals ss calls ss_template_id ss_spreadsheet_id
           ss_spreadsheet_url ss_dest_folder_id truthy_opt Py.truthy].
    repeat split; try reflexivity; try discriminate.
    intros _. exists (String c t). repeat split; try reflexivity.
    rewrite <- Hs. apply strip_idem.
Qed.

Lemma session_eta (st : session_state) :
  {| ss_spreadsheet_id := ss_spreadsheet_id st;
     ss_spreadsheet_url := ss_spreadsheet_url st;
     ss_dest_folder_id := ss_dest_folder_id st;
     ss_template_id := ss_template_id st |} = st.
Proof. destruct st; reflexivity. Qed.

(** X21.  "Create Sheet" when something fails.  If the folder cannot be
    ensured, the sheet is not created; if the sheet cannot be created, a
    folder ensured just before is not remembered.  In both cases the
    session is left as it was, the error is shown as "Error creating
    sheet", and no exception leaves the handler. *)
Theorem create_sheet_failure
        (sheet_title headers_input folder_id create_dest_folder : string)
        (s : state World setup_locals) :
  let wanted := Py.truthy folder_id || Py.truthy create_dest_folder in
  let ensure := EnsureFolder folder_id create_dest_folder in
  let create := CreateSheet sheet_title (full_headers headers_input) in
  let failed (w : World) (made : list setup_call) (e : exn) :=
    create_sheet_clicked sheet_title headers_input folder_id
                         create_dest_folder s
    = ({| world := w;
          trace := trace s ++ [StError ("❌ Error creating sheet: " ++ e)];
          locals := {| ss := ss (locals s);
                       calls := calls (locals s) ++ made |} |}, inr tt) in
  (forall w1 e,
      wanted = true ->
      gs_ensure_folder folder_id create_dest_folder (world s) = (w1, inl e) ->
      failed w1 [ensure] e)
  /\ (forall w1 w2 id e,
         wanted = true ->
         gs_ensure_folder folder_id create_dest_folder (world s)
         = (w1, inr id) ->
         gs_create_sheet sheet_title (full_headers headers_input) w1
         = (w2, inl e) ->
         failed w2 [ensure; create] e)
  /\ (forall w2 e,
         wanted = false ->
         gs_create_sheet sheet_title (full_headers headers_input) (world s)
         = (w2, inl e) ->
         failed w2 [create] e).
Proof.
  cbv zeta. unfold create_sheet_clicked, full_headers. split; [|split].
  - intros w1 e Hw Hens. rewrite Hw.
    unfold try_except, bind, call_out, emit. rewrite Hens.
    cbn [world trace locals ss calls]. reflexivity.
  - intros w1 w2 id e Hw Hens Hcr. rewrite Hw.
    unfold try_except, bind, call_out, emit, ret. rewrite Hens.
    cbn [world trace locals ss calls]. rewrite Hcr.
    cbn [world trace locals ss calls]. rewrite <- app_assoc. reflexivity.
  - intros w2 e Hw Hcr. rewrite Hw.
    unfold try_except, bind, call_out, emit, ret.
    cbn [world trace locals ss calls]. rewrite Hcr.
    cbn [world trace locals ss calls]. reflexivity.
Qed.

(** X22.  "Create Sheet" when everything returns: the sheet is created once,
    with the parsed headers followed by the five control columns; the
    session then holds the identifier and the URL that [create_sheet] gave
    and the folder, if one was asked for; the template entry is not
    touched. *)
Theorem create_sheet_success
        (sheet_title headers_input folder_id create_dest_folder : string)
        (s : state World setup_locals) (w1 w2 : World)
        (dest : option string) (made : list setup_call)
        (info : list (string * string)) (sid url : string) :
  (if Py.truthy folder_id || Py.truthy create_dest_folder
   then exists id,
       gs_ensure_folder folder_id create_dest_folder (world s) = (w1, inr id)
       /\ dest = Some id
       /\ made = [EnsureFolder folder_id create_dest_folder]
   else w1 = world s /\ dest = None /\ made = []) ->
  gs_create_sheet sheet_title (parse_headers headers_input ++ control_cols) w1
  = (w2, inr info) ->
  lookup info "spreadsheet_id" = Some sid ->
  lookup info "url" = Some url ->
  exists shown : list event,
    create_sheet_clicked sheet_title headers_input folder_id
                         create_dest_folder s
    = ({| world := w2;
          trace := trace s ++ shown;
          locals :=
            {| ss := {| ss_spreadsheet_id := Some sid;
                        ss_spreadsheet_url := Some url;
                        ss_dest_folder_id := dest;
                        ss_template_id := ss_template_id (ss (locals s)) |};
               calls := calls (locals s) ++ made
                        ++ [CreateSheet sheet_title
                              (parse_headers headers_input ++ control_cols)]
            |} |}, inr tt)
    /\ In (StSuccess "✅ Sheet created successfully!") shown
    /\ In (StMarkdown (Text (sheet_card url))) shown.
Proof.
  intros Hfolder Hcr Hsid Hurl. unfold create_sheet_clicked.
  destruct (Py.truthy folder_id || Py.truthy create_dest_folder).
  - destruct Hfolder as (id & Hens & -> & ->).
    unfold try_except, bind, call_out, eval, subscript, set_session,
      modify_locals, emit.
    rewrite Hens. unfold ret at 1. cbn [world trace locals ss calls].
    rewrite Hcr. cbn [world trace locals ss calls]. rewrite Hsid.
    unfold ret at 1.
    cbn [world trace locals ss calls ss_spreadsheet_id ss_spreadsheet_url
           ss_dest_folder_id ss_template_id].
    rewrite Hurl. unfold ret at 1.
    cbn [world trace locals ss calls ss_spreadsheet_id ss_spreadsheet_url
           ss_dest_folder_id ss_template_id truthy_opt].
    destruct (Py.truthy id); unfold ret;
      cbn [world trace locals ss calls]; rewrite <- !app_assoc;
      eexists; (split; [reflexivity|]); cbn; auto.
  - destruct Hfolder as (-> & -> & ->).
    unfold try_except, bind, call_out, eval, subscript, set_session,
      modify_locals, emit.
    unfold ret at 1. cbn [world trace locals ss calls].
    rewrite Hcr. cbn [world trace locals ss calls]. rewrite Hsid.
    unfold ret at 1.
    cbn [world trace locals ss calls ss_spreadsheet_id ss_spreadsheet_url
           ss_dest_folder_id ss_template_id].
    rewrite Hurl. unfold ret.
    cbn [world trace locals ss calls ss_spreadsheet_id ss_spreadsheet_url
           ss_dest_folder_id ss_template_id truthy_opt].
    rewrite <- ?app_assoc. cbn [app]. eexists. split; [reflexivity|].
    cbn. auto.
Qed.

(** X23.  The two ways of making a template from content.  With nothing
    uploaded, or a pasted text that is blank, nothing happens and no call
    is made.  Otherwise the content goes to Drive as it is (the pasted
    text unstripped), together with the session's folder; the template
    entry becomes the new identifier when the call returns, and stays as
    it was, with an error shown, when it raises. *)
Theorem template_from_content (tpl_title : string)
        (s : state World setup_locals) :
  let folder := ss_dest_folder_id (ss (locals s)) in
  let stored (new_id : string) :=
    {| ss_spreadsheet_id := ss_spreadsheet_id (ss (locals s));
       ss_spreadsheet_url := ss_spreadsheet_url (ss (locals s));
       ss_dest_folder_id := folder;
       ss_template_id := Some new_id |} in
  convert_clicked None tpl_title s = (s, inr tt)
  /\ (forall tpl_text, Py.strip tpl_text = ""%string ->
                       create_template_clicked tpl_text tpl_title s = (s, inr tt))
  /\ (forall file_bytes w1 r,
         gs_upload_docx_as_gdoc file_bytes tpl_title folder (world s) = (w1, r) ->
         convert_clicked (Some file_bytes) tpl_title s
         = ({| world := w1;
               trace := trace s
                        ++ [match r with
                            | inr new_id =>
                                StSuccess ("✅ Converted successfully! ID: "
                                             ++ new_id)
                            | inl e => StError ("❌ Conversion error: " ++ e)
                            end];
               locals :=
                 {| ss := match r with
                          | inr new_id => stored new_id
                          | inl _ => ss (locals s)
                          end;
                    calls := calls (locals s)
                             ++ [UploadDocxAsGdoc file_bytes tpl_title folder]
                 |} |}, inr tt))
  /\ (forall tpl_text w1 r,
         Py.strip tpl_text <> ""%string ->
         gs_create_gdoc_from_text tpl_title tpl_text folder (world s) = (w1, r) ->
         create_template_clicked tpl_text tpl_title s
         = ({| world := w1;
               trace := trace s
                        ++ [match r with
                            | inr new_id =>
                                StSuccess ("✅ Template created! ID: " ++ new_id)
                            | inl e => StError ("❌ Creation error: " ++ e)
                            end];
               locals :=
                 {| ss := match r with
                          | inr new_id => stored new_id
                          | inl _ => ss (locals s)
                          end;
                    calls := calls (locals s)
                             ++ [CreateGdocFromText tpl_title tpl_text folder]
                 |} |}, inr tt)).
Proof.
  cbv zeta. split; [reflexivity|]. split; [|split].
  - intros tpl_text Hblank. unfold create_template_clicked.
    rewrite Hblank. reflexivity.
  - intros file_bytes w1 r Hup.
    unfold convert_clicked, try_except, bind, get_locals, call_out,
      set_template, set_session, modify_locals, emit.
    cbn [world trace locals ss calls]. rewrite Hup.
    destruct r as [e|new_id]; reflexivity.
  - intros tpl_text w1 r Hne Hmk. unfold create_template_clicked.
    destruct (Py.strip tpl_text) as [|c t]; [now elim Hne|].
    cbn [Py.truthy].
    unfold try_except, bind, get_locals, call_out, set_template, set_session,
      modify_locals, emit.
    cbn [world trace locals ss calls]. rewrite Hmk.
    destruct r as [e|new_id]; reflexivity.
Qed.

End SetupProperties.

Section GeneratePageProperties.

Context {World : Type} `{GU : GoogleUtils World} `{CK : Clock World}.

(** X24.  The generation tab does nothing but warn until both a spreadsheet and
    a template are configured: no sheet is read and no document copied.
    It asks for the spreadsheet first.  With both in place it is the tab
    proper, run on the identifiers and the folder of the session. *)
Theorem tab4_page_guard (st : session_state) (o : gen_options)
        (s : state World counters) :
  (truthy_opt (ss_spreadsheet_id st) = false ->
   tab4_page st o s
   = ({| world := world s;
         trace := trace s
                  ++ [StWarning "⚠️ Please create or connect a spreadsheet first (Sheet Setup tab)"];
         locals := locals s |}, inr tt))
  /\ (truthy_opt (ss_spreadsheet_id st) = true ->
      truthy_opt (ss_template_id st) = false ->
      tab4_page st o s
      = ({| world := world s;
            trace := trace s
                     ++ [StWarning "⚠️ Please configure a template first (Template Manager tab)"];
            locals := locals s |}, inr tt))
  /\ (forall sid tid,
         ss_spreadsheet_id st = Some sid -> sid <> ""%string ->
         ss_template_id st = Some tid -> tid <> ""%string ->
         tab4_page st o s
         = tab4 {| spreadsheet_id := sid;
                   template_id := tid;
                   dest_folder_id := ss_dest_folder_id st |} o s).
Proof.
  unfold tab4_page. split; [|split].
  - intros ->. reflexivity.
  - intros -> ->. reflexivity.
  - intros sid tid -> Hsid -> Htid. cbn [truthy_opt].
    destruct sid; [now elim Hsid|]. destruct tid; [now elim Htid|].
    reflexivity.
Qed.

End GeneratePageProperties.

Lemma use_template_spec_witness :
  ss_template_id
    (ss (locals (fst (use_template_clicked "  tpl-42 "
                        (start (sim_start true true sample_df) fresh_setup)))))
  = Some "tpl-42"%string.
Proof.
  destruct (use_template_spec "  tpl-42 "
              (start (sim_start true true sample_df) fresh_setup))
    as (_ & _ & _ & _ & Hset).
  destruct Hset as (tid & Hid & Htid & _); [vm_compute; discriminate|].
  rewrite Hid, Htid. reflexivity.
Defined.

Lemma create_sheet_failure_witness :
  create_sheet_clicked "Workspace" "Company, Industry" "" "Reports"
                       (start (sim_start false true sample_df) fresh_setup)
  = ({| world := sim_start false true sample_df;
        trace := [StError "❌ Error creating sheet: Drive unavailable"];
        locals := {| ss := no_session;
                     calls := [EnsureFolder "" "Reports"] |} |}, inr tt).
Proof.
  apply (proj1 (create_sheet_failure
                  "Workspace" "Company, Industry" "" "Reports"
                  (start (sim_start false true sample_df) fresh_setup))
               (sim_start false true sample_df) "Drive unavailable"%string);
    reflexivity.
Defined.

Lemma create_sheet_success_witness :
  exists shown : list event,
    create_sheet_clicked "Workspace" "Company, Industry" "" ""
                         (start (sim_start true true sample_df) fresh_setup)
    = ({| world :=
            with_sheet (sim_start true true sample_df)
                       {| columns := ["Company"; "Industry"; "Generate";
                                      "Status"; "Doc URL"; "Generated At";
                                      "PDF URL"];
                          rows := [] |};
          trace := shown;
          locals :=
            {| ss := {| ss_spreadsheet_id := Some "sheet1"%string;
                        ss_spreadsheet_url :=
                          Some "https://docs.google.com/spreadsheets/d/sheet1"%string;
                        ss_dest_folder_id := None;
                        ss_template_id := None |};
               calls := [CreateSheet "Workspace"
                           ["Company"; "Industry"; "Generate"; "Status";
                            "Doc URL"; "Generated At"; "PDF URL"]] |} |},
       inr tt).
Proof.
  destruct (create_sheet_success
              "Workspace" "Company, Industry" "" ""
              (start (sim_start true true sample_df) fresh_setup)
              (sim_start true true sample_df)
              (with_sheet (sim_start true true sample_df)
                          {| columns := ["Company"; "Industry"; "Generate";
                                         "Status"; "Doc URL"; "Generated At";
                                         "PDF URL"];
                             rows := [] |})
              None []
              [("spreadsheet_id", "sheet1");
               ("url", "https://docs.google.com/spreadsheets/d/sheet1")]
              "sheet1" "https://docs.google.com/spreadsheets/d/sheet1")
    as (shown & Hrun & _); try reflexivity.
  - cbn. auto.
  - exists shown. exact Hrun.
Defined.

Lemma template_from_content_witness :
  ss_template_id
    (ss (locals (fst (create_template_clicked
                        "Dear {{Company}}" "Text Template"
                        (start (sim_start true true sample_df) fresh_setup)))))
  = Some "doc1"%string.
Proof.
  destruct (template_from_content
              "Text Template"
              (start (sim_start true true sample_df) fresh_setup))
    as (_ & _ & _ & Hpaste).
  rewrite (Hpaste "Dear {{Company}}"%string (sim_start true true sample_df)
                  (inr "doc1"%string)); [reflexivity | discriminate | reflexivity].
Defined.

(** A field that holds a no-break space and nothing else is blank: the
    template buttons treat it as empty, the generation loop sees no
    document in such a Doc URL cell, and a header keeps none at its end. *)
Example no_break_space_is_blank :
  let s0 := start (sim_start true true sample_df) fresh_setup in
  use_template_clicked nbsp s0
  = ({| world := world s0;
        trace := [StWarning "Please enter a template ID"];
        locals := locals s0 |}, inr tt)
  /\ create_template_clicked (nbsp ++ " ") "Text Template" s0 = (s0, inr tt)
  /\ has_url [("Doc URL", VStr nbsp)] = false
  /\ parse_headers ("Company," ++ nbsp ++ "Revenue" ++ nbsp)
     = ["Company"; "Revenue"]%string.
Proof. vm_compute. repeat split. Qed.

Lemma tab4_page_guard_witness :
  tab4_page no_session sample_options
            (start (sim_start true true sample_df) no_counts)
  = ({| world := sim_start true true sample_df;
        trace := [StWarning "⚠️ Please create or connect a spreadsheet first (Sheet Setup tab)"];
        locals := no_counts |}, inr tt).
Proof.
  apply (proj1 (tab4_page_guard
                  no_session sample_options
                  (start (sim_start true true sample_df) no_counts))).
  reflexivity.
Defined.

(** ** More on the generation loop *)

Lemma dict_keys_set_new (d : dict) (k : string) (v : value) :
  ~ In k (dict_keys d) -> dict_keys (dict_set d k v) = (dict_keys d ++ [k])%list.
Proof.
  induction d as [|[k' v'] d IH]; intros Hnew; [reflexivity|].
  cbn [dict_set]. destruct (String.eqb_spec k' k) as [->|Hne].
  - elim Hnew. now left.
  - cbn [dict_keys map fst app]. f_equal. apply IH.
    intros Hin. apply Hnew. now right.
Qed.

Lemma build_mapping_keys_from (row : Series) (cols : list string) :
  forall d : dict,
    NoDup (dict_keys d ++ cols) ->
    dict_keys (fold_left (fun d c => dict_set d c (get row c (VStr ""))) cols d)
    = (dict_keys d ++ cols)%list.
Proof.
  induction cols as [|c cols IH]; intros d Hnd.
  - cbn. now rewrite app_nil_r.
  - cbn [fold_left]. rewrite IH.
    + rewrite dict_keys_set_new, <- app_assoc; [reflexivity|].
      apply NoDup_remove_2 in Hnd. intros Hin. apply Hnd.
      apply in_or_app. now left.
    + rewrite dict_keys_set_new, <- app_assoc; [exact Hnd|].
      apply NoDup_remove_2 in Hnd. intros Hin. apply Hnd.
      apply in_or_app. now left.
Qed.

(** X25.  With distinct column labels, the mapping handed to
    [replace_placeholders] has exactly the columns of the dataframe as its
    keys, once each and in their order, and nothing else: a text between
    double braces that is not a column is given no replacement. *)
Theorem build_mapping_keys (cols : list string) (row : Series) :
  NoDup cols ->
  dict_keys (build_mapping cols row) = cols
  /\ forall k, ~ In k cols -> dict_get (build_mapping cols row) k = None.
Proof.
  intros Hnd. split.
  - unfold build_mapping. now rewrite build_mapping_keys_from.
  - intros k Hk. unfold build_mapping. rewrite build_mapping_from.
    destruct (in_dec string_dec k cols); [contradiction | reflexivity].
Qed.

Lemma build_mapping_keys_witness :
  dict_keys (build_mapping (columns sample_df) (sample_row 0))
  = columns sample_df.
Proof.
  apply (build_mapping_keys (columns sample_df) (sample_row 0)).
  repeat constructor; cbn; intuition discriminate.
Defined.

(** X26.  How cells that are not text fare in the two tests of the loop.  A
    sheet without a Doc URL column counts as a sheet without URLs, but a
    Doc URL cell that is missing (NaN or None) reads as the text "nan" or
    "None" and makes the row count as generated.  A trigger cell that holds
    the boolean True or the number 1 selects its row; a missing trigger
    cell, or a sheet without the column, selects nothing. *)
Theorem cells_that_are_not_text (pdf : bool) (pattern : string) (sel : list Z)
        (idx : Z) (row : Series) :
  let by_trigger :=
    {| gen_mode := "Rows with Generate=TRUE"; create_pdf := pdf;
       custom_filename := pattern; manual_sel := sel |} in
  (dict_get row URL_COL = None -> has_url row = false)
  /\ (forall v, dict_get row URL_COL = Some v -> isna v = true ->
                has_url row = true)
  /\ (dict_get row TRIGGER_COL = Some (VBool true) ->
      selection_skip by_trigger (idx + 2) row = false)
  /\ (dict_get row TRIGGER_COL = Some (VInt 1) ->
      selection_skip by_trigger (idx + 2) row = false)
  /\ (dict_get row TRIGGER_COL = None ->
      selection_skip by_trigger (idx + 2) row = true)
  /\ (forall v, dict_get row TRIGGER_COL = Some v -> isna v = true ->
                selection_skip by_trigger (idx + 2) row = true).
Proof.
  cbv zeta. unfold has_url, selection_skip, get.
  cbn [gen_mode String.eqb Ascii.eqb Bool.eqb andb].
  repeat split.
  - intros ->. reflexivity.
  - intros v -> Hna. destruct v; try discriminate Hna; reflexivity.
  - intros ->. reflexivity.
  - intros ->. reflexivity.
  - intros ->. reflexivity.
  - intros v -> Hna. destruct v; try discriminate Hna; reflexivity.
Qed.

Lemma cells_that_are_not_text_witness :
  has_url [("Company", VStr "Acme"); ("Doc URL", VNaN)] = true
  /\ has_url [("Company", VStr "Acme")] = false.
Proof.
  split.
  - apply (proj1 (proj2 (cells_that_are_not_text
                           true "" [] 0
                           [("Company", VStr "Acme"); ("Doc URL", VNaN)]))
                 VNaN); reflexivity.
  - apply (proj1 (cells_that_are_not_text true "" [] 0
                                          [("Company", VStr "Acme")])).
    reflexivity.
Defined.

Lemma last_progress_from (tr : list event) :
  forall shown,
    fold_left (fun shown ev =>
                 match ev with
                 | StProgress num den => Some (num, den)
                 | _ => shown
                 end) tr shown
    = match last_progress tr with
      | Some p => Some p
      | None => shown
      end.
Proof.
  unfold last_progress. induction tr as [|ev tr IH]; intros shown;
    [reflexivity|].
  cbn [fold_left]. rewrite IH. rewrite (IH (match ev with
                                            | StProgress num den => Some (num, den)
                                            | _ => None
                                            end)).
  destruct (fold_left _ tr None); [reflexivity|]. destruct ev; reflexivity.
Qed.

Lemma last_progress_app (a b : list event) :
  last_progress (a ++ b)
  = match last_progress b with
    | Some p => Some p
    | None => last_progress a
    end.
Proof.
  unfold last_progress at 1. rewrite fold_left_app.
  fold (last_progress a). apply last_progress_from.
Qed.

Lemma last_selected_from (o : gen_options) (irs : list (Z * Series)) :
  forall found,
    fold_left (fun found ir => if selected o ir then Some (fst ir) else found)
              irs found
    = match last_selected o irs with
      | Some i => Some i
      | None => found
      end.
Proof.
  unfold last_selected. induction irs as [|ir irs IH]; intros found;
    [reflexivity|].
  cbn [fold_left]. rewrite IH.
  rewrite (IH (if selected o ir then Some (fst ir) else None)).
  destruct (fold_left _ irs None); [reflexivity|].
  destruct (selected o ir); reflexivity.
Qed.

Section GenerateProgress.

Context {World : Type} `{GU : GoogleUtils World} `{CK : Clock World}.

(** A turn that ends normally for a row acted upon moves the bar last. *)
Lemma generate_step_progress (sess : session) (o : gen_options)
      (df : DataFrame) (idx : Z) (row : Series)
      (s s' : state World counters) :
  selected o (idx, row) = true ->
  generate_step sess o df (idx, row) s = (s', inr tt) ->
  last_progress (trace s') = Some (idx + 1, len df).
Proof.
  unfold selected, generate_step. cbn [fst snd].
  destruct (selection_skip o (idx + 2) row); cbn [negb andb]; [discriminate|].
  destruct (has_url row); cbn [negb andb]; [discriminate|]. intros _.
  unfold bind at 1.
  destruct (try_except _ _ s) as [s1 [e|u]]; [discriminate|].
  unfold emit. intros [= <-]. cbn [trace].
  rewrite last_progress_app. reflexivity.
Qed.

Lemma generate_loop_progress (sess : session) (o : gen_options)
      (df : DataFrame) :
  forall (irs : list (Z * Series)) (s s' : state World counters),
    for_each irs (generate_step sess o df) s = (s', inr tt) ->
    last_progress (trace s')
    = match last_selected o irs with
      | Some idx => Some (idx + 1, len df)
      | None => last_progress (trace s)
      end.
Proof.
  induction irs as [|[idx row] irs IH]; intros s s' Hrun.
  - cbn in Hrun. now injection Hrun as <-.
  - cbn [for_each] in Hrun. unfold bind in Hrun.
    destruct (generate_step sess o df (idx, row) s) as [s1 [e|[]]] eqn:Hstep;
      [discriminate|].
    rewrite (IH _ _ Hrun). unfold last_selected at 2. cbn [fold_left].
    rewrite last_selected_from.
    destruct (last_selected o irs) as [i|]; [reflexivity|].
    destruct (selected o (idx, row)) eqn:Hsel.
    + cbn [fst]. exact (generate_step_progress _ _ _ _ _ _ _ Hsel Hstep).
    + pose proof (generate_step_effect _ _ _ _ _ _ _ _ Hstep) as Heff.
      rewrite Hsel in Heff. destruct Heff as [-> _]. reflexivity.
Qed.

(** X27.  Rows that are passed over do not move the progress bar.  When a run
    completes, the bar stands where the last row acted upon left it, at
    (index + 1) / len(df), and at 0 when no row was acted upon: it reaches
    the end only if the last row of the sheet was acted upon. *)
Theorem progress_stops_at_last_selected_row (sess : session)
        (o : gen_options) (df : DataFrame) (s s' : state World counters) :
  generate_documents sess o df s = (s', inr tt) ->
  last_progress (trace s')
  = match last_selected o (iterrows df) with
    | Some idx => Some (idx + 1, len df)
    | None => Some (0, 1)
    end.
Proof.
  rewrite generate_documents_unfold.
  destruct (for_each _ _ _) as [s1 [e|[]]] eqn:Hloop; [discriminate|].
  intros [= <-]. cbn [trace]. rewrite last_progress_app. cbn [last_progress fold_left].
  rewrite (generate_loop_progress _ _ _ _ _ _ Hloop). cbn [trace].
  rewrite last_progress_app. reflexivity.
Qed.

End GenerateProgress.

Lemma progress_stops_at_last_selected_row_witness :
  last_progress
    (trace (fst (generate_documents
                   sample_session
                   {| gen_mode := "Manual selection"; create_pdf := false;
                      custom_filename := "{{Company}}"; manual_sel := [2] |}
                   sample_df (start (sim_start true true sample_df) no_counts))))
  = Some (1, 3).
Proof.
  rewrite (progress_stops_at_last_selected_row
             sample_session
             {| gen_mode := "Manual selection"; create_pdf := false;
                custom_filename := "{{Company}}"; manual_sel := [2] |}
             sample_df (start (sim_start true true sample_df) no_counts)
             (fst (generate_documents
                     sample_session
                     {| gen_mode := "Manual selection"; create_pdf := false;
                        custom_filename := "{{Company}}"; manual_sel := [2] |}
                     sample_df
                     (start (sim_start true true sample_df) no_counts))));
    [reflexivity | vm_compute; reflexivity].
Defined.
